(** * E-DNA quiz backend: scoring engine and download-token protocol

    A shallow embedding of the scoring functions of [scoring.js]
    ([calculateLayer1] .. [calculateLayer7], [calculateAllResults]), of
    the PostgreSQL persistence module [postgres-db.js] ([saveQuizResult],
    [getQuizResultByEmail], [createDownloadToken], [verifyDownloadToken])
    and of the [GET /download] handler and the token step of the Express
    application, with the properties the specification states about
    them. *)

From Stdlib Require Import String Ascii List ZArith QArith Qround Lia Bool.
From stdpp Require Import base strings gmap.
Import ListNotations.

Local Open Scope string_scope.
Local Open Scope list_scope.

(** ** JavaScript values, as far as the scoring code can observe them *)

Module JS.

(** A value found in an answer map or read off an object literal.  The
    scoring code only ever compares such a value with a string literal
    ([===]), tests its truthiness, calls [charCodeAt] on it or uses it as
    a property key, so a value that is not a string (a number, a boolean,
    [null], an array, an object, a built-in function) is represented by
    its truthiness and by the string [ToPropertyKey] turns it into.
    [undefined] is the absence of a value ([None]).  A value whose
    conversion to a property key throws (an object with a non-callable
    [toString]) has no representative here: on such an answer the lookups
    [mapping[answer]] of Layers 2 and 4 throw, and nothing below speaks
    of it. *)
Inductive jsval : Type :=
  | JStr (s : string)
  | JOther (truthy : bool) (key : string).

Definition truthy (v : option jsval) : bool :=
  match v with
  | Some (JStr s) => negb (s =? "")
  | Some (JOther b _) => b
  | None => false
  end.

(** [v === lit] for a string literal [lit]. *)
Definition strict_eq (v : option jsval) (lit : string) : bool :=
  match v with
  | Some (JStr s) => s =? lit
  | _ => false
  end.

Definition ToPropertyKey (v : jsval) : string :=
  match v with
  | JStr s => s
  | JOther _ k => k
  end.

Definition is_string (v : jsval) : bool :=
  match v with JStr _ => true | JOther _ _ => false end.

(** Outcome of a computation that may throw. *)
Inductive completion (A : Type) : Type :=
  | Return (a : A)
  | Throw (error : string).
Arguments Return {A} a.
Arguments Throw {A} error.

#[global] Instance completion_ret : MRet completion := fun A a => Return a.

#[global] Instance completion_bind : MBind completion := fun A B k c =>
  match c with
  | Return a => k a
  | Throw e => Throw e
  end.

(** Objects with string keys, in insertion order (none of the keys the
    code writes is an array index, so [Object.entries] enumerates them in
    the order they were created). *)
Definition object (A : Type) : Type := list (string * A).

Fixpoint get_own {A} (o : object A) (k : string) : option A :=
  match o with
  | [] => None
  | (k', v) :: o' => if k' =? k then Some v else get_own o' k
  end.

Fixpoint set_own {A} (o : object A) (k : string) (v : A) : object A :=
  match o with
  | [] => [(k, v)]
  | (k', v') :: o' =>
      if k' =? k then (k', v) :: o' else (k', v') :: set_own o' k v
  end.

(** The properties every object literal inherits from [Object.prototype]
    on Node.js, each with the string its value converts to when it is
    used as a property key. *)
Definition native (name : string) : string :=
  "function " +:+ name +:+ "() { [native code] }".

Definition Object_prototype : object string :=
  [ ("constructor", native "Object");
    ("__defineGetter__", native "__defineGetter__");
    ("__defineSetter__", native "__defineSetter__");
    ("hasOwnProperty", native "hasOwnProperty");
    ("__lookupGetter__", native "__lookupGetter__");
    ("__lookupSetter__", native "__lookupSetter__");
    ("isPrototypeOf", native "isPrototypeOf");
    ("propertyIsEnumerable", native "propertyIsEnumerable");
    ("toString", native "toString");
    ("valueOf", native "valueOf");
    ("__proto__", "[object Object]");
    ("toLocaleString", native "toLocaleString") ].

(** [lit[v]] for an object literal [lit] whose own values are strings:
    own properties first, then the prototype. *)
Definition get_literal (lit : object string) (v : jsval) : option jsval :=
  match get_own lit (ToPropertyKey v) with
  | Some s => Some (JStr s)
  | None =>
      match get_own Object_prototype (ToPropertyKey v) with
      | Some k => Some (JOther true k)
      | None => None
      end
  end.

(** [v || ''] *)
Definition or_empty (v : option jsval) : jsval :=
  if truthy v then match v with Some x => x | None => JStr "" end
  else JStr "".

(** [String.prototype.includes] *)
Fixpoint includes (s sub : string) : bool :=
  if String.prefix sub s then true
  else match s with
       | EmptyString => false
       | String _ s' => includes s' sub
       end.

Definition toUpperCase_char (c : ascii) : ascii :=
  let n := nat_of_ascii c in
  if (97 <=? n)%nat && (n <=? 122)%nat then ascii_of_nat (n - 32) else c.

Definition toLowerCase_char (c : ascii) : ascii :=
  let n := nat_of_ascii c in
  if (65 <=? n)%nat && (n <=? 90)%nat then ascii_of_nat (n + 32) else c.

(** [String.prototype.toLowerCase] (and SQL [LOWER]) on the ASCII
    range: [A] .. [Z] are mapped, every other character is kept, so the
    function is the built-in one on strings of ASCII characters only. *)
Fixpoint toLowerCase (s : string) : string :=
  match s with
  | EmptyString => EmptyString
  | String c s' => String (toLowerCase_char c) (toLowerCase s')
  end.

(** Decimal rendering of a loop counter inside a template literal. *)
Fixpoint digits (fuel n : nat) (acc : string) : string :=
  match fuel with
  | O => acc
  | S fuel' =>
      let acc' := String (ascii_of_nat (48 + n mod 10)) acc in
      if (n / 10 =? 0)%nat then acc' else digits fuel' (n / 10) acc'
  end.

Definition Number_toString (n : nat) : string := digits (S n) n "".

(** *** Numbers

    The scoring code divides small counters and rounds the quotient; the
    values that matter are the finite ones, the infinities and [NaN].
    Finite values are exact rationals (for the counters at hand, at most
    five, the double-precision quotient rounds to the same integer). *)
Inductive number : Type :=
  | Finite (q : Q)
  | PosInf
  | NegInf
  | NaN.

Definition of_nat (n : nat) : number := Finite (inject_Z (Z.of_nat n)).

Definition add (x y : number) : number :=
  match x, y with
  | NaN, _ | _, NaN => NaN
  | Finite a, Finite b => Finite (a + b)
  | PosInf, NegInf | NegInf, PosInf => NaN
  | PosInf, _ | _, PosInf => PosInf
  | NegInf, _ | _, NegInf => NegInf
  end.

Definition sign (q : Q) : comparison := (Qnum q ?= 0)%Z.

Definition flip (x : number) : number :=
  match x with PosInf => NegInf | NegInf => PosInf | _ => x end.

Definition mul (x y : number) : number :=
  match x, y with
  | NaN, _ | _, NaN => NaN
  | Finite a, Finite b => Finite (a * b)
  | Finite a, i | i, Finite a =>
      match sign a with Eq => NaN | Gt => i | Lt => flip i end
  | PosInf, PosInf | NegInf, NegInf => PosInf
  | _, _ => NegInf
  end.

Definition div (x y : number) : number :=
  match x, y with
  | NaN, _ | _, NaN => NaN
  | Finite a, Finite b =>
      match sign b with
      | Eq => match sign a with Eq => NaN | Gt => PosInf | Lt => NegInf end
      | _ => Finite (a / b)
      end
  | Finite _, _ => Finite 0
  | i, Finite b => match sign b with Lt => flip i | _ => i end
  | _, _ => NaN
  end.

Definition Math_round (x : number) : number :=
  match x with
  | Finite q => Finite (inject_Z (Qfloor (q + (1 # 2))))
  | _ => x
  end.

(** [x > y] *)
Definition gt (x y : number) : bool :=
  match x, y with
  | NaN, _ | _, NaN => false
  | Finite a, Finite b => match (a ?= b)%Q with Gt => true | _ => false end
  | PosInf, PosInf | NegInf, _ | _, PosInf => false
  | _, _ => true
  end.

End JS.

Import JS.

(** ** The scoring engine ([scoring.js]) *)

Module Scoring.

(** The [answers] argument: an object from question identifiers to the
    values submitted for them.  In an answer map of the data model every
    value is a choice-code string. *)
Abbreviation AnswerMap := (gmap string jsval).

(** [answers[qid]] ; no question identifier names an inherited property. *)
Definition answer (answers : AnswerMap) (qid : string) : option jsval :=
  answers !! qid.

(** *** Layer 1: decision identity *)

Record Layer1 : Type := {
  l1_type : string;
  architectCount : nat;
  alchemistCount : nat
}.

Definition calculateLayer1 (answers : AnswerMap) : Layer1 :=
  let '(architectCount, alchemistCount) :=
    fold_left
      (fun '(architectCount, alchemistCount) i =>
         let answer := answer answers ("L1_Q" +:+ Number_toString i) in
         let architectCount :=
           if strict_eq answer "a" then S architectCount else architectCount in
         let alchemistCount :=
           if strict_eq answer "b" then S alchemistCount else alchemistCount in
         (architectCount, alchemistCount))
      (seq 1 8) (0, 0)%nat in
  let type :=
    if (architectCount =? 8)%nat && (alchemistCount =? 0)%nat then "Strong Architect"
    else if (architectCount =? 7)%nat && (alchemistCount =? 1)%nat then "Medium Architect"
    else if (architectCount =? 6)%nat && (alchemistCount =? 2)%nat then "Weak Architect"
    else if (architectCount =? 0)%nat && (alchemistCount =? 8)%nat then "Strong Alchemist"
    else if (architectCount =? 1)%nat && (alchemistCount =? 7)%nat then "Medium Alchemist"
    else if (architectCount =? 2)%nat && (alchemistCount =? 6)%nat then "Weak Alchemist"
    else "Blurred" in
  {| l1_type := type;
     architectCount := architectCount;
     alchemistCount := alchemistCount |}.

(** *** Layer 2: execution style subtype *)

Record Layer2 : Type := {
  l2_subtype : string;
  l2_path : string;
  l2_scores : object nat
}.

Definition architect_mapping : object string :=
  [("a", "planner"); ("b", "operator"); ("c", "analyst"); ("d", "ultimate")].

Definition alchemist_mapping : object string :=
  [("a", "oracle"); ("b", "perfectionist"); ("c", "empath"); ("d", "ultimate")].

(** The entry of [scores] that gets the highest count, the first one
    seen winning a tie; [''] when [scores] is empty. *)
Definition dominant (scores : object nat) : string :=
  fst (fold_left
         (fun '(subtype, maxScore) '(key, value) =>
            if (maxScore <? value)%nat then (key, value) else (subtype, maxScore))
         scores ("", 0%nat)).

(** [s.charAt(0).toUpperCase() + s.slice(1)] *)
Definition capitalize (s : string) : string :=
  match s with
  | EmptyString => EmptyString
  | String c s' => String (toUpperCase_char c) s'
  end.

Definition calculateLayer2 (answers : AnswerMap) (layer1Result : Layer1) : Layer2 :=
  let '(path, questionPrefix) :=
    if includes (l1_type layer1Result) "Architect" then ("architect", "L2_Q")
    else if includes (l1_type layer1Result) "Alchemist" then ("alchemist", "L2_Q")
    else ("mixed", "L2_Qm") in
  let scores :=
    fold_left
      (fun (scores : object nat) i =>
         let qid :=
           if path =? "alchemist" then questionPrefix +:+ Number_toString i +:+ "a"
           else questionPrefix +:+ Number_toString i in
         let answer := answer answers qid in
         if truthy answer then
           let scoreKey :=
             if path =? "architect" then
               or_empty (a ← answer; get_literal architect_mapping a)
             else if path =? "alchemist" then
               or_empty (a ← answer; get_literal alchemist_mapping a)
             else JStr "" in
           if truthy (Some scoreKey) then
             (* the key is a subtype name or the string of an inherited
                value, never the name of an inherited property *)
             let k := ToPropertyKey scoreKey in
             set_own scores k (default 0%nat (get_own scores k) + 1)%nat
           else scores
         else scores)
      (seq 9 8) [] in
  {| l2_subtype := capitalize (dominant scores);
     l2_path := path;
     l2_scores := scores |}.

(** *** Layer 3: mirror awareness *)

Record Dimension : Type := { score : nat; label : string }.

Record Layer3 : Type := {
  totalScore : nat;
  maxScore : nat;
  l3_dimensions : object Dimension
}.

Record DimData : Type := { name : string; labels : list string }.

(** [labels[i]]: [undefined] outside the array. *)
Definition at_index (labels : list string) (i : Z) : option jsval :=
  if (i <? 0)%Z then None else JStr <$> nth_error labels (Z.to_nat i).

(** [labels[i] || ''] *)
Definition label_at (labels : list string) (i : Z) : string :=
  ToPropertyKey (or_empty (at_index labels i)).

Definition dimensionMap : object DimData :=
  [ ("L3_Q17", {| name := "Validator Awareness"; labels := ["Opposite"; "Partial"; "Full"] |});
    ("L3_Q18", {| name := "Emotional Regulation"; labels := ["Reactive"; "Aware"; "Integrated"] |});
    ("L3_Q19", {| name := "Feedback Processing"; labels := ["Defensive"; "Selective"; "Open"] |});
    ("L3_Q20", {| name := "Blind Spot Recognition"; labels := ["Unaware"; "Emerging"; "Aware"] |});
    ("L3_Q21", {| name := "Self-Correction Speed"; labels := ["Slow"; "Moderate"; "Fast"] |});
    ("L3_Q22", {| name := "Growth Orientation"; labels := ["Fixed"; "Mixed"; "Growth"] |}) ].

Definition calculateLayer3 (answers : AnswerMap) : Layer3 :=
  let '(dimensions, totalScore) :=
    fold_left
      (fun '(dimensions, totalScore) '(qid, dimData) =>
         let answer := answer answers qid in
         let '(score, label) :=
           if strict_eq answer "a" then (0, nth 0 (labels dimData) "")
           else if strict_eq answer "b" then (1, nth 1 (labels dimData) "")
           else if strict_eq answer "c" then (2, nth 2 (labels dimData) "")
           else (0, "") in
         (set_own dimensions (name dimData) {| score := score; label := label |},
          totalScore + score))
      dimensionMap ([], 0) in
  {| totalScore := totalScore; maxScore := 12; l3_dimensions := dimensions |}.

(** *** Layer 4: learning style (VARK) *)

Record Percentages : Type := {
  pct_visual : number;
  pct_auditory : number;
  pct_readWrite : number;
  pct_kinesthetic : number
}.

Record Layer4 : Type := {
  dominantModality : string;
  l4_scores : object number;
  percentages : Percentages
}.

Definition vark_mapping : object string :=
  [("a", "visual"); ("b", "auditory"); ("c", "readWrite"); ("d", "kinesthetic")].

(** [scores[k]++]: an absent property reads as [undefined], whose
    increment is [NaN]. *)
Definition increment (scores : object number) (k : string) : object number :=
  set_own scores k
    (match get_own scores k with
     | Some n => add n (of_nat 1)
     | None => NaN
     end).

(** [scores.k] for one of the four keys of the literal. *)
Definition field (scores : object number) (k : string) : number :=
  default NaN (get_own scores k).

Definition calculateLayer4 (answers : AnswerMap) : Layer4 :=
  let scores0 : object number :=
    [("visual", of_nat 0); ("auditory", of_nat 0);
     ("readWrite", of_nat 0); ("kinesthetic", of_nat 0)] in
  let scores :=
    fold_left
      (fun (scores : object number) i =>
         let answer := answer answers ("L4_Q" +:+ Number_toString i) in
         let bucket := a ← answer; get_literal vark_mapping a in
         if truthy answer && truthy bucket then
           match bucket with
           | Some b => increment scores (ToPropertyKey b)
           | None => scores
           end
         else scores)
      (seq 23 5) scores0 in
  let total := fold_left (fun sum '(_, val) => add sum val) scores (of_nat 0) in
  let percent (k : string) :=
    Math_round (mul (div (field scores k) total) (of_nat 100)) in
  let '(dominantModality, _) :=
    fold_left
      (fun '(dominantModality, maxScore) '(key, value) =>
         if gt value maxScore then (key, value) else (dominantModality, maxScore))
      scores ("visual", field scores "visual") in
  {| dominantModality := dominantModality;
     l4_scores := scores;
     percentages :=
       {| pct_visual := percent "visual";
          pct_auditory := percent "auditory";
          pct_readWrite := percent "readWrite";
          pct_kinesthetic := percent "kinesthetic" |} |}.

(** *** Layer 5: neuro performance *)

Record Layer5 : Type := { profile : object jsval }.

Definition l5_dimensions : list (string * string) :=
  [ ("L5_Q28", "Focus Pattern"); ("L5_Q29", "Processing Speed");
    ("L5_Q30", "Energy Pattern"); ("L5_Q31", "Task Switching");
    ("L5_Q32", "Stress Response"); ("L5_Q33", "Recovery Pattern") ].

Definition calculateLayer5 (answers : AnswerMap) : Layer5 :=
  {| profile :=
       fold_left
         (fun (profile : object jsval) '(qid, name) =>
            match answer answers qid with
            | Some a => if truthy (Some a) then set_own profile name a else profile
            | None => profile
            end)
         l5_dimensions [] |}.

(** *** Layer 6: mindset and personality *)

Record Mindset : Type := {
  growthFixed : string;
  abundanceScarcity : string;
  challengeComfort : string
}.

Record Personality : Type := { coreType : string; communicationStyle : string }.

Record Layer6 : Type := { mindset : Mindset; personality : Personality }.

Definition calculateLayer6 (answers : AnswerMap) : Layer6 :=
  let mindset :=
    {| growthFixed := if strict_eq (answer answers "L6_Q34") "a" then "Growth" else "Fixed";
       abundanceScarcity :=
         if strict_eq (answer answers "L6_Q35") "a" then "Abundance" else "Scarcity";
       challengeComfort :=
         if strict_eq (answer answers "L6_Q36") "a" then "Challenge" else "Comfort" |} in
  let q37 := answer answers "L6_Q37" in
  let q38 := answer answers "L6_Q38" in
  let coreType :=
    if strict_eq q37 "a" && strict_eq q38 "a" then "Confident & Steady"
    else if strict_eq q37 "a" && strict_eq q38 "b" then "Confident & Driven"
    else if strict_eq q37 "b" && strict_eq q38 "a" then "Considerate & Steady"
    else if strict_eq q37 "b" && strict_eq q38 "b" then "Fast-Moving & Adaptive"
    else "" in
  let communicationStyle :=
    if strict_eq (answer answers "L6_Q39") "a" then "Direct Communicator"
    else "Diplomatic Communicator" in
  {| mindset := mindset;
     personality := {| coreType := coreType; communicationStyle := communicationStyle |} |}.

(** *** Layer 7: meta-beliefs and values *)

Record Layer7 : Type := { beliefs : object string }.

Definition l7_mapping : object DimData :=
  [ ("L7_Q40", {| name := "Grounding Source";
                  labels := ["Self-Reliant"; "Faith-Reliant"; "Dual-Reliant"] |});
    ("L7_Q41", {| name := "Control Belief";
                  labels := ["I'm In Control"; "Life Influences Me"; "Shared Control"] |});
    ("L7_Q42", {| name := "Fairness View";
                  labels := ["Responsibility View"; "Compassion View"; "Balanced View"] |});
    ("L7_Q43", {| name := "Honesty Style";
                  labels := ["Direct Honesty"; "Gentle Honesty"; "Balanced Honesty"] |});
    ("L7_Q44", {| name := "Growth Approach";
                  labels := ["Growth Focused"; "Comfort Focused"; "Steady Growth"] |});
    ("L7_Q45", {| name := "Impact Motivation";
                  labels := ["Self-Focused Impact"; "Others-Focused Impact"; "Shared Impact"] |}) ].

(** [answer.charCodeAt(0)]: the code of the first character of a string
    ([NaN], here [None], for the empty string); a value that is not a
    string has no [charCodeAt] method and the call throws. *)
Definition charCodeAt0 (answer : jsval) : completion (option Z) :=
  match answer with
  | JStr (String c _) => Return (Some (Z.of_nat (nat_of_ascii c)))
  | JStr EmptyString => Return None
  | JOther _ _ => Throw "TypeError: answer.charCodeAt is not a function"
  end.

Definition calculateLayer7 (answers : AnswerMap) : completion Layer7 :=
  beliefs ←
    fold_left
      (fun (acc : completion (object string)) '(qid, data) =>
         beliefs ← acc;
         match answer answers qid with
         | Some a =>
             if truthy (Some a) then
               code ← charCodeAt0 a;
               let index := (fun c => c - 97)%Z <$> code in
               let label :=
                 match index with
                 | Some i => label_at (labels data) i
                 | None => ""
                 end in
               Return (set_own beliefs (name data) label)
             else Return beliefs
         | None => Return beliefs
         end)
      l7_mapping (Return []);
  Return {| beliefs := beliefs |}.

(** *** All seven layers *)

Record QuizResult : Type := {
  layer1 : Layer1;
  layer2 : Layer2;
  layer3 : Layer3;
  layer4 : Layer4;
  layer5 : Layer5;
  layer6 : Layer6;
  layer7 : Layer7
}.

Definition calculateAllResults (answers : AnswerMap) : completion QuizResult :=
  let layer1 := calculateLayer1 answers in
  let layer2 := calculateLayer2 answers layer1 in
  let layer3 := calculateLayer3 answers in
  let layer4 := calculateLayer4 answers in
  let layer5 := calculateLayer5 answers in
  let layer6 := calculateLayer6 answers in
  layer7 ← calculateLayer7 answers;
  Return {| layer1 := layer1; layer2 := layer2; layer3 := layer3; layer4 := layer4;
            layer5 := layer5; layer6 := layer6; layer7 := layer7 |}.

End Scoring.

(** ** The PostgreSQL persistence module ([postgres-db.js]) *)

Module PostgresDb.

(** *** Text functions of JavaScript and of the database server

    Strings are byte strings; case mapping and white space are those of
    the ASCII range. *)

Definition is_js_space (c : ascii) : bool :=
  let n := nat_of_ascii c in
  ((9 <=? n)%nat && (n <=? 13)%nat) || (n =? 32)%nat.

Definition is_sql_space (c : ascii) : bool := (nat_of_ascii c =? 32)%nat.

Fixpoint strip_start (ws : ascii -> bool) (s : string) : string :=
  match s with
  | EmptyString => EmptyString
  | String c s' => if ws c then strip_start ws s' else s
  end.

Fixpoint strip_end (ws : ascii -> bool) (s : string) : string :=
  match s with
  | EmptyString => EmptyString
  | String c s' =>
      let r := strip_end ws s' in
      if (r =? "") && ws c then EmptyString else String c r
  end.

(** [String.prototype.trim] on the ASCII range: the characters 9 to 13
    and 32 are white space; the white space outside ASCII (U+00A0,
    U+FEFF, U+2028 and the like) is not modelled. *)
Definition trim (s : string) : string := strip_end is_js_space (strip_start is_js_space s).

(** SQL [LOWER(TRIM(s))]: [TRIM] removes spaces only. *)
Definition LOWER_TRIM (s : string) : string :=
  toLowerCase (strip_end is_sql_space (strip_start is_sql_space s)).

(** SQL [LIKE] with the default escape character: [%] stands for any
    run of characters, [_] for any one character, and a backslash takes
    the next pattern character literally.  A pattern ending in a lone
    backslash is rejected by the server; the patterns built here end in
    [%], so that case cannot arise and is given no match. *)
Fixpoint LIKE (pattern text : string) : bool :=
  match pattern with
  | EmptyString => text =? ""
  | String "%" p =>
      (fix any (t : string) : bool :=
         LIKE p t || match t with
                     | EmptyString => false
                     | String _ t' => any t'
                     end) text
  | String "_" p =>
      match text with
      | EmptyString => false
      | String _ t => LIKE p t
      end
  | String "\" (String c p) =>
      match text with
      | EmptyString => false
      | String d t => Ascii.eqb c d && LIKE p t
      end
  | String "\" EmptyString => false
  | String c p =>
      match text with
      | EmptyString => false
      | String d t => Ascii.eqb c d && LIKE p t
      end
  end.

(** [text ILIKE pattern] *)
Definition ILIKE (text pattern : string) : bool :=
  LIKE (toLowerCase pattern) (toLowerCase text).

(** Assignment to a [VARCHAR(n)] column: a longer value is an error
    unless the excess is all spaces, which are cut off. *)
Fixpoint take (n : nat) (s : string) : string :=
  match n, s with
  | S n', String c s' => String c (take n' s')
  | _, _ => EmptyString
  end.

Fixpoint drop (n : nat) (s : string) : string :=
  match n, s with
  | S n', String _ s' => drop n' s'
  | _, _ => s
  end.

Definition VARCHAR (n : nat) (s : string) : option string :=
  if (String.length s <=? n)%nat then Some s
  else if strip_start is_sql_space (drop n s) =? "" then Some (take n s)
  else None.

(** Input conversion of the [UUID] type: thirty-two hexadecimal digits,
    in either case, optionally in braces and with a hyphen after any
    group of four digits; the value is kept in canonical form. *)
Definition is_xdigit (c : ascii) : bool :=
  let n := nat_of_ascii c in
  ((48 <=? n)%nat && (n <=? 57)%nat) || ((97 <=? n)%nat && (n <=? 102)%nat)
  || ((65 <=? n)%nat && (n <=? 70)%nat).

Fixpoint uuid_digits (count i : nat) (src : string) : option (string * string) :=
  match count with
  | O => Some ("", src)
  | S count' =>
      match src with
      | String a (String b rest) =>
          if is_xdigit a && is_xdigit b then
            let rest' :=
              match rest with
              | String "-" r => if Nat.odd i && (i <? 15)%nat then r else rest
              | _ => rest
              end in
            '(ds, tail) ← uuid_digits count' (S i) rest';
            Some (String (toLowerCase_char a) (String (toLowerCase_char b) ds), tail)
          else None
      | _ => None
      end
  end.

Definition uuid_in (s : string) : option string :=
  let '(braces, src) :=
    match s with
    | String "{" r => (true, r)
    | _ => (false, s)
    end in
  '(ds, tail) ← uuid_digits 16 0 src;
  if tail =? (if braces : bool then "}" else "") then
    Some (take 8 ds +:+ "-" +:+ take 4 (drop 8 ds) +:+ "-" +:+ take 4 (drop 12 ds)
          +:+ "-" +:+ take 4 (drop 16 ds) +:+ "-" +:+ drop 20 ds)
  else None.

Definition INTEGER (z : option Z) : option (option Z) :=
  match z with
  | None => Some None
  | Some n => if ((-2147483648 <=? n) && (n <=? 2147483647))%Z then Some (Some n) else None
  end.

(** *** Tables *)

(** A row of [quiz_results]; [quiz_data] is the stored JSON document. *)
Record quiz_result : Type := {
  q_id : string;
  q_user_id : option string;
  q_email : string;
  q_name : option string;
  q_quiz_data : string;
  q_edna_type : option string;
  q_core_type : option string;
  q_subtype : option string;
  q_core_mastery : option Z;
  q_subtype_mastery : option Z;
  q_pdf_url : option string;
  q_s3_key : option string;
  q_created_at : Z;
  q_updated_at : Z
}.

(** A row of [pdf_download_tokens]. *)
Record download_token : Type := {
  t_token : string;
  t_quiz_result_id : string;
  t_expires_at : Z;
  t_created_at : Z
}.

Record database : Type := {
  quiz_results : list quiz_result;
  pdf_download_tokens : list download_token
}.

Definition empty : database := {| quiz_results := []; pdf_download_tokens := [] |}.

(** What the functions of the module resolve to:
    [{ success: true, data }] or [{ success: false, error }]. *)
Inductive outcome (A : Type) : Type :=
  | success (data : A)
  | failure (error : string).
Arguments success {A} data.
Arguments failure {A} error.

(** The message of an error raised by the server (a value that does not
    fit its column, a violated constraint); its text is the server's. *)
Definition server_error : string := "error reported by the database server".

(** The [results] argument of [saveQuizResult], as far as the function
    reads it: its JSON rendering and five top-level fields. *)
Record Results : Type := {
  json : string;
  ednaType : option string;
  coreType : option string;
  subtype : option string;
  coreTypeMastery : option Z;
  subtypeMastery : option Z
}.

(** [v || null] *)
Definition or_null_string (v : option string) : option string :=
  match v with
  | Some s => if s =? "" then None else Some s
  | None => None
  end.

Definition or_null_number (v : option Z) : option Z :=
  match v with
  | Some n => if (n =? 0)%Z then None else Some n
  | None => None
  end.

(** [ON CONFLICT (id) DO UPDATE SET ...]: the row that holds the key
    takes the proposed values of the listed columns and a fresh
    [updated_at]; its [email], [name] and [created_at] stay. *)
Definition do_update (now : Z) (old excluded : quiz_result) : quiz_result :=
  {| q_id := q_id old;
     q_user_id := q_user_id old;
     q_email := q_email old;
     q_name := q_name old;
     q_quiz_data := q_quiz_data excluded;
     q_edna_type := q_edna_type excluded;
     q_core_type := q_core_type excluded;
     q_subtype := q_subtype excluded;
     q_core_mastery := q_core_mastery excluded;
     q_subtype_mastery := q_subtype_mastery excluded;
     q_pdf_url := q_pdf_url excluded;
     q_s3_key := q_s3_key excluded;
     q_created_at := q_created_at old;
     q_updated_at := now |}.

(** [INSERT ... ON CONFLICT (id) DO UPDATE ... RETURNING *] *)
Fixpoint upsert (now : Z) (row : quiz_result) (rows : list quiz_result)
  : list quiz_result * quiz_result :=
  match rows with
  | [] => ([row], row)
  | r :: rs =>
      if q_id r =? q_id row then
        let r' := do_update now r row in (r' :: rs, r')
      else
        let '(rs', returned) := upsert now row rs in (r :: rs', returned)
  end.

(** [saveQuizResult(id, email, name, results, pdfUrl, s3Key)].  The
    errors modelled are those of the column types ([UUID], [VARCHAR],
    [INTEGER]); texts holding a NUL character and documents holding the
    escape for U+0000, which the server also rejects, are taken not to
    occur. *)
Definition saveQuizResult (now : Z) (db : database)
    (id email : string) (name : option string) (results : Results)
    (pdfUrl s3Key : option string) : outcome quiz_result * database :=
  let normalizedEmail := trim (toLowerCase email) in
  let values :=
    id ← uuid_in id;
    email ← VARCHAR 255 normalizedEmail;
    name ← (match name with Some n => Some <$> VARCHAR 255 n | None => Some None end);
    edna_type ← (match or_null_string (ednaType results) with
                 | Some s => Some <$> VARCHAR 100 s | None => Some None end);
    core_type ← (match or_null_string (coreType results) with
                 | Some s => Some <$> VARCHAR 50 s | None => Some None end);
    subtype ← (match or_null_string (subtype results) with
               | Some s => Some <$> VARCHAR 50 s | None => Some None end);
    core_mastery ← INTEGER (or_null_number (coreTypeMastery results));
    subtype_mastery ← INTEGER (or_null_number (subtypeMastery results));
    Some {| q_id := id; q_user_id := None; q_email := email; q_name := name;
            q_quiz_data := json results;
            q_edna_type := edna_type; q_core_type := core_type; q_subtype := subtype;
            q_core_mastery := core_mastery; q_subtype_mastery := subtype_mastery;
            q_pdf_url := pdfUrl; q_s3_key := s3Key;
            q_created_at := now; q_updated_at := now |} in
  match values with
  | None => (failure server_error, db)
  | Some row =>
      let '(rows, returned) := upsert now row (quiz_results db) in
      (success returned,
       {| quiz_results := rows; pdf_download_tokens := pdf_download_tokens db |})
  end.

(** [ORDER BY created_at DESC LIMIT 1].  The server leaves the order
    among rows created at the same instant open; the model takes the
    earliest stored, and the statements about it say no more than that a
    newest row is returned. *)
Fixpoint latest (rows : list quiz_result) : option quiz_result :=
  match rows with
  | [] => None
  | r :: rs =>
      match latest rs with
      | Some r' => if (q_created_at r <? q_created_at r')%Z then Some r' else Some r
      | None => Some r
      end
  end.

Definition getQuizResultByEmail (db : database) (email : string) : outcome quiz_result :=
  let normalizedEmail := trim (toLowerCase email) in
  let result :=
    latest (List.filter (fun q => LOWER_TRIM (q_email q) =? normalizedEmail) (quiz_results db)) in
  match result with
  | None =>
      let fallbackResult :=
        latest (List.filter (fun q => ILIKE (q_email q) ("%" +:+ normalizedEmail +:+ "%"))
                  (quiz_results db)) in
      match fallbackResult with
      | Some row => success row
      | None => failure "Quiz result not found"
      end
  | Some row => success row
  end.

Definition createDownloadToken (now : Z) (db : database)
    (token quizResultId : string) (expiresAt : Z) : outcome unit * database :=
  let row :=
    token ← VARCHAR 255 token;
    quiz_result_id ← uuid_in quizResultId;
    Some {| t_token := token; t_quiz_result_id := quiz_result_id;
            t_expires_at := expiresAt; t_created_at := now |} in
  match row with
  | None => (failure server_error, db)
  | Some row =>
      if existsb (fun t => t_token t =? t_token row) (pdf_download_tokens db) then
        (failure server_error, db) (* primary key *)
      else if negb (existsb (fun q => q_id q =? t_quiz_result_id row) (quiz_results db)) then
        (failure server_error, db) (* foreign key *)
      else
        (success (),
         {| quiz_results := quiz_results db;
            pdf_download_tokens := pdf_download_tokens db ++ [row] |})
  end.

(** The rows of
    [pdf_download_tokens t JOIN quiz_results q ON t.quiz_result_id = q.id
     WHERE t.token = $1 AND t.expires_at > CURRENT_TIMESTAMP]. *)
Definition live_links (now : Z) (db : database) (token : string)
  : list (download_token * quiz_result) :=
  t ← pdf_download_tokens db;
  q ← quiz_results db;
  if (t_quiz_result_id t =? q_id q) && (t_token t =? token) && (now <? t_expires_at t)%Z
  then [(t, q)] else [].

Definition verifyDownloadToken (now : Z) (db : database) (token : string)
  : outcome (download_token * quiz_result) :=
  match live_links now db token with
  | [] => failure "Invalid or expired token"
  | row :: _ => success row
  end.

(** [SELECT * FROM quiz_results WHERE id = $1] *)
Definition getQuizResultById (db : database) (id : string) : outcome quiz_result :=
  match uuid_in id with
  | None => failure server_error
  | Some id =>
      match List.filter (fun q => q_id q =? id) (quiz_results db) with
      | [] => failure "Quiz result not found"
      | row :: _ => success row
      end
  end.

(** The clean-up function of the schema:
    [DELETE FROM pdf_download_tokens WHERE expires_at < CURRENT_TIMESTAMP]. *)
Definition cleanup_expired_tokens (now : Z) (db : database) : database :=
  {| quiz_results := quiz_results db;
     pdf_download_tokens :=
       List.filter (fun t => negb (t_expires_at t <? now)%Z) (pdf_download_tokens db) |}.

(** *** Quiz progress *)

(** A row of [quiz_progress]; [progress_data] is the stored JSON text. *)
Record quiz_progress : Type := {
  p_email : string;
  p_progress_data : string;
  p_created_at : Z;
  p_updated_at : Z
}.

(** [INSERT ... ON CONFLICT (email) DO UPDATE SET progress_data = $2,
    updated_at = CURRENT_TIMESTAMP] *)
Fixpoint upsert_progress (now : Z) (email data : string) (rows : list quiz_progress)
  : list quiz_progress :=
  match rows with
  | [] => [{| p_email := email; p_progress_data := data;
              p_created_at := now; p_updated_at := now |}]
  | r :: rs =>
      if p_email r =? email then
        {| p_email := p_email r; p_progress_data := data;
           p_created_at := p_created_at r; p_updated_at := now |} :: rs
      else r :: upsert_progress now email data rs
  end.

(** [saveQuizProgress(email, progressData)], on the JSON text of
    [progressData]: it returns [true] or rethrows the server's error. *)
Definition saveQuizProgress (now : Z) (rows : list quiz_progress)
    (email progressData : string) : completion bool * list quiz_progress :=
  match VARCHAR 255 email with
  | None => (Throw server_error, rows)
  | Some email => (Return true, upsert_progress now email progressData rows)
  end.

(** [getQuizProgress(email)]: [{ progressData, updatedAt }] or [null]. *)
Definition getQuizProgress (rows : list quiz_progress) (email : string)
  : option (string * Z) :=
  match List.filter (fun r => p_email r =? email) rows with
  | [] => None
  | r :: _ => Some (p_progress_data r, p_updated_at r)
  end.

(** The server rejects a text parameter that holds a NUL character. *)
Fixpoint has_nul (s : string) : bool :=
  match s with
  | EmptyString => false
  | String c s' => (nat_of_ascii c =? 0)%nat || has_nul s'
  end.

(** [deleteQuizProgress(email)]: [true], or [false] when the statement
    failed and the error was caught. *)
Definition deleteQuizProgress (rows : list quiz_progress) (email : string)
  : bool * list quiz_progress :=
  if has_nul email then (false, rows)
  else (true, List.filter (fun r => negb (p_email r =? email)) rows).

End PostgresDb.

(** ** Version-4 UUIDs (the [uuid] package, [v4] and [stringify]) *)

Module Uuid.

Definition hex_digit (n : Z) : ascii :=
  ascii_of_nat (Z.to_nat (if (n <? 10)%Z then 48 + n else 87 + n)%Z).

(** [byteToHex[b]], that is [(b + 0x100).toString(16).slice(1)]. *)
Definition byteToHex (b : Z) : string :=
  String (hex_digit (Z.shiftr b 4)) (String (hex_digit (Z.land b 15)) EmptyString).

Definition byte_at (arr : list Z) (i : nat) : Z := default 0%Z (arr !! i).

Definition unsafeStringify (arr : list Z) : string :=
  let h i := byteToHex (byte_at arr i) in
  h 0%nat +:+ h 1%nat +:+ h 2%nat +:+ h 3%nat +:+ "-" +:+
  h 4%nat +:+ h 5%nat +:+ "-" +:+
  h 6%nat +:+ h 7%nat +:+ "-" +:+
  h 8%nat +:+ h 9%nat +:+ "-" +:+
  h 10%nat +:+ h 11%nat +:+ h 12%nat +:+ h 13%nat +:+ h 14%nat +:+ h 15%nat.

(** [v4()], on the sixteen bytes [rnds] its random source returned:
    the version and variant fields overwrite six of the random bits. *)
Definition v4 (rnds : list Z) : string :=
  let rnds := <[6%nat := Z.lor (Z.land (byte_at rnds 6) 0x0f) 0x40]> rnds in
  let rnds := <[8%nat := Z.lor (Z.land (byte_at rnds 8) 0x3f) 0x80]> rnds in
  unsafeStringify rnds.

(** A result of the random source: sixteen bytes. *)
Definition random_bytes (rnds : list Z) : Prop :=
  length rnds = 16%nat /\ Forall (fun b => 0 <= b < 256)%Z rnds.

End Uuid.

(** ** The Express application *)

Module Index.

Import PostgresDb.

Inductive response : Type :=
  | Json (status : nat) (error : string)
  | Redirect (url : string).

Section Download.

(** The object-storage collaborator of [s3.js]: it resolves to
    [{ success: true, url }] or to [{ success: false, error }]. *)
Variable generatePresignedPdfUrl : option string -> nat -> outcome string.

(** [app.get('/download', ...)], on the [token] query parameter. *)
Definition download (now : Z) (db : database) (token : option jsval) : response :=
  if negb (truthy token) then Json 400 "Missing token"
  else
    match token with
    | Some (JStr token) =>
        match verifyDownloadToken now db token with
        | failure _ => Json 404 "Invalid or unknown link"
        | success (_, record) =>
            match generatePresignedPdfUrl (q_s3_key record) (7 * 60 * 60) with
            | failure _ => Json 500 "Could not generate download link"
            | success url => Redirect url
            end
        end
    | _ => Json 500 "Internal server error"
    end.

End Download.

(** The token step shared by [POST /api/quiz/generate-pdf] and
    [generatePDFInBackground]: mint a token, store it with a seven-day
    expiry and, when that succeeded, build the public download link.
    [rnds] is what the random source hands to [uuidv4]; times are in
    milliseconds. *)
Definition issue_download_link (rnds : list Z) (now : Z) (db : database)
    (resultId publicBaseUrl : string) : string * option string * database :=
  let token := Uuid.v4 rnds in
  let expiresAt := (now + 7 * 24 * 60 * 60 * 1000)%Z in
  let '(tokenResult, db') := createDownloadToken now db token resultId expiresAt in
  match tokenResult with
  | success _ => (token, Some (publicBaseUrl +:+ "/download?token=" +:+ token), db')
  | failure _ => (token, None, db')
  end.

(** *** Saving results and the background task *)

(** The [results] object of a request: what [saveQuizResult] reads of
    it, and the [core_type] property the notification reads. *)
Record RequestResults : Type := {
  fields : Results;
  core_type : option string
}.

(** The body posted to the inbound webhook. *)
Record payload : Type := {
  w_email : string;
  w_name : string;
  w_downloadLink : string;
  w_ednaType : string;
  w_coreType : string;
  w_timestamp : Z
}.

(** [email.split('@')[0]] *)
Fixpoint before_at (s : string) : string :=
  match s with
  | EmptyString => EmptyString
  | String c s' => if Ascii.eqb c "@" then EmptyString else String c (before_at s')
  end.

(** [v || fallback] for a string or [undefined] *)
Definition or_else (v : option string) (fallback : string) : string :=
  match v with
  | Some s => if s =? "" then fallback else s
  | None => fallback
  end.

Inductive reply : Type :=
  | Rejected (status : nat) (error : string)
  | Accepted (resultId message : string).

Section Pipeline.

(** The collaborators: the renderer, the object store and the HTTP
    client that posts to the webhook; each resolves to a success or to
    a failure. *)
Variable generatePDFFromComponent : RequestResults -> option string -> string -> outcome unit.
Variable uploadPDFToS3 : string -> string -> outcome (string * string).
Variable post : payload -> outcome unit.
Variables tempDir publicBaseUrl : string.

(** [notifyGhlWithDownloadLink({ email, name, downloadLink, ednaType,
    coreType })]: its result and the bodies it posted. *)
Definition notifyGhlWithDownloadLink (now : Z) (email : string) (name : option string)
    (downloadLink : string) (ednaType coreType : option string)
  : outcome unit * list payload :=
  if (email =? "") || (downloadLink =? "") then
    (failure "Missing required parameters: email and downloadLink are required", [])
  else
    let payload :=
      {| w_email := email;
         w_name := or_else name (before_at email);
         w_downloadLink := downloadLink;
         w_ednaType := or_else ednaType "Unknown";
         w_coreType := or_else coreType "Unknown";
         w_timestamp := now |} in
    (post payload, [payload]).

(** [generatePDFInBackground(email, name, results, resultId)]: the
    store it leaves and the bodies posted to the webhook.  [rnds] is the
    draw of the random source for the token. *)
Definition generatePDFInBackground (rnds : list Z) (now : Z) (db : database)
    (email : string) (name : option string) (results : RequestResults)
    (resultId : string) : database * list payload :=
  let pdfFileName := "edna-results-" +:+ resultId +:+ ".pdf" in
  let pdfPath := tempDir +:+ "/" +:+ pdfFileName in
  match generatePDFFromComponent results name pdfPath with
  | failure _ => (db, [])
  | success _ =>
      match uploadPDFToS3 pdfPath pdfFileName with
      | failure _ => (db, [])
      | success _ =>
          let '(_, link, db') := issue_download_link rnds now db resultId publicBaseUrl in
          match link with
          | Some publicDownloadUrl =>
              let '(_, posted) :=
                notifyGhlWithDownloadLink now email name publicDownloadUrl
                  (Some (or_else (subtype (fields results)) "Unknown"))
                  (Some (or_else (core_type results) "Unknown")) in
              (db', posted)
          | None => (db', [])
          end
      end
  end.

(** [app.post('/api/quiz/save-results', ...)]: the response, the store
    and the webhook posts once the background task has run.  [rnds_id]
    and [rnds_token] are the two draws of the random source, [now] the
    time of the request and [later] the time of the token step. *)
Definition save_results (rnds_id rnds_token : list Z) (now later : Z) (db : database)
    (email name : option string) (results : option RequestResults)
  : reply * database * list payload :=
  match email, results with
  | Some email, Some results =>
      if email =? "" then
        (Rejected 400 "Missing required fields: email and results are required", db, [])
      else
        let resultId := Uuid.v4 rnds_id in
        match saveQuizResult now db resultId email name (fields results) None None with
        | (failure error, db') =>
            (Rejected 500 ("Failed to save to Aurora MySQL: " +:+ error), db', [])
        | (success _, db') =>
            let '(db'', posted) :=
              generatePDFInBackground rnds_token later db' email name results resultId in
            (Accepted resultId "Results saved. PDF generation started in background.",
             db'', posted)
        end
  | _, _ => (Rejected 400 "Missing required fields: email and results are required", db, [])
  end.

End Pipeline.

End Index.

(** ** The application on the Supabase store: its [GET /download] *)

Module SupabaseApp.

Import PostgresDb Index.

(** A row of [edna_pdf_links]. *)
Record pdf_link : Type := {
  l_email : string;
  l_token : string;
  l_s3_key : option string;
  l_expires_at : Z;
  l_created_at : Z
}.

(** [getPdfLinkByToken(token)]: [.eq('token', token).single()] yields a
    row only when exactly one matches; otherwise the token is reported
    as not found. *)
Definition getPdfLinkByToken (links : list pdf_link) (token : string) : outcome pdf_link :=
  match List.filter (fun l => l_token l =? token) links with
  | [record] => success record
  | _ => failure "Token not found"
  end.

Section Download.

Variable generatePresignedPdfUrl : option string -> nat -> outcome string.

Definition download (now : Z) (links : list pdf_link) (token : option jsval) : response :=
  if negb (truthy token) then Json 400 "Missing token"
  else
    match token with
    | Some (JStr token) =>
        match getPdfLinkByToken links token with
        | failure _ => Json 404 "Invalid or unknown link"
        | success record =>
            if (l_expires_at record <? now)%Z then Json 410 "Link has expired"
            else
              match generatePresignedPdfUrl (l_s3_key record) (7 * 60 * 60) with
              | failure _ => Json 500 "Could not generate download link"
              | success url => Redirect url
              end
        end
    | _ => Json 500 "Internal server error"
    end.

End Download.

End SupabaseApp.

(** ** Agent access tokens ([agent-token.js]) *)

Module AgentToken.

(** The decoded payload of a token. *)
Record decoded : Type := { userId : string; token_type : string }.

Inductive verdict : Type :=
  | Next (userId : string)
  | Unauthorized (error : string).

Section Verify.

(** [jwt.verify(token, JWT_SECRET)]: the payload, or [None] when it
    throws (bad signature, expired, malformed). *)
Variable jwt_verify : string -> option decoded.

Definition verifyAgentToken (token : string) : option decoded :=
  match jwt_verify token with
  | Some decoded => if token_type decoded =? "agent_access" then Some decoded else None
  | None => None
  end.

(** [verifyAgentTokenMiddleware], on the [authorization] header: it
    calls [next] with [req.userId] set, or answers 401. *)
Definition verifyAgentTokenMiddleware (authHeader : option string) : verdict :=
  match authHeader with
  | Some authHeader =>
      if (authHeader =? "") || negb (String.prefix "Bearer " authHeader) then
        Unauthorized "No token provided"
      else
        match verifyAgentToken (PostgresDb.drop 7 authHeader) with
        | Some decoded => Next (userId decoded)
        | None => Unauthorized "Invalid or expired token"
        end
  | None => Unauthorized "No token provided"
  end.

End Verify.

End AgentToken.

(** ** Definitions used to state the properties *)

Import Scoring PostgresDb.

(** [answers[`L1_Q${i}`] === lit] *)
Definition chose (answers : AnswerMap) (lit : string) (i : nat) : bool :=
  strict_eq (answer answers ("L1_Q" +:+ Number_toString i)) lit.

(** How many of [L1_Q1] .. [L1_Q8] were answered with the choice [lit]. *)
Definition count_answers (answers : AnswerMap) (lit : string) : nat :=
  length (List.filter (chose answers lit) (seq 1 8)).

(** The lookup table of the specification for Layer 1. *)
Definition layer1_table (architect alchemist : nat) : string :=
  match architect, alchemist with
  | 8, 0 => "Strong Architect"
  | 7, 1 => "Medium Architect"
  | 6, 2 => "Weak Architect"
  | 0, 8 => "Strong Alchemist"
  | 1, 7 => "Medium Alchemist"
  | 2, 6 => "Weak Alchemist"
  | _, _ => "Blurred"
  end%nat.

(** The VARK bucket an answer stands for, if any. *)
Definition vark_bucket (v : option jsval) : option string :=
  if truthy v then a ← v; get_own vark_mapping (ToPropertyKey a) else None.

(** The [scores] object of Layer 4 before any answer is counted. *)
Definition no_scores : object number :=
  [("visual", of_nat 0); ("auditory", of_nat 0);
   ("readWrite", of_nat 0); ("kinesthetic", of_nat 0)].

(** None of [L4_Q23] .. [L4_Q27] carries an answer that maps to a VARK
    bucket. *)
Definition no_vark_answer (answers : AnswerMap) : Prop :=
  forall i, In i (seq 23 5) ->
    vark_bucket (answer answers ("L4_Q" +:+ Number_toString i)) = None.

(** Every answer of the map is a string. *)
Definition string_answers (answers : AnswerMap) : Prop :=
  forall qid v, answers !! qid = Some v -> is_string v = true.

(** A row with its [updated_at] column set to [now]. *)
Definition touch (now : Z) (q : quiz_result) : quiz_result :=
  {| q_id := q_id q; q_user_id := q_user_id q; q_email := q_email q;
     q_name := q_name q; q_quiz_data := q_quiz_data q;
     q_edna_type := q_edna_type q; q_core_type := q_core_type q;
     q_subtype := q_subtype q; q_core_mastery := q_core_mastery q;
     q_subtype_mastery := q_subtype_mastery q;
     q_pdf_url := q_pdf_url q; q_s3_key := q_s3_key q;
     q_created_at := q_created_at q; q_updated_at := now |}.

(** A row up to its [updated_at] column. *)
Definition without_updated_at (q : quiz_result) : quiz_result := touch 0 q.

(** The rows of [quiz_results] stored under the key [id]. *)
Definition rows_with_id (id : string) (db : database) : list quiz_result :=
  List.filter (fun q => q_id q =? id) (quiz_results db).

(** The primary key of [quiz_results]. *)
Definition primary_key (db : database) : Prop := List.NoDup (map q_id (quiz_results db)).

(** The columns [ON CONFLICT ... DO UPDATE] copies from the proposed row
    agree in [a] and [b]. *)
Definition same_values (a b : quiz_result) : Prop :=
  q_id a = q_id b /\ q_quiz_data a = q_quiz_data b /\
  q_edna_type a = q_edna_type b /\ q_core_type a = q_core_type b /\
  q_subtype a = q_subtype b /\ q_core_mastery a = q_core_mastery b /\
  q_subtype_mastery a = q_subtype_mastery b /\
  q_pdf_url a = q_pdf_url b /\ q_s3_key a = q_s3_key b.

(** An answer map of the data model, question identifier to choice
    code, as the [answers] object the scoring functions receive. *)
Definition of_choices (choices : gmap string string) : AnswerMap := JStr <$> choices.

Definition answers_of (l : list (string * string)) : AnswerMap :=
  of_choices (list_to_map l).

(** After the counting loop of Layer 4, when no answer names a bucket:
    the four buckets hold zero, and any further property holds [NaN]. *)
Definition stray (kv : string * number) : Prop :=
  snd kv = NaN /\ get_own no_scores (fst kv) = None.

(** What a repeated upsert at time [now] does to a row: the row stored
    under [key] gets a fresh [updated_at]. *)
Definition refresh_row (now : Z) (key : string) (q : quiz_result) : quiz_result :=
  if q_id q =? key then touch now q else q.

(** The string holds no backslash, the escape character of [LIKE]. *)
Fixpoint no_backslash (s : string) : bool :=
  match s with
  | EmptyString => true
  | String c s' => negb (Ascii.eqb c "\") && no_backslash s'
  end.

(** *** Sample inputs *)

Definition answers_aa : AnswerMap := answers_of [("L6_Q37", "a"); ("L6_Q38", "a")].
Definition answers_bb : AnswerMap := answers_of [("L6_Q37", "b"); ("L6_Q38", "b")].
Definition answers_q37_only : AnswerMap := answers_of [("L6_Q37", "a")].


Definition answers_mixed : AnswerMap :=
  answers_of
    [("L2_Qm9","a");("L2_Qm10","a");("L2_Qm11","a");("L2_Qm12","a");
     ("L2_Qm13","b");("L2_Qm14","b");("L2_Qm15","c");("L2_Qm16","d")].


Definition answers_unrecognised : AnswerMap :=
  answers_of [("L1_Q1", "z"); ("L4_Q23", "e"); ("L7_Q40", "q"); ("L7_Q41", "c")].


Definition sample_result : Results :=
  {| json := "{}"; ednaType := Some "architect"; coreType := Some "Architect";
     subtype := Some "Planner"; coreTypeMastery := Some 70%Z; subtypeMastery := None |}.

Definition sample_id : string := "a0eebc99-9c0b-4ef8-bb6d-6bb9bd380a11".

(** A store with one result, saved at time 10. *)
Definition db_one_result : database :=
  snd (saveQuizResult 10 empty sample_id " Bob@Example.com " (Some "Bob")
         sample_result (Some "https://bucket/pdfs/r.pdf") (Some "pdfs/r.pdf")).

(** The same store with a download token issued at time 50 with a zero
    time to live. *)
Definition db_ttl0 : database :=
  snd (createDownloadToken 50 db_one_result "tok" sample_id 50).


Definition db_saved_once : database :=
  snd (saveQuizResult 20 db_one_result sample_id "bob@example.com" (Some "Bob")
         sample_result (Some "https://bucket/pdfs/r2.pdf") (Some "pdfs/r2.pdf")).

Definition db_saved_twice : database :=
  snd (saveQuizResult 30 db_saved_once sample_id "bob@example.com" (Some "Bob")
         sample_result (Some "https://bucket/pdfs/r2.pdf") (Some "pdfs/r2.pdf")).


Definition draw_a : list Z := [0; 1; 2; 3; 4; 5; 0x06; 7; 0x08; 9; 10; 11; 12; 13; 14; 255]%Z.
Definition draw_b : list Z := [0; 1; 2; 3; 4; 5; 0xf6; 7; 0xc8; 9; 10; 11; 12; 13; 14; 255]%Z.


(** A storage collaborator that is up, and one that is down. *)
Definition presign_up : option string -> nat -> outcome string :=
  fun _ _ => success "https://bucket.s3.amazonaws.com/pdfs/r.pdf?X-Amz-Signature=0".

Definition presign_down : option string -> nat -> outcome string :=
  fun _ _ => failure "AccessDenied".

(** *** Definitions for the further properties *)

(** The question [calculateLayer2] reads at index [i], given the
    Layer 1 result. *)
Definition layer2_question (layer1Result : Layer1) (i : nat) : string :=
  if includes (l1_type layer1Result) "Architect" then "L2_Q" +:+ Number_toString i
  else if includes (l1_type layer1Result) "Alchemist" then
    "L2_Q" +:+ Number_toString i +:+ "a"
  else "L2_Qm" +:+ Number_toString i.

(** The sum of the counts of a tally. *)
Definition tally_total (scores : object nat) : nat := list_sum (map snd scores).

(** A loop body that leaves the tally alone or counts one more hit
    for some key. *)
Definition tallies (f : object nat -> nat -> object nat) : Prop :=
  forall scores i,
    f scores i = scores \/
    exists k, f scores i = set_own scores k (default 0 (get_own scores k) + 1).

Definition answers_layer2 : AnswerMap :=
  answers_of [("L2_Q9","a");("L2_Q10","b");("L2_Q11","b");("L2_Q12","d")].

Definition answers_layer2_more : AnswerMap :=
  answers_of [("L2_Q9","a");("L2_Q10","b");("L2_Q11","b");("L2_Q12","d");
              ("L2_Qm9","c");("L2_Q9a","c");("L1_Q1","b");("L7_Q40","a")].

Definition weak_architect : Layer1 :=
  {| l1_type := "Weak Architect"; architectCount := 6; alchemistCount := 2 |}.

(** The [scores] object of Layer 4 with the four counts. *)
Definition base4 (v a r k : nat) : object number :=
  [("visual", of_nat v); ("auditory", of_nat a);
   ("readWrite", of_nat r); ("kinesthetic", of_nat k)].

(** No answer to [L4_Q23] .. [L4_Q27] names a property an object
    literal inherits. *)
Definition no_inherited_answer (answers : AnswerMap) : Prop :=
  forall i a, In i (seq 23 5) ->
    answer answers ("L4_Q" +:+ Number_toString i) = Some a ->
    get_own Object_prototype (ToPropertyKey a) = None.

(** Some Layer 7 question carries an answer that is truthy and not a
    string. *)
Definition l7_offending (answers : AnswerMap) : bool :=
  existsb
    (fun '(qid, _) =>
       match answer answers qid with
       | Some (JOther true _) => true
       | _ => false
       end)
    l7_mapping.

Definition answers_layer7 : AnswerMap :=
  <["L7_Q44" := JOther false "0"]>
    (answers_of [("L7_Q40", "b"); ("L7_Q41", ""); ("L7_Q42", "x"); ("L7_Q45", "c")]).

Definition answers_number : AnswerMap :=
  <["L7_Q43" := JOther true "2"]> (answers_of [("L7_Q40", "b"); ("L3_Q17", "a")]).

Definition answers_vark : AnswerMap :=
  answers_of [("L4_Q23","b");("L4_Q24","c");("L4_Q25","e");("L4_Q27","c")].

(** The modality Layer 4 reports for the four counts: the first, in the
    order visual, auditory, readWrite, kinesthetic, that no other count
    exceeds. *)
Definition first_highest (v a r k : nat) : string :=
  if Nat.leb a v && Nat.leb r v && Nat.leb k v then "visual"
  else if Nat.leb r a && Nat.leb k a then "auditory"
  else if Nat.leb k r then "readWrite"
  else "kinesthetic".

(** The string is empty or begins with a character outside [ws]. *)
Definition starts_clean (ws : ascii -> bool) (s : string) : Prop :=
  match s with
  | EmptyString => True
  | String c _ => ws c = false
  end.

(** The constraints of the schema: the primary keys of the two tables
    and the reference from a token to its result. *)
Definition consistent (db : database) : Prop :=
  List.NoDup (map q_id (quiz_results db)) /\
  List.NoDup (map t_token (pdf_download_tokens db)) /\
  forall t, In t (pdf_download_tokens db) ->
            In (t_quiz_result_id t) (map q_id (quiz_results db)).

Definition sample_id2 : string := "b1ffcd00-0c1b-4ef8-bb6d-6bb9bd380a22".

(** The store [db_one_result] with a download token issued at time 50
    that expires at time 100. *)
Definition db_live : database :=
  snd (createDownloadToken 50 db_one_result "tok" sample_id 100).

(** A second result, saved at time 20 under another id. *)
Definition saved_alice : outcome quiz_result * database :=
  saveQuizResult 20 db_one_result sample_id2 "  Alice@Example.COM " None
    sample_result None None.

(** The first result saved again at time 20, by a call that names
    another address. *)
Definition resaved : outcome quiz_result * database :=
  saveQuizResult 20 db_one_result sample_id "carol@example.com" (Some "Carol")
    sample_result None None.

Definition progress_rows : list quiz_progress :=
  [{| p_email := "bob@example.com"; p_progress_data := "{}";
      p_created_at := 1; p_updated_at := 2 |}].

(** A byte whose two hexadecimal digits are lower-case digits, the first
    of them neither a hyphen nor an opening brace. *)
Definition plain_hex (b : Z) : bool :=
  match Uuid.byteToHex b with
  | String a (String c EmptyString) =>
      is_xdigit a && is_xdigit c
      && Ascii.eqb (toLowerCase_char a) a && Ascii.eqb (toLowerCase_char c) c
      && negb (Ascii.eqb a "-") && negb (Ascii.eqb a "{")
  | _ => false
  end.

Definition draw_c : list Z :=
  [200; 17; 34; 51; 68; 85; 102; 119; 136; 153; 170; 187; 204; 221; 238; 1]%Z.

(** Collaborators that succeed. *)
Definition render_ok : Index.RequestResults -> option string -> string -> outcome unit :=
  fun _ _ _ => success ().

Definition upload_ok : string -> string -> outcome (string * string) :=
  fun _ fileName => success ("https://bucket/pdfs/" +:+ fileName, "pdfs/" +:+ fileName).

Definition post_ok : Index.payload -> outcome unit := fun _ => success ().

Definition sample_request : Index.RequestResults :=
  {| Index.fields := sample_result; Index.core_type := Some "architect" |}.

(** A request to [POST /api/quiz/save-results] at time 100 whose
    background task reaches the token step at time 200. *)
Definition save_results_sample : Index.reply * database * list Index.payload :=
  Index.save_results render_ok upload_ok post_ok "/tmp" "https://api.example"
    draw_a draw_c 100 200 db_one_result (Some "Dana@Example.com") None
    (Some sample_request).

(** Every character of the string is in the ASCII range, where the case
    mapping and the white space of JavaScript and of the server are the
    ones modelled. *)
Fixpoint is_ascii (s : string) : bool :=
  match s with
  | EmptyString => true
  | String c s' => (nat_of_ascii c <? 128)%nat && is_ascii s'
  end.

(** ** Layer 1 *)

Section Layer1Facts.

Variable answers : AnswerMap.

Lemma layer1_loop (l : list nat) (a0 b0 : nat) :
  fold_left
    (fun '(architectCount, alchemistCount) i =>
       let answer := answer answers ("L1_Q" +:+ Number_toString i) in
       let architectCount :=
         if strict_eq answer "a" then S architectCount else architectCount in
       let alchemistCount :=
         if strict_eq answer "b" then S alchemistCount else alchemistCount in
       (architectCount, alchemistCount))
    l (a0, b0)
  = (a0 + length (List.filter (chose answers "a") l),
     b0 + length (List.filter (chose answers "b") l))%nat.
Proof.
  revert a0 b0. induction l as [|i l IH]; intros a0 b0.
  - cbn. f_equal; lia.
  - cbn [fold_left List.filter]. cbv zeta. rewrite IH. unfold chose.
    destruct (strict_eq _ "a"), (strict_eq _ "b"); cbn [length]; f_equal; lia.
Qed.

Lemma layer1_classify (a b : nat) :
  (if (a =? 8)%nat && (b =? 0)%nat then "Strong Architect"
   else if (a =? 7)%nat && (b =? 1)%nat then "Medium Architect"
   else if (a =? 6)%nat && (b =? 2)%nat then "Weak Architect"
   else if (a =? 0)%nat && (b =? 8)%nat then "Strong Alchemist"
   else if (a =? 1)%nat && (b =? 7)%nat then "Medium Alchemist"
   else if (a =? 2)%nat && (b =? 6)%nat then "Weak Alchemist"
   else "Blurred") = layer1_table a b.
Proof.
  do 9 (destruct a as [|a]; [do 9 (destruct b as [|b]; [reflexivity|]); reflexivity|]).
  do 9 (destruct b as [|b]; [reflexivity|]); reflexivity.
Qed.

(** C2. [calculateLayer1] counts the answers ['a'] and ['b'] among
    [L1_Q1] .. [L1_Q8] and classifies by exact match on the two
    counts: 8/0, 7/1, 6/2 give the Strong, Medium and Weak Architect,
    0/8, 1/7, 2/6 the Strong, Medium and Weak Alchemist, and every
    other pair of counts gives ['Blurred']. *)
Theorem calculateLayer1_exact_count :
  architectCount (calculateLayer1 answers) = count_answers answers "a" /\
  alchemistCount (calculateLayer1 answers) = count_answers answers "b" /\
  l1_type (calculateLayer1 answers)
  = layer1_table (count_answers answers "a") (count_answers answers "b").
Proof.
  unfold calculateLayer1. rewrite layer1_loop.
  rewrite layer1_classify. cbn [architectCount alchemistCount l1_type Nat.add].
  unfold count_answers. auto.
Qed.

End Layer1Facts.

(** The three examples of the specification: eight ['a'], eight ['b'],
    and a 5/3 split. *)
Example layer1_all_a :
  l1_type (calculateLayer1 (answers_of
    [("L1_Q1","a");("L1_Q2","a");("L1_Q3","a");("L1_Q4","a");
     ("L1_Q5","a");("L1_Q6","a");("L1_Q7","a");("L1_Q8","a")])) = "Strong Architect".
Proof. vm_compute. reflexivity. Qed.

Example layer1_all_b :
  l1_type (calculateLayer1 (answers_of
    [("L1_Q1","b");("L1_Q2","b");("L1_Q3","b");("L1_Q4","b");
     ("L1_Q5","b");("L1_Q6","b");("L1_Q7","b");("L1_Q8","b")])) = "Strong Alchemist".
Proof. vm_compute. reflexivity. Qed.

Example layer1_five_three :
  l1_type (calculateLayer1 (answers_of
    [("L1_Q1","a");("L1_Q2","a");("L1_Q3","a");("L1_Q4","a");
     ("L1_Q5","a");("L1_Q6","b");("L1_Q7","b");("L1_Q8","b")])) = "Blurred".
Proof. vm_compute. reflexivity. Qed.

(** ** Layer 6 *)

(** C8. The personality core type is read off a 2x2 table on the
    answers to [L6_Q37] and [L6_Q38]; any other combination, a missing
    answer included, gives the empty string. *)
Theorem calculateLayer6_coreType (answers : AnswerMap) :
  let q37 := answer answers "L6_Q37" in
  let q38 := answer answers "L6_Q38" in
  let t := Scoring.coreType (personality (calculateLayer6 answers)) in
  (q37 = Some (JStr "a") -> q38 = Some (JStr "a") -> t = "Confident & Steady") /\
  (q37 = Some (JStr "a") -> q38 = Some (JStr "b") -> t = "Confident & Driven") /\
  (q37 = Some (JStr "b") -> q38 = Some (JStr "a") -> t = "Considerate & Steady") /\
  (q37 = Some (JStr "b") -> q38 = Some (JStr "b") -> t = "Fast-Moving & Adaptive") /\
  ((q37 <> Some (JStr "a") /\ q37 <> Some (JStr "b")) \/
   (q38 <> Some (JStr "a") /\ q38 <> Some (JStr "b")) -> t = "").
Proof.
  cbv zeta. unfold calculateLayer6. cbn [personality Scoring.coreType].
  repeat split.
  1-4: intros -> ->; reflexivity.
  assert (E : forall v lit, strict_eq v lit = true -> v = Some (JStr lit)).
  { intros [[s|b k]|] lit; cbn; try discriminate.
    intros H. apply String.eqb_eq in H. now subst. }
  destruct (strict_eq (answer answers "L6_Q37") "a") eqn:A7;
    destruct (strict_eq (answer answers "L6_Q37") "b") eqn:B7;
    destruct (strict_eq (answer answers "L6_Q38") "a") eqn:A8;
    destruct (strict_eq (answer answers "L6_Q38") "b") eqn:B8;
    cbn; try reflexivity;
    repeat match goal with
           | H : strict_eq _ _ = true |- _ => apply E in H
           end;
    intros [[? ?]|[? ?]]; congruence.
Qed.

Lemma calculateLayer6_coreType_witness :
  Scoring.coreType (personality (calculateLayer6 answers_aa)) = "Confident & Steady" /\
  Scoring.coreType (personality (calculateLayer6 answers_bb)) = "Fast-Moving & Adaptive" /\
  Scoring.coreType (personality (calculateLayer6 answers_q37_only)) = "".
Proof.
  split; [|split].
  - apply (calculateLayer6_coreType answers_aa); vm_compute; reflexivity.
  - apply (calculateLayer6_coreType answers_bb); vm_compute; reflexivity.
  - apply (calculateLayer6_coreType answers_q37_only).
    right. split; vm_compute; discriminate.
Defined.

(** ** Layer 2 *)

Lemma fold_left_unchanged {A B} (f : A -> B -> A) (l : list B) (a : A) :
  (forall a x, f a x = a) -> fold_left f l a = a.
Proof.
  intros H. induction l as [|x l IH]; cbn; [reflexivity|]. now rewrite H.
Qed.

(** C6, what the code does.  On the mixed path (the Layer 1 type names
    neither pole) [calculateLayer2] reads [L2_Qm9] .. [L2_Qm16] but has
    no answer-to-subtype mapping for that path: nothing is tallied, and
    the subtype is the empty string whatever the answers are. *)
Theorem calculateLayer2_mixed (answers : AnswerMap) (layer1Result : Layer1) :
  includes (l1_type layer1Result) "Architect" = false ->
  includes (l1_type layer1Result) "Alchemist" = false ->
  calculateLayer2 answers layer1Result
  = {| l2_subtype := ""; l2_path := "mixed"; l2_scores := [] |}.
Proof.
  intros HA HB. unfold calculateLayer2. rewrite HA, HB.
  rewrite fold_left_unchanged; [reflexivity|].
  intros scores i. destruct (truthy _); reflexivity.
Qed.

Lemma calculateLayer2_mixed_witness :
  l1_type (calculateLayer1 answers_mixed) = "Blurred" /\
  calculateLayer2 answers_mixed (calculateLayer1 answers_mixed)
  = {| l2_subtype := ""; l2_path := "mixed"; l2_scores := [] |}.
Proof.
  split; [vm_compute; reflexivity|].
  apply (calculateLayer2_mixed answers_mixed (calculateLayer1 answers_mixed));
    vm_compute; reflexivity.
Defined.

(** On the two other paths the same answers are tallied. *)
Example calculateLayer2_architect_tallies :
  calculateLayer2
    (answers_of [("L2_Q9","a");("L2_Q10","b");("L2_Q11","b");("L2_Q12","d")])
    {| l1_type := "Weak Architect"; architectCount := 6; alchemistCount := 2 |}
  = {| l2_subtype := "Operator"; l2_path := "architect";
       l2_scores := [("planner", 1); ("operator", 2); ("ultimate", 1)]%nat |}.
Proof. vm_compute. reflexivity. Qed.

Example calculateLayer2_alchemist_tallies :
  calculateLayer2
    (answers_of [("L2_Q9a","c");("L2_Q10a","a");("L2_Q11a","c")])
    {| l1_type := "Strong Alchemist"; architectCount := 0; alchemistCount := 8 |}
  = {| l2_subtype := "Empath"; l2_path := "alchemist";
       l2_scores := [("empath", 2); ("oracle", 1)]%nat |}.
Proof. vm_compute. reflexivity. Qed.

(** ** All layers *)

Lemma fold_left_returns {A B} (f : completion A -> B -> completion A)
    (l : list B) (a : A) :
  (forall a x, exists a', f (Return a) x = Return a') ->
  exists a', fold_left f l (Return a) = Return a'.
Proof.
  intros H. revert a. induction l as [|x l IH]; intros a; cbn [fold_left].
  - now exists a.
  - destruct (H a x) as [a' ->]. apply IH.
Qed.

Lemma charCodeAt0_string (a : jsval) :
  is_string a = true -> exists code, charCodeAt0 a = Return code.
Proof.
  destruct a as [[|c s]|]; cbn; try discriminate; eauto.
Qed.

Lemma calculateLayer7_returns (answers : AnswerMap) :
  string_answers answers -> exists l7, calculateLayer7 answers = Return l7.
Proof.
  intros Hs. unfold calculateLayer7.
  match goal with
  | |- context [fold_left ?f l7_mapping (Return [])] =>
      destruct (fold_left_returns f l7_mapping []) as [b Hb]
  end.
  - intros b [qid data]. cbn. unfold answer.
    destruct (answers !! qid) as [a|] eqn:E; [|eauto].
    destruct (charCodeAt0_string a (Hs _ _ E)) as [code ->].
    match goal with |- context [if ?t then _ else _] => destruct t end; cbn; eauto.
  - exists {| beliefs := b |}.
    exact (f_equal (mbind (fun beliefs => Return {| beliefs := beliefs |})) Hb).
Qed.

Lemma string_answers_of_choices (choices : gmap string string) :
  string_answers (of_choices choices).
Proof.
  intros qid v H. unfold of_choices in H. rewrite lookup_fmap in H.
  destruct (choices !! qid); cbn in H; [|discriminate]. now injection H as <-.
Qed.

(** On an answer map whose values are all strings (question identifiers
    to choice codes, the empty map and maps with unrecognised codes
    included) [calculateAllResults] returns normally, and the object it
    returns holds the results of all seven layer functions. *)
Lemma calculateAllResults_total (choices : gmap string string) :
  let answers := of_choices choices in
  exists l7,
    calculateLayer7 answers = Return l7 /\
    calculateAllResults answers =
    Return {| layer1 := calculateLayer1 answers;
              layer2 := calculateLayer2 answers (calculateLayer1 answers);
              layer3 := calculateLayer3 answers;
              layer4 := calculateLayer4 answers;
              layer5 := calculateLayer5 answers;
              layer6 := calculateLayer6 answers;
              layer7 := l7 |}.
Proof.
  cbv zeta.
  destruct (calculateLayer7_returns _ (string_answers_of_choices choices)) as [l7 H7].
  exists l7. split; [exact H7|].
  unfold calculateAllResults. rewrite H7. reflexivity.
Qed.

(** The empty map, and a map of unrecognised codes. *)
Example calculateAllResults_empty :
  exists r, calculateAllResults (of_choices ∅) = Return r /\
            l1_type (layer1 r) = "Blurred" /\ beliefs (layer7 r) = [].
Proof. eexists. split; [vm_compute; reflexivity|]. split; reflexivity. Qed.

Example calculateAllResults_unrecognised :
  exists r, calculateAllResults answers_unrecognised = Return r /\
            beliefs (layer7 r) = [("Grounding Source", ""); ("Control Belief", "Shared Control")].
Proof. eexists. split; [vm_compute; reflexivity|]. reflexivity. Qed.

(** An answer that is truthy and not a string, such as a JSON number,
    makes Layer 7 throw. *)
Example calculateAllResults_number_answer :
  calculateAllResults {[ "L7_Q40" := JOther true "1" ]}
  = Throw "TypeError: answer.charCodeAt is not a function".
Proof. vm_compute. reflexivity. Qed.

(** ** Layer 4 *)

Section ObjectFacts.

Context {A : Type}.

Lemma get_own_app (o1 o2 : object A) (k : string) :
  get_own (o1 ++ o2) k
  = match get_own o1 k with Some v => Some v | None => get_own o2 k end.
Proof.
  induction o1 as [|[k' v] o1 IH]; cbn; [reflexivity|].
  destruct (k' =? k); [reflexivity|apply IH].
Qed.

Lemma set_own_app (o1 o2 : object A) (k : string) (v : A) :
  get_own o1 k = None -> set_own (o1 ++ o2) k v = o1 ++ set_own o2 k v.
Proof.
  induction o1 as [|[k' v'] o1 IH]; cbn; [reflexivity|].
  destruct (k' =? k); [discriminate|]. intros H. now rewrite IH.
Qed.

Lemma get_own_In (o : object A) (k : string) (v : A) :
  get_own o k = Some v -> In (k, v) o.
Proof.
  induction o as [|[k' v'] o IH]; cbn; [discriminate|].
  destruct (String.eqb_spec k' k) as [->|_].
  - intros [= ->]. now left.
  - intros H. right. now apply IH.
Qed.

Lemma Forall_set_own (P : string * A -> Prop) (o : object A) (k : string) (v : A) :
  Forall P o -> P (k, v) -> Forall P (set_own o k v).
Proof.
  intros Ho Hk. induction Ho as [|[k' v'] o Hx Ho IH]; cbn.
  - repeat constructor. exact Hk.
  - destruct (String.eqb_spec k' k) as [->|_]; constructor; auto.
Qed.

End ObjectFacts.

(** No value inherited from [Object.prototype] converts to the name of
    a VARK bucket. *)
Lemma inherited_key_fresh (x k : string) :
  get_own Object_prototype x = Some k -> get_own no_scores k = None.
Proof.
  intros H. apply get_own_In in H. cbn in H.
  repeat (destruct H as [[= <- <-]|H]; [vm_compute; reflexivity|]).
  destruct H.
Qed.

Lemma layer4_loop (answers : AnswerMap) (l : list nat) (extras : object number) :
  (forall i, In i l ->
     vark_bucket (answer answers ("L4_Q" +:+ Number_toString i)) = None) ->
  Forall stray extras ->
  exists extras',
    Forall stray extras' /\
    fold_left
      (fun (scores : object number) i =>
         let answer := answer answers ("L4_Q" +:+ Number_toString i) in
         let bucket := a ← answer; get_literal vark_mapping a in
         if truthy answer && truthy bucket then
           match bucket with
           | Some b => increment scores (ToPropertyKey b)
           | None => scores
           end
         else scores)
      l (no_scores ++ extras) = no_scores ++ extras'.
Proof.
  revert extras. induction l as [|i l IH]; intros extras Hl He.
  - exists extras. split; [exact He|reflexivity].
  - cbn [fold_left]. cbv zeta.
    assert (Hi := Hl i (or_introl eq_refl)). unfold vark_bucket in Hi.
    destruct (truthy (answer answers ("L4_Q" +:+ Number_toString i))) eqn:T;
      [|apply IH; auto; intros; apply Hl; now right].
    destruct (answer answers ("L4_Q" +:+ Number_toString i)) as [a|];
      [|discriminate]. cbn [mbind option_bind] in Hi |- *.
    unfold get_literal. rewrite Hi.
    destruct (get_own Object_prototype (ToPropertyKey a)) as [k|] eqn:P;
      cbn [truthy andb ToPropertyKey];
      [|apply IH; auto; intros; apply Hl; now right].
    pose proof (inherited_key_fresh _ _ P) as F.
    assert (E : increment (no_scores ++ extras) k = no_scores ++ set_own extras k NaN).
    { unfold increment. rewrite get_own_app, F, set_own_app by exact F.
      destruct (get_own extras k) as [n|] eqn:G; [|reflexivity].
      apply get_own_In in G. rewrite List.Forall_forall in He.
      destruct (He _ G) as [N _]. cbn in N. now subst. }
    rewrite E. apply IH; [intros; apply Hl; now right|].
    apply Forall_set_own; [exact He|]. split; [reflexivity|exact F].
Qed.

Lemma add_stray (extras : object number) (x : number) :
  Forall stray extras ->
  fold_left (fun sum '(_, val) => add sum val) extras x
  = match extras with [] => x | _ => NaN end.
Proof.
  intros H. revert x. induction H as [|[k v] extras [N _] H IH]; intros x.
  - reflexivity.
  - cbn in N. subst v. cbn [fold_left]. rewrite IH.
    replace (add x NaN) with NaN by (destruct x; reflexivity).
    destruct extras; reflexivity.
Qed.

Lemma dominant_stray (extras : object number) (key : string) (x : number) :
  Forall stray extras ->
  fold_left
    (fun '(dominantModality, maxScore) '(key, value) =>
       if gt value maxScore then (key, value) else (dominantModality, maxScore))
    extras (key, x) = (key, x).
Proof.
  intros H. induction H as [|[k v] extras [N _] H IH]; [reflexivity|].
  cbn in N. subst v. cbn [fold_left]. exact IH.
Qed.

(** C4, what the code does.  When no answer to [L4_Q23] .. [L4_Q27]
    names a VARK bucket, [calculateLayer4] returns the dominant modality
    ['visual'] and leaves the four counts at zero, but the percentages
    are the rounding of zero divided by zero: all four are [NaN], not 0. *)
Theorem calculateLayer4_no_answers (answers : AnswerMap) :
  no_vark_answer answers ->
  let r := calculateLayer4 answers in
  dominantModality r = "visual" /\
  percentages r
  = {| pct_visual := NaN; pct_auditory := NaN;
       pct_readWrite := NaN; pct_kinesthetic := NaN |} /\
  field (l4_scores r) "visual" = of_nat 0 /\
  field (l4_scores r) "auditory" = of_nat 0 /\
  field (l4_scores r) "readWrite" = of_nat 0 /\
  field (l4_scores r) "kinesthetic" = of_nat 0.
Proof.
  intros H. cbv zeta. unfold calculateLayer4.
  destruct (layer4_loop answers (seq 23 5) [] H (List.Forall_nil _)) as [extras [He E]].
  change (no_scores ++ []) with no_scores in E.
  cbv zeta in E |- *.
  change [("visual", of_nat 0); ("auditory", of_nat 0);
          ("readWrite", of_nat 0); ("kinesthetic", of_nat 0)] with no_scores.
  rewrite E. rewrite !fold_left_app.
  rewrite (add_stray extras _ He).
  assert (F : forall k, In k ["visual"; "auditory"; "readWrite"; "kinesthetic"] ->
                        field (no_scores ++ extras) k = of_nat 0).
  { intros k Hk. unfold field. rewrite get_own_app.
    cbn in Hk. decompose [or] Hk; subst; try reflexivity. contradiction. }
  rewrite !F by (cbn; auto 6).
  change (fold_left _ no_scores ("visual", of_nat 0)) with ("visual", of_nat 0).
  rewrite (dominant_stray extras _ _ He).
  cbn [dominantModality percentages l4_scores].
  rewrite !F by (cbn; auto 6).
  split; [reflexivity|]. split; [|auto].
  destruct extras; vm_compute; reflexivity.
Qed.

Lemma calculateLayer4_no_answers_witness :
  dominantModality (calculateLayer4 ∅) = "visual" /\
  pct_visual (percentages (calculateLayer4 ∅)) = NaN /\
  pct_auditory (percentages (calculateLayer4 ∅)) = NaN /\
  pct_readWrite (percentages (calculateLayer4 ∅)) = NaN /\
  pct_kinesthetic (percentages (calculateLayer4 ∅)) = NaN.
Proof.
  assert (H : no_vark_answer ∅).
  { intros i _. unfold answer. rewrite lookup_empty. reflexivity. }
  destruct (calculateLayer4_no_answers ∅ H) as [D [P _]].
  rewrite P. cbn. auto.
Defined.

(** With at least one answer the percentages are the rounded shares. *)
Example calculateLayer4_three_answers :
  percentages (calculateLayer4
    (answers_of [("L4_Q23","a");("L4_Q24","c");("L4_Q25","c")]))
  = {| pct_visual := of_nat 33; pct_auditory := of_nat 0;
       pct_readWrite := of_nat 67; pct_kinesthetic := of_nat 0 |}.
Proof. vm_compute. reflexivity. Qed.

(** ** Download tokens *)

Lemma live_links_In (now : Z) (db : database) (token : string)
    (t : download_token) (q : quiz_result) :
  In (t, q) (live_links now db token) <->
  In t (pdf_download_tokens db) /\ In q (quiz_results db) /\
  t_quiz_result_id t = q_id q /\ t_token t = token /\ (now < t_expires_at t)%Z.
Proof.
  unfold live_links. rewrite <- list_elem_of_In, list_elem_of_bind. split.
  - intros [t' [H Ht]]. apply list_elem_of_bind in H. destruct H as [q' [H Hq]].
    destruct (String.eqb_spec (t_quiz_result_id t') (q_id q')) as [J|_];
      [|cbn in H; now apply elem_of_nil in H].
    destruct (String.eqb_spec (t_token t') token) as [K|_];
      [|cbn in H; now apply elem_of_nil in H].
    destruct (Z.ltb_spec now (t_expires_at t')) as [L|_];
      [|cbn in H; now apply elem_of_nil in H].
    cbn in H. apply list_elem_of_singleton in H. injection H as -> ->.
    rewrite <- !list_elem_of_In. auto.
  - intros (Ht & Hq & J & K & L). exists t. split; [|now apply list_elem_of_In].
    apply list_elem_of_bind. exists q. split; [|now apply list_elem_of_In].
    rewrite J, K, !String.eqb_refl. apply Z.ltb_lt in L. rewrite L. cbn.
    apply list_elem_of_singleton. reflexivity.
Qed.

Lemma verifyDownloadToken_failure (now : Z) (db : database) (token : string) :
  (forall t, In t (pdf_download_tokens db) -> t_token t = token ->
             (t_expires_at t <= now)%Z) ->
  verifyDownloadToken now db token = failure "Invalid or expired token".
Proof.
  intros H. unfold verifyDownloadToken.
  destruct (live_links now db token) as [|[t q] rows] eqn:E; [reflexivity|].
  assert (I : In (t, q) (live_links now db token)) by (rewrite E; now left).
  apply live_links_In in I. destruct I as (Ht & _ & _ & K & L).
  specialize (H t Ht K). lia.
Qed.

Lemma VARCHAR_fits (n : nat) (s : string) :
  String.length s <= n -> VARCHAR n s = Some s.
Proof.
  intros H. unfold VARCHAR. apply Nat.leb_le in H. now rewrite H.
Qed.



(** ** The download endpoint *)

Section DownloadFacts.

Variable generatePresignedPdfUrl : option string -> nat -> outcome string.

(** C5, what the code does.  A token that was never issued and a token
    that has expired get the same response from [GET /download]:
    status 404 with the error ['Invalid or unknown link']. *)
Theorem download_expired_as_unknown (now : Z) (db : database) (token : string) :
  token <> "" ->
  (forall t, In t (pdf_download_tokens db) -> t_token t = token ->
             (t_expires_at t <= now)%Z) ->
  Index.download generatePresignedPdfUrl now db (Some (JStr token))
  = Index.Json 404 "Invalid or unknown link".
Proof.
  intros Hne H. unfold Index.download. cbn [truthy].
  destruct (String.eqb_spec token "") as [->|_]; [contradiction|].
  cbn [negb]. now rewrite verifyDownloadToken_failure.
Qed.

(** The other outcomes of the handler. *)
Lemma download_missing (now : Z) (db : database) :
  Index.download generatePresignedPdfUrl now db None = Index.Json 400 "Missing token".
Proof. reflexivity. Qed.

Lemma download_live (now : Z) (db : database) (token : string)
    (t : download_token) (q : quiz_result) :
  token <> "" ->
  verifyDownloadToken now db token = success (t, q) ->
  Index.download generatePresignedPdfUrl now db (Some (JStr token))
  = match generatePresignedPdfUrl (q_s3_key q) (7 * 60 * 60) with
    | success url => Index.Redirect url
    | failure _ => Index.Json 500 "Could not generate download link"
    end.
Proof.
  intros Hne H. unfold Index.download. cbn [truthy].
  destruct (String.eqb_spec token "") as [->|_]; [contradiction|].
  cbn [negb]. now rewrite H.
Qed.

End DownloadFacts.

(** An expired token (["tok"], at time 50) and a token that was never
    issued (["nope"]) are answered alike. *)
Lemma download_expired_as_unknown_witness :
  Index.download presign_up 50 db_ttl0 (Some (JStr "tok"))
  = Index.Json 404 "Invalid or unknown link" /\
  Index.download presign_up 50 db_ttl0 (Some (JStr "nope"))
  = Index.Json 404 "Invalid or unknown link".
Proof.
  split.
  - apply (download_expired_as_unknown presign_up 50 db_ttl0 "tok"); [discriminate|].
    intros t Ht _. vm_compute in Ht. destruct Ht as [<-|[]]. cbn. lia.
  - apply (download_expired_as_unknown presign_up 50 db_ttl0 "nope"); [discriminate|].
    intros t Ht K. vm_compute in Ht. destruct Ht as [<-|[]]. discriminate K.
Defined.

(** The three outcomes the handler does tell apart, and the redirect. *)
Example download_outcomes :
  Index.download presign_up 49 db_ttl0 None = Index.Json 400 "Missing token" /\
  Index.download presign_up 49 db_ttl0 (Some (JStr "nope"))
  = Index.Json 404 "Invalid or unknown link" /\
  Index.download presign_down 49 db_ttl0 (Some (JStr "tok"))
  = Index.Json 500 "Could not generate download link" /\
  Index.download presign_up 49 db_ttl0 (Some (JStr "tok"))
  = Index.Redirect "https://bucket.s3.amazonaws.com/pdfs/r.pdf?X-Amz-Signature=0".
Proof. repeat split; vm_compute; reflexivity. Qed.

(** ** Saving a result *)

Section UpsertFacts.

Variables (t1 t2 : Z) (row1 row2 : quiz_result).
Hypothesis same : same_values row1 row2.

Local Abbreviation key := (q_id row1).
Local Abbreviation refresh := (refresh_row t2 (q_id row1)).

Lemma do_update_again (q : quiz_result) :
  same_values q row2 -> do_update t2 q row2 = touch t2 q.
Proof.
  unfold same_values, do_update, touch.
  intros (_ & -> & -> & -> & -> & -> & -> & -> & ->). reflexivity.
Qed.

Lemma same_values_do_update (old : quiz_result) :
  q_id old = key -> same_values (do_update t1 old row1) row2.
Proof.
  destruct same as (E & ?). unfold same_values, do_update; cbn.
  intros ->. fold key in E. tauto.
Qed.

Lemma key_absent (rows : list quiz_result) :
  ~ In key (map q_id rows) ->
  List.filter (fun q => q_id q =? key) rows = [] /\ map refresh rows = rows.
Proof.
  induction rows as [|r rows IH]; cbn; [auto|].
  intros H. unfold refresh at 1.
  destruct (String.eqb_spec (q_id r) key) as [E|_]; [tauto|].
  destruct IH as [-> ->]; tauto.
Qed.

Lemma upsert_again (rows : list quiz_result) :
  List.NoDup (map q_id rows) ->
  exists rows1 ret1,
    upsert t1 row1 rows = (rows1, ret1) /\
    upsert t2 row2 rows1 = (map refresh rows1, touch t2 ret1) /\
    List.filter (fun q => q_id q =? key) rows1 = [ret1] /\
    List.NoDup (map q_id rows1) /\
    (forall x, In x (map q_id rows1) -> x = key \/ In x (map q_id rows)) /\
    q_id ret1 = key /\
    q_pdf_url ret1 = q_pdf_url row1 /\ q_s3_key ret1 = q_s3_key row1.
Proof.
  assert (K : q_id row2 = key) by (destruct same as [E _]; now rewrite <- E).
  induction rows as [|r rows IH]; intros ND.
  - exists [row1], row1. cbn. rewrite K. fold key. rewrite String.eqb_refl.
    rewrite (do_update_again row1 same). unfold refresh. rewrite String.eqb_refl.
    repeat split; auto.
    * constructor; [intros []|constructor].
    * intros x [<-|[]]. now left.
  - inversion ND as [|? ? Hr ND']; subst. cbn [upsert]. fold key.
    destruct (String.eqb_spec (q_id r) key) as [E|NE].
    + exists (do_update t1 r row1 :: rows), (do_update t1 r row1).
      rewrite E in Hr. destruct (key_absent rows Hr) as [F M].
      cbn [upsert map List.filter]. cbn [do_update q_id q_pdf_url q_s3_key].
      rewrite K, E, String.eqb_refl.
      rewrite (do_update_again _ (same_values_do_update r E)).
      unfold refresh at 1. cbn [do_update q_id]. rewrite E, String.eqb_refl.
      rewrite F, M. repeat split; auto.
      constructor; [exact Hr|exact ND'].
    + destruct (IH ND') as (rows1 & ret1 & U1 & U2 & F & ND1 & Sub & Kr & P & S).
      exists (r :: rows1), ret1. rewrite U1. cbn [upsert map List.filter].
      rewrite K. destruct (String.eqb_spec (q_id r) key) as [|_]; [contradiction|].
      rewrite U2. change (refresh r) with (if q_id r =? key then touch t2 r else r).
      destruct (String.eqb_spec (q_id r) key) as [|_]; [contradiction|].
      repeat split; auto.
      * constructor; [|exact ND1]. intros H. apply Sub in H. destruct H; auto.
      * cbn. intros x [<-|H]; auto. apply Sub in H. tauto.
Qed.

End UpsertFacts.

Lemma q_id_refresh_row (now : Z) (key : string) (q : quiz_result) :
  q_id (refresh_row now key q) = q_id q.
Proof. unfold refresh_row. now destruct (q_id q =? key). Qed.

Lemma filter_refresh_row (now : Z) (key : string) (rows : list quiz_result) :
  List.filter (fun q => q_id q =? key) (map (refresh_row now key) rows)
  = map (touch now) (List.filter (fun q => q_id q =? key) rows).
Proof.
  induction rows as [|r rows IH]; cbn [map List.filter]; [reflexivity|].
  rewrite q_id_refresh_row.
  destruct (String.eqb_spec (q_id r) key) as [E|NE]; [|exact IH].
  cbn [map]. rewrite IH. f_equal. unfold refresh_row.
  now rewrite E, String.eqb_refl.
Qed.

(** C9. Repeating [saveQuizResult] with the same arguments changes
    nothing but the [updated_at] stamp of the row: when the call fails it
    fails again and the store is untouched; when it succeeds the second
    call returns the same row, the store holds the same rows in every
    other column, exactly one row is stored under the id, and that row
    holds the [pdfUrl] and [s3Key] given. *)
Theorem saveQuizResult_idempotent (t1 t2 : Z) (db : database)
    (id email : string) (name : option string) (results : Results)
    (pdfUrl s3Key : option string) :
  primary_key db ->
  let '(r1, db1) := saveQuizResult t1 db id email name results pdfUrl s3Key in
  let '(r2, db2) := saveQuizResult t2 db1 id email name results pdfUrl s3Key in
  match r1 with
  | failure e => r2 = failure e /\ db1 = db /\ db2 = db
  | success row =>
      r2 = success (touch t2 row) /\
      quiz_results db2 = map (refresh_row t2 (q_id row)) (quiz_results db1) /\
      pdf_download_tokens db2 = pdf_download_tokens db1 /\
      map without_updated_at (quiz_results db2)
      = map without_updated_at (quiz_results db1) /\
      rows_with_id (q_id row) db1 = [row] /\
      rows_with_id (q_id row) db2 = [touch t2 row] /\
      q_pdf_url row = pdfUrl /\ q_s3_key row = s3Key /\
      primary_key db2
  end.
Proof.
  intros PK. unfold saveQuizResult.
  destruct (uuid_in id) as [u|]; cbn [mbind option_bind]; [|auto].
  destruct (VARCHAR 255 (trim (toLowerCase email))) as [e|]; cbn [mbind option_bind]; [|auto].
  destruct (match name with Some n => Some <$> VARCHAR 255 n | None => Some None end)
    as [n|]; cbn [mbind option_bind]; [|auto].
  destruct (match or_null_string (ednaType results) with
            | Some s => Some <$> VARCHAR 100 s | None => Some None end)
    as [et|]; cbn [mbind option_bind]; [|auto].
  destruct (match or_null_string (coreType results) with
            | Some s => Some <$> VARCHAR 50 s | None => Some None end)
    as [ct|]; cbn [mbind option_bind]; [|auto].
  destruct (match or_null_string (subtype results) with
            | Some s => Some <$> VARCHAR 50 s | None => Some None end)
    as [st|]; cbn [mbind option_bind]; [|auto].
  destruct (INTEGER (or_null_number (coreTypeMastery results))) as [cm|];
    cbn [mbind option_bind]; [|auto].
  destruct (INTEGER (or_null_number (subtypeMastery results))) as [sm|];
    cbn [mbind option_bind]; [|auto].
  match goal with
  | |- context [upsert t1 ?row1 _] =>
      match goal with
      | |- context [upsert t2 ?row2 _] =>
          destruct (upsert_again t1 t2 row1 row2) with (rows := quiz_results db)
            as (rows1 & ret1 & U1 & U2 & F & ND1 & Sub & Kr & P & S);
            [unfold same_values; cbn; tauto|exact PK|]
      end
  end.
  rewrite U1. cbn [quiz_results pdf_download_tokens]. rewrite U2.
  cbn [q_id q_pdf_url q_s3_key] in *. unfold rows_with_id, primary_key.
  cbn [quiz_results pdf_download_tokens]. rewrite Kr.
  repeat split; auto.
  - rewrite map_map. apply map_ext. intros q. unfold refresh_row.
    now destruct (q_id q =? u).
  - rewrite filter_refresh_row, F. reflexivity.
  - replace (map q_id (map _ rows1)) with (map q_id rows1); [exact ND1|].
    rewrite map_map. apply map_ext. intros q. now rewrite q_id_refresh_row.
Qed.

Lemma saveQuizResult_idempotent_witness :
  primary_key db_one_result /\
  map without_updated_at (quiz_results db_saved_twice)
  = map without_updated_at (quiz_results db_saved_once) /\
  length (rows_with_id sample_id db_saved_twice) = 1 /\
  map q_pdf_url (rows_with_id sample_id db_saved_twice)
  = [Some "https://bucket/pdfs/r2.pdf"] /\
  map q_s3_key (rows_with_id sample_id db_saved_twice) = [Some "pdfs/r2.pdf"].
Proof.
  assert (PK : primary_key db_one_result).
  { vm_compute. constructor; [intros []|constructor]. }
  split; [exact PK|].
  pose proof (saveQuizResult_idempotent 20 30 db_one_result sample_id "bob@example.com"
                (Some "Bob") sample_result (Some "https://bucket/pdfs/r2.pdf")
                (Some "pdfs/r2.pdf") PK) as H.
  unfold db_saved_twice, db_saved_once.
  destruct (saveQuizResult 20 db_one_result _ _ _ _ _ _) as [r1 db1] eqn:E1.
  cbn [snd]. cbv beta iota in H.
  destruct (saveQuizResult 30 db1 _ _ _ _ _ _) as [r2 db2].
  cbn [snd]. cbv beta iota in H.
  destruct r1 as [row|e]; [|vm_compute in E1; discriminate E1].
  assert (I : q_id row = sample_id).
  { vm_compute in E1. injection E1 as <- _. reflexivity. }
  destruct H as (_ & _ & _ & M & _ & R & P & S & _). rewrite I in R.
  rewrite R. cbn [map length touch q_pdf_url q_s3_key]. rewrite P, S. auto.
Defined.

(** C9, the claim as worded.  The store after the second call is not
    the store after the first: the row read back carries the time of
    the later call as [updated_at]. *)
Lemma saveQuizResult_repeated_differs :
  db_saved_twice <> db_saved_once /\
  map q_updated_at (quiz_results db_saved_once) = [20%Z] /\
  map q_updated_at (quiz_results db_saved_twice) = [30%Z].
Proof.
  assert (A : map q_updated_at (quiz_results db_saved_once) = [20%Z])
    by (vm_compute; reflexivity).
  assert (B : map q_updated_at (quiz_results db_saved_twice) = [30%Z])
    by (vm_compute; reflexivity).
  split; [|now split]. intros E. rewrite E, A in B. discriminate B.
Qed.

(** ** Looking a result up by email *)

Lemma filter_none {A} (p : A -> bool) (l : list A) :
  (forall x, In x l -> p x = false) -> List.filter p l = [].
Proof.
  induction l as [|x l IH]; cbn; [reflexivity|]. intros H.
  rewrite (H x) by now left. apply IH. intros y Hy. apply H. now right.
Qed.



(** The fallback in general: a stored address that contains the query
    is matched by the pattern, so the lookup succeeds whenever some
    stored address contains the normalised query. *)
Lemma LIKE_percent (p t : string) :
  LIKE (String "%" p) t
  = LIKE p t || match t with
                | EmptyString => false
                | String _ t' => LIKE (String "%" p) t'
                end.
Proof. destruct t; reflexivity. Qed.

Lemma LIKE_literal (c d : ascii) (p t : string) :
  c <> "%"%char -> c <> "_"%char -> c <> "\"%char ->
  LIKE (String c p) (String d t) = Ascii.eqb c d && LIKE p t.
Proof.
  intros H1 H2 H3.
  destruct c as [[] [] [] [] [] [] [] []]; try reflexivity; congruence.
Qed.

Lemma append_cons (c : ascii) (s1 s2 : string) :
  String c s1 +:+ s2 = String c (s1 +:+ s2).
Proof. reflexivity. Qed.

Lemma LIKE_prefix (p t : string) :
  no_backslash p = true -> String.prefix p t = true -> LIKE (p +:+ "%") t = true.
Proof.
  revert t. induction p as [|c p IH]; intros t N P.
  - change ("" +:+ "%") with "%". clear. induction t as [|d t IH]; [reflexivity|].
    rewrite LIKE_percent. now rewrite IH, orb_true_r.
  - cbn [no_backslash] in N. apply andb_true_iff in N. destruct N as [N1 N2].
    destruct t as [|d t]; [discriminate P|]. cbn [String.prefix] in P.
    destruct (ascii_dec c d) as [<-|]; [|discriminate P].
    specialize (IH t N2 P). rewrite append_cons.
    destruct (Ascii.eqb_spec c "%") as [->|H1].
    { rewrite LIKE_percent, (LIKE_percent _ t), IH. now rewrite orb_true_r. }
    destruct (Ascii.eqb_spec c "_") as [->|H2]; [exact IH|].
    destruct (Ascii.eqb_spec c "\") as [->|H3]; [discriminate N1|].
    now rewrite LIKE_literal, Ascii.eqb_refl.
Qed.

Lemma LIKE_contains (p t : string) :
  no_backslash p = true -> includes t p = true -> LIKE ("%" +:+ p +:+ "%") t = true.
Proof.
  intros N. change ("%" +:+ p +:+ "%") with (String "%" (p +:+ "%")).
  induction t as [|d t IH]; cbn [includes]; intros I.
  - rewrite LIKE_percent. destruct (String.prefix p "") eqn:P; [|discriminate I].
    now rewrite LIKE_prefix.
  - rewrite LIKE_percent. destruct (String.prefix p (String d t)) eqn:P.
    + now rewrite LIKE_prefix.
    + now rewrite IH, orb_true_r.
Qed.

Lemma toLowerCase_app (s1 s2 : string) :
  toLowerCase (s1 +:+ s2) = toLowerCase s1 +:+ toLowerCase s2.
Proof.
  induction s1 as [|c s1 IH]; [reflexivity|].
  rewrite append_cons. cbn [toLowerCase]. now rewrite IH.
Qed.

Lemma no_backslash_toLowerCase (s : string) :
  no_backslash s = true -> no_backslash (toLowerCase s) = true.
Proof.
  induction s as [|c s IH]; cbn; [reflexivity|]. intros H.
  apply andb_true_iff in H. destruct H as [H1 H2]. rewrite (IH H2), andb_true_r.
  destruct c as [[] [] [] [] [] [] [] []]; try reflexivity; discriminate H1.
Qed.

Lemma latest_Some (rows : list quiz_result) (row : quiz_result) :
  latest rows = Some row -> In row rows.
Proof.
  revert row. induction rows as [|x rows IH]; intros row; cbn [latest]; [discriminate|].
  destruct (latest rows) as [r'|].
  - destruct (q_created_at x <? q_created_at r')%Z; intros [= <-];
      [right; now apply IH|now left].
  - intros [= <-]. now left.
Qed.

Lemma latest_In (rows : list quiz_result) (r : quiz_result) :
  In r rows -> exists row, latest rows = Some row /\ In row rows.
Proof.
  intros I. destruct (latest rows) as [row|] eqn:E.
  - exists row. split; [reflexivity|now apply latest_Some].
  - destruct rows as [|x rows]; [destruct I|]. cbn [latest] in E.
    destruct (latest rows) as [r'|]; [|discriminate E].
    destruct (q_created_at x <? q_created_at r')%Z; discriminate E.
Qed.

Lemma getQuizResultByEmail_contains (db : database) (email : string) (q : quiz_result) :
  (forall q, In q (quiz_results db) ->
             LOWER_TRIM (q_email q) <> trim (toLowerCase email)) ->
  In q (quiz_results db) ->
  no_backslash (trim (toLowerCase email)) = true ->
  includes (toLowerCase (q_email q)) (toLowerCase (trim (toLowerCase email))) = true ->
  exists row,
    getQuizResultByEmail db email = success row /\
    In row (quiz_results db) /\
    ILIKE (q_email row) ("%" +:+ trim (toLowerCase email) +:+ "%") = true.
Proof.
  intros Hno Hq N I. unfold getQuizResultByEmail.
  rewrite filter_none by (intros x Hx; apply String.eqb_neq; now apply Hno).
  set (matches := fun q => ILIKE (q_email q) ("%" +:+ trim (toLowerCase email) +:+ "%")).
  assert (M : In q (List.filter matches (quiz_results db))).
  { apply filter_In. split; [exact Hq|]. unfold matches, ILIKE.
    rewrite !toLowerCase_app. apply LIKE_contains; [|exact I].
    now apply no_backslash_toLowerCase. }
  destruct (latest_In _ _ M) as [row [-> R]]. apply filter_In in R.
  exists row. tauto.
Qed.

(** The wild cards of the pattern are live: an underscore in the query
    stands for any character of a stored address. *)
Example getQuizResultByEmail_underscore :
  exists row,
    getQuizResultByEmail db_one_result "b_b@example.com" = success row /\
    q_email row = "bob@example.com".
Proof. eexists. split; vm_compute; reflexivity. Qed.

(** ** The token handed out in the download link *)

Lemma issue_download_link_token (rnds : list Z) (now : Z) (db : database)
    (resultId publicBaseUrl : string) :
  fst (fst (Index.issue_download_link rnds now db resultId publicBaseUrl)) = Uuid.v4 rnds.
Proof.
  unfold Index.issue_download_link.
  destruct (createDownloadToken _ _ _ _ _) as [[|] db']; reflexivity.
Qed.

Lemma land_low_nibble (h x : Z) : Z.land (16 * h + x mod 16) 15 = Z.land x 15.
Proof.
  change 15%Z with (Z.ones 4). rewrite !Z.land_ones by lia.
  change (2 ^ 4)%Z with 16%Z. rewrite Z.add_comm, Z.mul_comm, Z_mod_plus_full.
  apply Z.mod_mod. lia.
Qed.

Lemma land_low_six (t x : Z) : Z.land (64 * t + x mod 64) 63 = Z.land x 63.
Proof.
  change 63%Z with (Z.ones 6). rewrite !Z.land_ones by lia.
  change (2 ^ 6)%Z with 64%Z. rewrite Z.add_comm, Z.mul_comm, Z_mod_plus_full.
  apply Z.mod_mod. lia.
Qed.

(** C7, what the code does.  The token the pipeline stores and puts in
    the download link is [uuidv4()]: of the sixteen random bytes the top
    four bits of byte 6 and the top two bits of byte 8 are overwritten,
    so the 64 draws that differ only there yield one and the same token:
    the token carries 122 random bits, not 256. *)
Theorem issued_token_ignores_six_bits (rnds : list Z) (h t : Z) (now : Z)
    (db : database) (resultId publicBaseUrl : string) :
  Uuid.random_bytes rnds ->
  (0 <= h < 16)%Z -> (0 <= t < 4)%Z ->
  let rnds' :=
    <[6%nat := (16 * h + Uuid.byte_at rnds 6 mod 16)%Z]>
      (<[8%nat := (64 * t + Uuid.byte_at rnds 8 mod 64)%Z]> rnds) in
  Uuid.random_bytes rnds' /\
  fst (fst (Index.issue_download_link rnds' now db resultId publicBaseUrl))
  = fst (fst (Index.issue_download_link rnds now db resultId publicBaseUrl)).
Proof.
  intros [L B] Hh Ht. cbv zeta. rewrite !issue_download_link_token.
  do 16 (destruct rnds as [|? rnds]; [discriminate L|]).
  destruct rnds; [|discriminate L].
  unfold Uuid.v4, Uuid.byte_at, Uuid.random_bytes.
  cbn [insert list_insert lookup list_lookup default length]. unfold id.
  split; [split; [reflexivity|]|now rewrite land_low_nibble, land_low_six].
  repeat match goal with
         | H : Forall _ (_ :: _) |- _ => apply Forall_cons in H; destruct H as [? H]
         end.
  match goal with
  | |- context [(?x mod 16)%Z] => pose proof (Z.mod_pos_bound x 16 eq_refl)
  end.
  match goal with
  | |- context [(?x mod 64)%Z] => pose proof (Z.mod_pos_bound x 64 eq_refl)
  end.
  repeat (apply List.Forall_cons; [cbn beta; lia|]). constructor.
Qed.

Lemma issued_token_ignores_six_bits_witness :
  draw_a <> draw_b /\
  Uuid.random_bytes draw_b /\
  fst (fst (Index.issue_download_link draw_b 100 db_one_result sample_id "https://api"))
  = fst (fst (Index.issue_download_link draw_a 100 db_one_result sample_id "https://api")).
Proof.
  split; [discriminate|].
  apply (issued_token_ignores_six_bits draw_a 15 3 100 db_one_result sample_id "https://api").
  - split; [reflexivity|]. repeat constructor; cbn; lia.
  - lia.
  - lia.
Defined.

Example uuidv4_sample_token :
  Uuid.v4 draw_a = "00010203-0405-4607-8809-0a0b0c0d0eff" /\
  Uuid.v4 draw_b = "00010203-0405-4607-8809-0a0b0c0d0eff".
Proof. split; vm_compute; reflexivity. Qed.

(** * Further properties of the scoring engine *)

(** ** Layer 1 and the path of Layer 2 *)

Lemma chose_exclusive (answers : AnswerMap) (l : list nat) :
  length (List.filter (chose answers "a") l) + length (List.filter (chose answers "b") l)
  <= length l.
Proof.
  induction l as [|i l IH]; cbn [List.filter length]; [lia|].
  assert (E : chose answers "a" i = true -> chose answers "b" i = false).
  { unfold chose, strict_eq.
    destruct (answer answers ("L1_Q" +:+ Number_toString i)) as [[s|]|]; try discriminate.
    intros H. apply String.eqb_eq in H. now subst. }
  destruct (chose answers "a" i); [rewrite E by reflexivity|];
    destruct (chose answers "b" i); cbn [length]; lia.
Qed.

(** X1. A question counts for at most one pole: the two counters of
    Layer 1 add up to at most 8. *)
Theorem calculateLayer1_counts_bound (answers : AnswerMap) :
  architectCount (calculateLayer1 answers) + alchemistCount (calculateLayer1 answers) <= 8.
Proof.
  unfold calculateLayer1. rewrite layer1_loop. cbn [architectCount alchemistCount Nat.add].
  apply (chose_exclusive answers (seq 1 8)).
Qed.

Lemma calculateLayer1_type (answers : AnswerMap) :
  l1_type (calculateLayer1 answers)
  = layer1_table (count_answers answers "a") (count_answers answers "b").
Proof.
  unfold calculateLayer1. rewrite layer1_loop, layer1_classify. reflexivity.
Qed.

Lemma calculateLayer2_path (answers : AnswerMap) (layer1Result : Layer1) :
  l2_path (calculateLayer2 answers layer1Result)
  = if includes (l1_type layer1Result) "Architect" then "architect"
    else if includes (l1_type layer1Result) "Alchemist" then "alchemist"
    else "mixed".
Proof.
  unfold calculateLayer2.
  destruct (includes (l1_type layer1Result) "Architect"); [reflexivity|].
  destruct (includes (l1_type layer1Result) "Alchemist"); reflexivity.
Qed.

(** X2. The path Layer 2 takes inside [calculateAllResults] is decided
    by the two counts of Layer 1 alone: 8/0, 7/1 and 6/2 give
    ['architect'], 0/8, 1/7 and 2/6 give ['alchemist'], and every other
    pair gives ['mixed']. *)
Theorem calculateLayer2_path_by_counts (answers : AnswerMap) :
  l2_path (calculateLayer2 answers (calculateLayer1 answers))
  = match count_answers answers "a", count_answers answers "b" with
    | 8, 0 | 7, 1 | 6, 2 => "architect"
    | 0, 8 | 1, 7 | 2, 6 => "alchemist"
    | _, _ => "mixed"
    end%nat.
Proof.
  rewrite calculateLayer2_path, calculateLayer1_type.
  generalize (count_answers answers "a") (count_answers answers "b"). intros a b.
  do 9 (destruct a as [|a]; [do 9 (destruct b as [|b]; [reflexivity|]); reflexivity|]).
  do 9 (destruct b as [|b]; [reflexivity|]); reflexivity.
Qed.

(** ** Layer 2 *)

Lemma fold_left_ext_in {A B} (f g : A -> B -> A) (l : list B) (a : A) :
  (forall a x, In x l -> f a x = g a x) -> fold_left f l a = fold_left g l a.
Proof.
  revert a. induction l as [|x l IH]; intros a H; [reflexivity|]. cbn [fold_left].
  rewrite (H a x) by now left. apply IH. intros a' y Hy. apply H. now right.
Qed.

(** X3. Layer 2 reads only the eight questions of its path: two answer
    maps that agree on them get the same result. *)
Theorem calculateLayer2_reads_its_path (answers answers' : AnswerMap) (layer1Result : Layer1) :
  (forall i, In i (seq 9 8) ->
     answer answers (layer2_question layer1Result i)
     = answer answers' (layer2_question layer1Result i)) ->
  calculateLayer2 answers layer1Result = calculateLayer2 answers' layer1Result.
Proof.
  intros H. unfold calculateLayer2, layer2_question in *.
  destruct (includes (l1_type layer1Result) "Architect");
    [|destruct (includes (l1_type layer1Result) "Alchemist")];
    cbv beta iota zeta;
    try change ("architect" =? "alchemist") with false;
    try change ("architect" =? "architect") with true;
    try change ("alchemist" =? "alchemist") with true;
    try change ("mixed" =? "alchemist") with false;
    try change ("mixed" =? "architect") with false;
    cbv iota;
    (f_equal; [f_equal; f_equal|]); apply fold_left_ext_in; intros scores i Hi;
    cbv beta; now rewrite (H i Hi).
Qed.

Lemma calculateLayer2_reads_its_path_witness :
  calculateLayer2 answers_layer2 weak_architect
  = calculateLayer2 answers_layer2_more weak_architect.
Proof.
  apply (calculateLayer2_reads_its_path answers_layer2 answers_layer2_more weak_architect).
  intros i Hi. cbn in Hi. decompose [or] Hi; subst; try contradiction;
    vm_compute; reflexivity.
Defined.

Lemma tally_total_set_own (scores : object nat) (k : string) :
  tally_total (set_own scores k (default 0 (get_own scores k) + 1))
  = S (tally_total scores).
Proof.
  unfold tally_total, list_sum. induction scores as [|[k' v] scores IH]; [reflexivity|].
  cbn [set_own get_own]. destruct (k' =? k).
  - cbn [map snd foldr default from_option id]. unfold id. lia.
  - cbn [map snd foldr]. rewrite IH. lia.
Qed.

Lemma keys_set_own {A} (scores : object A) (k : string) (v : A) :
  map fst (set_own scores k v)
  = if existsb (String.eqb k) (map fst scores) then map fst scores
    else map fst scores ++ [k].
Proof.
  induction scores as [|[k' v'] scores IH]; cbn; [reflexivity|].
  rewrite (String.eqb_sym k k').
  destruct (String.eqb_spec k' k) as [->|]; cbn; [reflexivity|].
  rewrite IH. now destruct (existsb _ _).
Qed.

Lemma NoDup_set_own {A} (scores : object A) (k : string) (v : A) :
  List.NoDup (map fst scores) -> List.NoDup (map fst (set_own scores k v)).
Proof.
  intros H. rewrite keys_set_own.
  destruct (existsb (String.eqb k) (map fst scores)) eqn:E; [exact H|].
  assert (I : ~ In k (map fst scores)).
  { intros I. apply not_true_iff_false in E. apply E.
    apply existsb_exists. exists k. split; [exact I|apply String.eqb_refl]. }
  clear E. induction H as [|x l Hx H IH]; cbn.
  - constructor; [intros []|constructor].
  - constructor.
    + intros J. apply in_app_or in J. destruct J as [J|[<-|[]]]; [auto|].
      apply I. now left.
    + apply IH. intros J. apply I. now right.
Qed.

Lemma tally_invariant (f : object nat -> nat -> object nat) (l : list nat)
    (scores : object nat) :
  tallies f ->
  List.Forall (fun kv => 1 <= snd kv) scores ->
  List.NoDup (map fst scores) ->
  List.Forall (fun kv => 1 <= snd kv) (fold_left f l scores) /\
  List.NoDup (map fst (fold_left f l scores)) /\
  tally_total (fold_left f l scores) <= tally_total scores + length l.
Proof.
  intros Hf. revert scores. induction l as [|i l IH]; intros scores P N; cbn [fold_left length].
  - repeat split; auto. lia.
  - destruct (Hf scores i) as [->|[k ->]].
    + destruct (IH scores P N) as (? & ? & ?). repeat split; auto. lia.
    + destruct (IH (set_own scores k (default 0 (get_own scores k) + 1))) as (? & ? & T).
      * apply Forall_set_own; [exact P|]. cbn. lia.
      * now apply NoDup_set_own.
      * rewrite tally_total_set_own in T. repeat split; auto. lia.
Qed.

Lemma calculateLayer2_tally (answers : AnswerMap) (layer1Result : Layer1) :
  exists f,
    tallies f /\
    l2_scores (calculateLayer2 answers layer1Result) = fold_left f (seq 9 8) [] /\
    l2_subtype (calculateLayer2 answers layer1Result)
    = capitalize (dominant (fold_left f (seq 9 8) [])).
Proof.
  unfold calculateLayer2.
  destruct (includes (l1_type layer1Result) "Architect");
    [|destruct (includes (l1_type layer1Result) "Alchemist")];
    cbv beta iota zeta; cbn [l2_scores l2_subtype];
    match goal with
    | |- context [fold_left ?f (seq 9 8) []] => exists f
    end;
    (split; [|split; reflexivity]);
    intros scores i; cbv beta;
    (destruct (truthy (answer answers _)); [|now left]);
    match goal with
    | |- context [if ?c then set_own _ _ _ else _] => destruct c
    end;
    first [left; reflexivity|right; eexists; reflexivity].
Qed.


Lemma dominant_loop (scores : object nat) (k0 : string) (m0 : nat) (k : string) (m : nat) :
  fold_left
    (fun '(subtype, maxScore) '(key, value) =>
       if (maxScore <? value)%nat then (key, value) else (subtype, maxScore))
    scores (k0, m0) = (k, m) ->
  (k = k0 /\ m = m0 /\ List.Forall (fun kv => snd kv <= m0) scores) \/
  (exists pre post,
     scores = pre ++ (k, m) :: post /\ m0 < m /\
     List.Forall (fun kv => snd kv < m) pre /\
     List.Forall (fun kv => snd kv <= m) post).
Proof.
  revert k0 m0. induction scores as [|[kx v] scores IH]; intros k0 m0; cbn [fold_left].
  - intros [= <- <-]. left. auto.
  - destruct (Nat.ltb_spec m0 v) as [L|L]; intros H; apply IH in H.
    + right. destruct H as [(-> & -> & F)|(pre & post & -> & L' & Fp & Fq)].
      * exists [], scores. split; [reflexivity|]. split; [exact L|].
        split; [constructor|exact F].
      * exists ((kx, v) :: pre), post. split; [reflexivity|]. split; [lia|].
        split; [constructor; [cbn; lia|exact Fp]|exact Fq].
    + destruct H as [(-> & -> & F)|(pre & post & -> & L' & Fp & Fq)].
      * left. split; [reflexivity|]. split; [reflexivity|].
        constructor; [exact L|exact F].
      * right. exists ((kx, v) :: pre), post. split; [reflexivity|]. split; [exact L'|].
        split; [constructor; [cbn; lia|exact Fp]|exact Fq].
Qed.

(** X5. The subtype of Layer 2 is the arg-max of its tally with the
    first key seen winning a tie: it is the capitalised key of an entry
    that every earlier entry stays strictly below and no later entry
    exceeds; with an empty tally it is the empty string. *)
Theorem calculateLayer2_dominant (answers : AnswerMap) (layer1Result : Layer1) :
  let r := calculateLayer2 answers layer1Result in
  (l2_scores r = [] /\ l2_subtype r = "") \/
  (exists pre k v post,
     l2_scores r = pre ++ (k, v) :: post /\
     l2_subtype r = capitalize k /\
     List.Forall (fun kv => snd kv < v) pre /\
     List.Forall (fun kv => snd kv <= v) post).
Proof.
  cbv zeta. destruct (calculateLayer2_tally answers layer1Result) as (f & Hf & -> & ->).
  destruct (tally_invariant f (seq 9 8) [] Hf) as (P & _ & _); [constructor|constructor|].
  unfold dominant.
  destruct (fold_left _ (fold_left f (seq 9 8) []) ("", 0)) as [k m] eqn:E.
  apply dominant_loop in E. cbn [fst].
  destruct E as [(-> & -> & F)|(pre & post & E & L & Fp & Fq)].
  - left. destruct (fold_left f (seq 9 8) []) as [|[k v] scores]; [auto|].
    inversion P; inversion F; subst. cbn in *. lia.
  - right. exists pre, k, m, post. auto.
Qed.

(** ** Layer 3 *)

Lemma calculateLayer3_loop (answers : AnswerMap) (l : object DimData)
    (dimensions : object Dimension) (totalScore : nat) :
  exists grades,
    length grades = length l /\
    List.Forall (fun g => score g <= 2) grades /\
    fold_left
      (fun '(dimensions, totalScore) '(qid, dimData) =>
         let answer := answer answers qid in
         let '(score, label) :=
           if strict_eq answer "a" then (0, nth 0 (labels dimData) "")
           else if strict_eq answer "b" then (1, nth 1 (labels dimData) "")
           else if strict_eq answer "c" then (2, nth 2 (labels dimData) "")
           else (0, "") in
         (set_own dimensions (name dimData) {| score := score; label := label |},
          totalScore + score))
      l (dimensions, totalScore)
    = (fold_left (fun o '(d, g) => set_own o (name (snd d)) g) (combine l grades) dimensions,
       totalScore + list_sum (map score grades)).
Proof.
  revert dimensions totalScore.
  induction l as [|[qid d] l IH]; intros dimensions totalScore.
  - exists []. repeat split; [constructor|]. cbn. f_equal. lia.
  - cbn [fold_left]. cbv zeta.
    destruct (strict_eq (answer answers qid) "a");
      [|destruct (strict_eq (answer answers qid) "b");
        [|destruct (strict_eq (answer answers qid) "c")]];
      match goal with
      | |- context [set_own dimensions (name d) ?g] =>
          destruct (IH (set_own dimensions (name d) g) (totalScore + score g))
            as (grades & L & F & E);
          exists (g :: grades)
      end;
      (split; [cbn; lia|]); (split; [constructor; [cbn; lia|exact F]|]);
      cbn [score] in E; rewrite E; cbn [combine fold_left snd map list_sum foldr score];
      f_equal; unfold list_sum; lia.
Qed.

(** X6. Layer 3 always reports the six dimensions, in the order of the
    questions; every dimension scores 0, 1 or 2, the total is the sum of
    the six scores and never exceeds [maxScore], which is 12. *)
Theorem calculateLayer3_total (answers : AnswerMap) :
  let r := calculateLayer3 answers in
  map fst (l3_dimensions r)
  = ["Validator Awareness"; "Emotional Regulation"; "Feedback Processing";
     "Blind Spot Recognition"; "Self-Correction Speed"; "Growth Orientation"] /\
  List.Forall (fun kv => score (snd kv) <= 2) (l3_dimensions r) /\
  totalScore r = list_sum (map (fun kv => score (snd kv)) (l3_dimensions r)) /\
  totalScore r <= maxScore r /\ maxScore r = 12.
Proof.
  cbv zeta. unfold calculateLayer3.
  destruct (calculateLayer3_loop answers dimensionMap [] 0) as (grades & L & F & E).
  match goal with
  | |- context [fold_left ?f dimensionMap ?i] =>
      set (loop := fold_left f dimensionMap i); pose proof (E : loop = _) as E'
  end.
  rewrite E'. clear loop E E'. cbn [totalScore maxScore l3_dimensions].
  do 6 (destruct grades as [|? grades]; [discriminate L|]).
  destruct grades; [|discriminate L].
  repeat match goal with
         | H : List.Forall _ (_ :: _) |- _ => inversion H; clear H; subst
         end.
  cbn. repeat split; try lia.
  repeat (apply List.Forall_cons; [cbn; assumption|]). apply List.Forall_nil.
Qed.

(** ** Layer 5 *)

Lemma get_own_set_own {A} (o : object A) (k k' : string) (v : A) :
  get_own (set_own o k v) k' = if k =? k' then Some v else get_own o k'.
Proof.
  induction o as [|[k0 v0] o IH]; cbn [set_own get_own].
  - reflexivity.
  - destruct (String.eqb_spec k0 k) as [->|N]; cbn [get_own].
    + destruct (k =? k'); reflexivity.
    + rewrite IH. destruct (String.eqb_spec k0 k') as [->|]; [|reflexivity].
      destruct (String.eqb_spec k k') as [->|]; [contradiction|reflexivity].
Qed.

Lemma calculateLayer5_loop (answers : AnswerMap) (l : list (string * string))
    (profile : object jsval) (k : string) :
  List.NoDup (map snd l) ->
  get_own
    (fold_left
       (fun (profile : object jsval) '(qid, name) =>
          match answer answers qid with
          | Some a => if truthy (Some a) then set_own profile name a else profile
          | None => profile
          end)
       l profile) k
  = match List.find (fun '(_, name) => name =? k) l with
    | Some (qid, _) =>
        if truthy (answer answers qid) then answer answers qid else get_own profile k
    | None => get_own profile k
    end.
Proof.
  revert profile. induction l as [|[qid name] l IH]; intros profile ND; [reflexivity|].
  inversion ND as [|? ? Hn ND']; subst. cbn [fold_left List.find]. rewrite (IH _ ND').
  destruct (String.eqb_spec name k) as [->|N].
  - assert (F : List.find (fun '(_, name) => name =? k) l = None).
    { destruct (List.find _ l) as [[q n]|] eqn:E; [|reflexivity].
      apply find_some in E. destruct E as [I E]. apply String.eqb_eq in E. subst n.
      exfalso. apply Hn. apply in_map_iff. now exists (q, k). }
    rewrite F. destruct (answer answers qid) as [a|]; [|reflexivity].
    destruct (truthy (Some a)); [|reflexivity].
    now rewrite get_own_set_own, String.eqb_refl.
  - assert (G : get_own
                  match answer answers qid with
                  | Some a => if truthy (Some a) then set_own profile name a else profile
                  | None => profile
                  end k = get_own profile k).
    { destruct (answer answers qid) as [a|]; [|reflexivity].
      destruct (truthy (Some a)); [|reflexivity].
      rewrite get_own_set_own. now destruct (String.eqb_spec name k). }
    rewrite G. reflexivity.
Qed.

(** X7. Layer 5 stores each answer verbatim under the name of its
    dimension and leaves unanswered questions out: the profile holds
    [answers[qid]] when that value is truthy and nothing otherwise, and
    it has no other entry. *)
Theorem calculateLayer5_verbatim (answers : AnswerMap) :
  (forall qid name, In (qid, name) l5_dimensions ->
     get_own (profile (calculateLayer5 answers)) name
     = if truthy (answer answers qid) then answer answers qid else None) /\
  (forall k, ~ In k (map snd l5_dimensions) ->
     get_own (profile (calculateLayer5 answers)) k = None).
Proof.
  assert (ND : List.NoDup (map snd l5_dimensions)).
  { cbn. repeat (constructor; [cbn; intuition discriminate|]). constructor. }
  unfold calculateLayer5. cbn [profile]. split.
  - intros qid name I. rewrite (calculateLayer5_loop _ _ _ _ ND).
    cbn in I. decompose [or] I; try contradiction;
      match goal with H : (_, _) = (_, _) |- _ => injection H as <- <- end;
      reflexivity.
  - intros k N. rewrite (calculateLayer5_loop _ _ _ _ ND).
    destruct (List.find _ l5_dimensions) as [[q n]|] eqn:E; [|reflexivity].
    apply find_some in E. destruct E as [I E]. apply String.eqb_eq in E. subst n.
    exfalso. apply N. apply in_map_iff. now exists (q, k).
Qed.

(** ** Layer 7 *)

Lemma fold_left_throw {A B} (f : completion A -> B -> completion A)
    (l : list B) (e : string) :
  (forall x, f (Throw e) x = Throw e) -> fold_left f l (Throw e) = Throw e.
Proof.
  intros H. induction l as [|x l IH]; cbn [fold_left]; [reflexivity|]. now rewrite H.
Qed.

(** One turn of the loop of Layer 7, as a function of the answer. *)
Lemma calculateLayer7_turn (v : option jsval) (data : DimData) (beliefs : object string) :
  match v with
  | Some a =>
      if truthy (Some a) then
        code ← charCodeAt0 a;
        let index := (fun c => c - 97)%Z <$> code in
        let label :=
          match index with
          | Some i => label_at (labels data) i
          | None => ""
          end in
        Return (set_own beliefs (name data) label)
      else Return beliefs
  | None => Return beliefs
  end
  = match v with
    | Some (JStr (String c _)) =>
        Return (set_own beliefs (name data)
                  (label_at (labels data) (Z.of_nat (nat_of_ascii c) - 97)))
    | Some (JOther true _) => Throw "TypeError: answer.charCodeAt is not a function"
    | _ => Return beliefs
    end.
Proof. destruct v as [[[|c s]|[] k]|]; reflexivity. Qed.

Lemma calculateLayer7_loop (answers : AnswerMap) (l : object DimData)
    (beliefs : object string) :
  (existsb
     (fun '(qid, _) =>
        match answer answers qid with
        | Some (JOther true _) => true
        | _ => false
        end) l = true ->
   fold_left
     (fun (acc : completion (object string)) '(qid, data) =>
        beliefs ← acc;
        match answer answers qid with
        | Some a =>
            if truthy (Some a) then
              code ← charCodeAt0 a;
              let index := (fun c => c - 97)%Z <$> code in
              let label :=
                match index with
                | Some i => label_at (labels data) i
                | None => ""
                end in
              Return (set_own beliefs (name data) label)
            else Return beliefs
        | None => Return beliefs
        end)
     l (Return beliefs) = Throw "TypeError: answer.charCodeAt is not a function") /\
  (existsb
     (fun '(qid, _) =>
        match answer answers qid with
        | Some (JOther true _) => true
        | _ => false
        end) l = false ->
   fold_left
     (fun (acc : completion (object string)) '(qid, data) =>
        beliefs ← acc;
        match answer answers qid with
        | Some a =>
            if truthy (Some a) then
              code ← charCodeAt0 a;
              let index := (fun c => c - 97)%Z <$> code in
              let label :=
                match index with
                | Some i => label_at (labels data) i
                | None => ""
                end in
              Return (set_own beliefs (name data) label)
            else Return beliefs
        | None => Return beliefs
        end)
     l (Return beliefs)
   = Return
       (fold_left
          (fun (beliefs : object string) '(qid, data) =>
             match answer answers qid with
             | Some (JStr (String c _)) =>
                 set_own beliefs (name data)
                   (label_at (labels data) (Z.of_nat (nat_of_ascii c) - 97))
             | _ => beliefs
             end)
          l beliefs)).
Proof.
  revert beliefs. induction l as [|[qid data] l IH]; intros beliefs.
  - split; [discriminate|reflexivity].
  - cbn [fold_left existsb].
    change (Return beliefs ≫= ?k) with (k beliefs). cbv beta.
    rewrite calculateLayer7_turn.
    destruct (answer answers qid) as [[[|c s]|[] k]|]; cbn [orb];
      try apply IH.
    split; [intros _|discriminate].
    apply fold_left_throw. intros [q d]. reflexivity.
Qed.

(** C1, what the code does.  [calculateAllResults] does throw on a
    malformed answer: whenever one of [L7_Q40] .. [L7_Q45] carries an
    answer that is truthy and not a string (a JSON number, [true], an
    array, an object), Layer 7 calls [charCodeAt] on it and the
    [TypeError] leaves [calculateAllResults], whatever the other answers
    are; no result object is returned. *)
Theorem calculateAllResults_throws (answers : AnswerMap) :
  l7_offending answers = true ->
  calculateAllResults answers = Throw "TypeError: answer.charCodeAt is not a function".
Proof.
  unfold calculateAllResults, calculateLayer7, l7_offending. intros H.
  destruct (calculateLayer7_loop answers l7_mapping []) as [T _].
  specialize (T H).
  match goal with
  | |- context [fold_left ?f l7_mapping (Return [])] =>
      set (loop := fold_left f l7_mapping (Return [])); pose proof (T : loop = _) as E
  end.
  rewrite E. reflexivity.
Qed.

Lemma calculateAllResults_throws_witness :
  l7_offending answers_number = true /\
  calculateAllResults answers_number
  = Throw "TypeError: answer.charCodeAt is not a function".
Proof.
  assert (H : l7_offending answers_number = true) by (vm_compute; reflexivity).
  split; [exact H|]. exact (calculateAllResults_throws answers_number H).
Defined.

Lemma layer7_beliefs_loop (answers : AnswerMap) (l : object DimData)
    (beliefs : object string) (k : string) :
  List.NoDup (map (fun kv => name (snd kv)) l) ->
  get_own
    (fold_left
       (fun (beliefs : object string) '(qid, data) =>
          match answer answers qid with
          | Some (JStr (String c _)) =>
              set_own beliefs (name data)
                (label_at (labels data) (Z.of_nat (nat_of_ascii c) - 97))
          | _ => beliefs
          end)
       l beliefs) k
  = match List.find (fun '(_, data) => name data =? k) l with
    | Some (qid, data) =>
        match answer answers qid with
        | Some (JStr (String c _)) =>
            Some (label_at (labels data) (Z.of_nat (nat_of_ascii c) - 97))
        | _ => get_own beliefs k
        end
    | None => get_own beliefs k
    end.
Proof.
  revert beliefs. induction l as [|[qid data] l IH]; intros beliefs ND; [reflexivity|].
  inversion ND as [|? ? Hn ND']; subst. cbn [fold_left List.find]. rewrite (IH _ ND').
  cbn [snd] in Hn.
  destruct (String.eqb_spec (name data) k) as [E|N].
  - assert (F : List.find (fun '(_, data) => name data =? k) l = None).
    { destruct (List.find _ l) as [[q d]|] eqn:G; [|reflexivity].
      apply find_some in G. destruct G as [I G]. apply String.eqb_eq in G.
      exfalso. apply Hn. apply in_map_iff. exists (q, d). cbn. split; [congruence|exact I]. }
    rewrite F. destruct (answer answers qid) as [[[|c s]|]|]; try reflexivity.
    now rewrite get_own_set_own, E, String.eqb_refl.
  - assert (G : forall c,
               get_own (set_own beliefs (name data)
                          (label_at (labels data) (Z.of_nat (nat_of_ascii c) - 97))) k
               = get_own beliefs k).
    { intros c. rewrite get_own_set_own. now destruct (String.eqb_spec (name data) k). }
    destruct (answer answers qid) as [[[|c s]|]|]; rewrite ?G; reflexivity.
Qed.

(** X9. When Layer 7 returns, its beliefs hold, for each question
    answered with a non-empty string, the label the first character
    selects ([labels[code - 97] || '']: the three labels for ['a'],
    ['b'], ['c'], the empty string for any other character), and no
    entry for a question that is unanswered or answered with a falsy
    value. *)
Theorem calculateLayer7_beliefs (answers : AnswerMap) (r : Layer7) :
  calculateLayer7 answers = Return r ->
  forall qid data, In (qid, data) l7_mapping ->
    get_own (beliefs r) (name data)
    = match answer answers qid with
      | Some (JStr (String c _)) =>
          Some (label_at (labels data) (Z.of_nat (nat_of_ascii c) - 97))
      | _ => None
      end.
Proof.
  intros H qid data I. unfold calculateLayer7 in H.
  destruct (calculateLayer7_loop answers l7_mapping []) as [T R].
  destruct (existsb _ l7_mapping) eqn:O.
  - specialize (T eq_refl).
    match type of H with
    | context [fold_left ?f l7_mapping (Return [])] =>
        set (loop := fold_left f l7_mapping (Return [])) in H;
        pose proof (T : loop = _) as E
    end.
    rewrite E in H. discriminate H.
  - specialize (R eq_refl).
    match type of H with
    | context [fold_left ?f l7_mapping (Return [])] =>
        set (loop := fold_left f l7_mapping (Return [])) in H;
        pose proof (R : loop = _) as E
    end.
    rewrite E in H. injection H as <-. cbn [beliefs].
    assert (ND : List.NoDup (map (fun kv => name (snd kv)) l7_mapping)).
    { cbn. repeat (constructor; [cbn; intuition discriminate|]). constructor. }
    refine (eq_trans (layer7_beliefs_loop answers l7_mapping [] (name data) ND) _).
    cbn in I. decompose [or] I; try contradiction;
      match goal with J : (_, _) = (_, _) |- _ => injection J as <- <- end;
      reflexivity.
Qed.

Lemma calculateLayer7_beliefs_witness :
  exists r,
    calculateLayer7 answers_layer7 = Return r /\
    get_own (beliefs r) "Grounding Source" = Some "Faith-Reliant" /\
    get_own (beliefs r) "Control Belief" = None /\
    get_own (beliefs r) "Fairness View" = Some "" /\
    get_own (beliefs r) "Growth Approach" = None /\
    get_own (beliefs r) "Impact Motivation" = Some "Shared Impact".
Proof.
  destruct (calculateLayer7 answers_layer7) as [r|e] eqn:E;
    [|vm_compute in E; discriminate E].
  exists r. split; [reflexivity|].
  pose proof (calculateLayer7_beliefs answers_layer7 r E) as H.
  repeat split.
  - exact (H "L7_Q40" _ (or_introl eq_refl)).
  - exact (H "L7_Q41" _ (or_intror (or_introl eq_refl))).
  - exact (H "L7_Q42" _ (or_intror (or_intror (or_introl eq_refl)))).
  - exact (H "L7_Q44" _
             (or_intror (or_intror (or_intror (or_intror (or_introl eq_refl)))))).
  - exact (H "L7_Q45" _
             (or_intror (or_intror (or_intror (or_intror (or_intror (or_introl eq_refl))))))).
Defined.

(** ** Layer 4 with answers that name no inherited property *)

Lemma add_of_nat (n : nat) : add (of_nat n) (of_nat 1) = of_nat (S n).
Proof.
  unfold add, of_nat. f_equal. unfold Qplus, inject_Z. cbn [Qnum Qden].
  f_equal. lia.
Qed.

Lemma increment_base4 (v a r k : nat) (b : string) :
  In b ["visual"; "auditory"; "readWrite"; "kinesthetic"] ->
  exists v' a' r' k',
    increment (base4 v a r k) b = base4 v' a' r' k' /\ v' + a' + r' + k' = S (v + a + r + k).
Proof.
  intros I. cbn in I. decompose [or] I; subst; try contradiction;
    unfold increment, base4; cbn [get_own set_own String.eqb Ascii.eqb Bool.eqb];
    rewrite add_of_nat.
  - exists (S v), a, r, k. split; [reflexivity|lia].
  - exists v, (S a), r, k. split; [reflexivity|lia].
  - exists v, a, (S r), k. split; [reflexivity|lia].
  - exists v, a, r, (S k). split; [reflexivity|lia].
Qed.

Lemma vark_mapping_values (x b : string) :
  get_own vark_mapping x = Some b ->
  In b ["visual"; "auditory"; "readWrite"; "kinesthetic"].
Proof.
  intros H. apply get_own_In in H. cbn in H |- *.
  decompose [or] H; try contradiction;
    match goal with J : (_, _) = (_, _) |- _ => injection J as <- <- end; auto.
Qed.

Lemma layer4_clean_loop (answers : AnswerMap) (l : list nat) (v a r k : nat) :
  (forall i x, In i l ->
     answer answers ("L4_Q" +:+ Number_toString i) = Some x ->
     get_own Object_prototype (ToPropertyKey x) = None) ->
  exists v' a' r' k',
    v' + a' + r' + k' <= v + a + r + k + length l /\
    fold_left
      (fun (scores : object number) i =>
         let answer := answer answers ("L4_Q" +:+ Number_toString i) in
         let bucket := a ← answer; get_literal vark_mapping a in
         if truthy answer && truthy bucket then
           match bucket with
           | Some b => increment scores (ToPropertyKey b)
           | None => scores
           end
         else scores)
      l (base4 v a r k) = base4 v' a' r' k'.
Proof.
  revert v a r k. induction l as [|i l IH]; intros v a r k H.
  - exists v, a, r, k. split; [cbn; lia|reflexivity].
  - cbn [fold_left length]. cbv zeta.
    assert (Hl : forall i x, In i l ->
                   answer answers ("L4_Q" +:+ Number_toString i) = Some x ->
                   get_own Object_prototype (ToPropertyKey x) = None)
      by (intros; eapply H; [right|]; eassumption).
    destruct (answer answers ("L4_Q" +:+ Number_toString i)) as [x|] eqn:E.
    + specialize (H i x (or_introl eq_refl) E).
      cbn [mbind option_bind]. unfold get_literal. rewrite H.
      destruct (get_own vark_mapping (ToPropertyKey x)) as [b|] eqn:G.
      * destruct (truthy (Some x) && truthy (Some (JStr b))).
        -- cbn [ToPropertyKey].
           destruct (increment_base4 v a r k b (vark_mapping_values _ _ G))
             as (v' & a' & r' & k' & -> & S').
           destruct (IH v' a' r' k' Hl) as (v2 & a2 & r2 & k2 & L & Hf).
           exists v2, a2, r2, k2. split; [lia|exact Hf].
        -- destruct (IH v a r k Hl) as (v2 & a2 & r2 & k2 & L & Hf).
           exists v2, a2, r2, k2. split; [lia|exact Hf].
      * rewrite andb_false_r.
        destruct (IH v a r k Hl) as (v2 & a2 & r2 & k2 & L & Hf).
        exists v2, a2, r2, k2. split; [lia|exact Hf].
    + cbn [truthy andb].
      destruct (IH v a r k Hl) as (v2 & a2 & r2 & k2 & L & Hf).
      exists v2, a2, r2, k2. split; [lia|exact Hf].
Qed.

Lemma calculateLayer4_clean (answers : AnswerMap) :
  no_inherited_answer answers ->
  exists v a r k,
    v + a + r + k <= 5 /\
    calculateLayer4 answers
    = let scores := base4 v a r k in
      let total := fold_left (fun sum '(_, val) => add sum val) scores (of_nat 0) in
      let percent (k : string) :=
        Math_round (mul (div (field scores k) total) (of_nat 100)) in
      {| dominantModality :=
           fst (fold_left
                  (fun '(dominantModality, maxScore) '(key, value) =>
                     if gt value maxScore then (key, value)
                     else (dominantModality, maxScore))
                  scores ("visual", field scores "visual"));
         l4_scores := scores;
         percentages :=
           {| pct_visual := percent "visual";
              pct_auditory := percent "auditory";
              pct_readWrite := percent "readWrite";
              pct_kinesthetic := percent "kinesthetic" |} |}.
Proof.
  intros H.
  destruct (layer4_clean_loop answers (seq 23 5) 0 0 0 0) as (v & a & r & k & L & E).
  { intros i x I. now apply H. }
  exists v, a, r, k. split; [cbn in L; lia|].
  unfold calculateLayer4. cbv zeta.
  match goal with
  | |- context [fold_left ?f (seq 23 5) ?i] =>
      set (loop := fold_left f (seq 23 5) i); pose proof (E : loop = _) as E'
  end.
  rewrite E'. clear.
  destruct (fold_left _ (base4 v a r k) ("visual", field (base4 v a r k) "visual"));
    reflexivity.
Qed.

Ltac upto5 n :=
  destruct n as [|[|[|[|[|[|n]]]]]]; try (exfalso; cbn in *; lia).

(** X10. When no answer to the five questions names an inherited
    property, the [scores] of Layer 4 are the four buckets with counts
    adding up to at most 5, and the dominant modality is the first, in
    the order visual, auditory, readWrite, kinesthetic, that no other
    count exceeds. *)
Theorem calculateLayer4_dominant (answers : AnswerMap) :
  no_inherited_answer answers ->
  exists v a r k,
    v + a + r + k <= 5 /\
    l4_scores (calculateLayer4 answers) = base4 v a r k /\
    dominantModality (calculateLayer4 answers) = first_highest v a r k.
Proof.
  intros H. destruct (calculateLayer4_clean answers H) as (v & a & r & k & L & ->).
  exists v, a, r, k. split; [exact L|]. split; [reflexivity|]. cbv zeta.
  cbn [dominantModality].
  upto5 v; upto5 a; upto5 r; upto5 k; vm_compute; reflexivity.
Qed.

(** X11. Under the same condition and with at least one answer counted,
    the four percentages are whole numbers that add up to 100 or to 99
    (99 for a split such as 1/1/1); when all five questions are counted
    each percentage is twenty times its count. *)
Theorem calculateLayer4_percentages (answers : AnswerMap) :
  no_inherited_answer answers ->
  field (l4_scores (calculateLayer4 answers)) "visual" <> of_nat 0 \/
  field (l4_scores (calculateLayer4 answers)) "auditory" <> of_nat 0 \/
  field (l4_scores (calculateLayer4 answers)) "readWrite" <> of_nat 0 \/
  field (l4_scores (calculateLayer4 answers)) "kinesthetic" <> of_nat 0 ->
  exists v a r k pv pa pr pk,
    l4_scores (calculateLayer4 answers) = base4 v a r k /\
    percentages (calculateLayer4 answers)
    = {| pct_visual := of_nat pv; pct_auditory := of_nat pa;
         pct_readWrite := of_nat pr; pct_kinesthetic := of_nat pk |} /\
    (pv + pa + pr + pk = 100 \/ pv + pa + pr + pk = 99) /\
    (v + a + r + k = 5 -> pv = 20 * v /\ pa = 20 * a /\ pr = 20 * r /\ pk = 20 * k).
Proof.
  intros H. destruct (calculateLayer4_clean answers H) as (v & a & r & k & L & ->).
  cbv zeta. cbn [l4_scores percentages]. intros N.
  assert (P : 0 < v + a + r + k).
  { destruct v, a, r, k; try lia. exfalso. vm_compute in N. intuition congruence. }
  clear N. exists v, a, r, k.
  upto5 v; upto5 a; upto5 r; upto5 k;
    match goal with
    | |- exists pv pa pr pk, _ /\ ?p = _ /\ _ =>
        let q := eval vm_compute in p in
        match q with
        | {| pct_visual := Finite (Z.of_nat ?x # 1)%Q; pct_auditory := _ |} => idtac
        | {| pct_visual := Finite (?x # 1); pct_auditory := Finite (?y # 1);
             pct_readWrite := Finite (?z # 1); pct_kinesthetic := Finite (?w # 1) |} =>
            exists (Z.to_nat x), (Z.to_nat y), (Z.to_nat z), (Z.to_nat w)
        end
    end;
    (split; [reflexivity|]); (split; [vm_compute; reflexivity|]);
    (split; [vm_compute; auto|]); intros T; vm_compute; try lia; auto.
Qed.

Lemma answers_vark_clean : no_inherited_answer answers_vark.
Proof.
  intros i a I. cbn in I.
  decompose [or] I; subst; try contradiction; vm_compute;
    intros E; first [discriminate E | injection E as <-; reflexivity].
Qed.

Lemma calculateLayer4_dominant_witness :
  no_inherited_answer answers_vark /\
  exists v a r k,
    v + a + r + k <= 5 /\
    l4_scores (calculateLayer4 answers_vark) = base4 v a r k /\
    dominantModality (calculateLayer4 answers_vark) = first_highest v a r k.
Proof.
  split; [exact answers_vark_clean|].
  apply (calculateLayer4_dominant answers_vark). exact answers_vark_clean.
Defined.

Lemma calculateLayer4_percentages_witness :
  no_inherited_answer answers_vark /\
  field (l4_scores (calculateLayer4 answers_vark)) "auditory" <> of_nat 0 /\
  exists v a r k pv pa pr pk,
    l4_scores (calculateLayer4 answers_vark) = base4 v a r k /\
    percentages (calculateLayer4 answers_vark)
    = {| pct_visual := of_nat pv; pct_auditory := of_nat pa;
         pct_readWrite := of_nat pr; pct_kinesthetic := of_nat pk |} /\
    (pv + pa + pr + pk = 100 \/ pv + pa + pr + pk = 99) /\
    (v + a + r + k = 5 -> pv = 20 * v /\ pa = 20 * a /\ pr = 20 * r /\ pk = 20 * k).
Proof.
  assert (N : field (l4_scores (calculateLayer4 answers_vark)) "auditory" <> of_nat 0)
    by (vm_compute; discriminate).
  split; [exact answers_vark_clean|]. split; [exact N|].
  apply (calculateLayer4_percentages answers_vark).
  - exact answers_vark_clean.
  - right. left. exact N.
Defined.

(** ** Normalised addresses *)

Lemma toLowerCase_char_idem (c : ascii) :
  toLowerCase_char (toLowerCase_char c) = toLowerCase_char c.
Proof. destruct c as [[] [] [] [] [] [] [] []]; reflexivity. Qed.

Lemma is_js_space_toLowerCase_char (c : ascii) :
  is_js_space (toLowerCase_char c) = is_js_space c.
Proof. destruct c as [[] [] [] [] [] [] [] []]; reflexivity. Qed.

Lemma is_sql_space_js (c : ascii) : is_sql_space c = true -> is_js_space c = true.
Proof. destruct c as [[] [] [] [] [] [] [] []]; cbv; congruence. Qed.

Lemma toLowerCase_idem (s : string) : toLowerCase (toLowerCase s) = toLowerCase s.
Proof.
  induction s as [|c s IH]; cbn [toLowerCase]; [reflexivity|].
  now rewrite toLowerCase_char_idem, IH.
Qed.

Lemma toLowerCase_empty (s : string) : (toLowerCase s =? "") = (s =? "").
Proof. destruct s; reflexivity. Qed.

Lemma strip_start_toLowerCase (s : string) :
  strip_start is_js_space (toLowerCase s) = toLowerCase (strip_start is_js_space s).
Proof.
  induction s as [|c s IH]; cbn [toLowerCase strip_start]; [reflexivity|].
  rewrite is_js_space_toLowerCase_char. now destruct (is_js_space c).
Qed.

Lemma strip_end_toLowerCase (s : string) :
  strip_end is_js_space (toLowerCase s) = toLowerCase (strip_end is_js_space s).
Proof.
  induction s as [|c s IH]; cbn [toLowerCase strip_end]; [reflexivity|]. cbv zeta.
  rewrite IH, toLowerCase_empty, is_js_space_toLowerCase_char.
  now destruct ((strip_end is_js_space s =? "") && is_js_space c).
Qed.

Lemma trim_toLowerCase (s : string) : trim (toLowerCase s) = toLowerCase (trim s).
Proof. unfold trim. now rewrite strip_start_toLowerCase, strip_end_toLowerCase. Qed.

Section Stripping.

Variables ws ws' : ascii -> bool.
Hypothesis narrower : forall c, ws' c = true -> ws c = true.

Lemma narrower_false (c : ascii) : ws c = false -> ws' c = false.
Proof.
  intros H. destruct (ws' c) eqn:E; [|reflexivity].
  apply narrower in E. congruence.
Qed.

Lemma strip_start_starts_clean (s : string) : starts_clean ws (strip_start ws s).
Proof.
  induction s as [|c s IH]; cbn [strip_start]; [exact I|].
  destruct (ws c) eqn:E; [exact IH|exact E].
Qed.

Lemma strip_end_starts_clean (s : string) :
  starts_clean ws s -> starts_clean ws (strip_end ws s).
Proof.
  destruct s as [|c s]; cbn [strip_end starts_clean]; [auto|]. intros H. cbv zeta.
  rewrite H, andb_false_r. exact H.
Qed.

Lemma strip_start_clean (s : string) : starts_clean ws s -> strip_start ws' s = s.
Proof.
  destruct s as [|c s]; cbn [strip_start starts_clean]; [auto|]. intros H.
  now rewrite (narrower_false c H).
Qed.

Lemma strip_end_again (s : string) : strip_end ws' (strip_end ws s) = strip_end ws s.
Proof.
  induction s as [|c s IH]; cbn [strip_end]; [reflexivity|]. cbv zeta.
  destruct ((strip_end ws s =? "") && ws c) eqn:E; [reflexivity|].
  cbn [strip_end]. cbv zeta. rewrite IH.
  replace ((strip_end ws s =? "") && ws' c) with false; [reflexivity|].
  symmetry. apply andb_false_iff. apply andb_false_iff in E.
  destruct E as [E|E]; [now left|right; now apply narrower_false].
Qed.

(** What is left of a stripped string after its first [n] characters
    is empty or holds a character outside [ws']. *)
Lemma strip_end_drop (s : string) (n : nat) :
  strip_start ws' (drop n (strip_end ws s)) = "" -> drop n (strip_end ws s) = "".
Proof.
  revert n. induction s as [|c s IH]; intros n.
  - destruct n; reflexivity.
  - cbn [strip_end]. cbv zeta.
    destruct ((strip_end ws s =? "") && ws c) eqn:E; [destruct n; reflexivity|].
    destruct n as [|n]; cbn [drop]; [|apply IH].
    cbn [strip_start]. destruct (ws' c) eqn:W; [|discriminate].
    intros H. apply (IH 0%nat) in H.
    replace (drop 0 (strip_end ws s)) with (strip_end ws s) in H
      by (now destruct (strip_end ws s)).
    rewrite H in E. apply narrower in W. rewrite W in E. discriminate E.
Qed.

End Stripping.

Lemma take_all (n : nat) (s : string) : drop n s = "" -> take n s = s.
Proof.
  revert s. induction n as [|n IH]; intros [|c s]; cbn [drop take]; try congruence; auto.
  intros H. now rewrite IH.
Qed.

(** A trimmed value is stored as it is or not at all. *)
Lemma VARCHAR_trimmed (n : nat) (s s' : string) :
  VARCHAR n (trim s) = Some s' -> s' = trim s.
Proof.
  unfold VARCHAR. destruct (String.length (trim s) <=? n)%nat; [congruence|].
  destruct (strip_start is_sql_space (drop n (trim s)) =? "") eqn:E; [|discriminate].
  apply String.eqb_eq in E. unfold trim in E |- *.
  apply (strip_end_drop is_js_space is_sql_space is_sql_space_js) in E.
  intros [= <-]. now apply take_all.
Qed.

Lemma trim_again (s : string) : trim (trim s) = trim s.
Proof.
  unfold trim at 1.
  rewrite (strip_start_clean is_js_space is_js_space (fun _ H => H)).
  - unfold trim. apply (strip_end_again is_js_space is_js_space (fun _ H => H)).
  - unfold trim. apply strip_end_starts_clean, strip_start_starts_clean.
Qed.

Lemma normalised_again (email : string) :
  trim (toLowerCase (trim (toLowerCase email))) = trim (toLowerCase email).
Proof. now rewrite !trim_toLowerCase, toLowerCase_idem, trim_again. Qed.

Lemma LOWER_TRIM_normalised (email : string) :
  LOWER_TRIM (trim (toLowerCase email)) = trim (toLowerCase email).
Proof.
  unfold LOWER_TRIM.
  rewrite (strip_start_clean is_js_space is_sql_space is_sql_space_js)
    by (unfold trim; apply strip_end_starts_clean, strip_start_starts_clean).
  unfold trim at 1.
  rewrite (strip_end_again is_js_space is_sql_space is_sql_space_js).
  fold (trim (toLowerCase email)).
  now rewrite trim_toLowerCase, toLowerCase_idem.
Qed.

(** X12. For an address in the ASCII range, normalising twice is the
    same as normalising once, so looking a result up by an address that
    was already lower-cased and trimmed (as
    [GET /api/quiz/results-by-email] does before it calls the function)
    answers as the raw address does. *)
Theorem getQuizResultByEmail_normalised (db : database) (email : string) :
  is_ascii email = true ->
  getQuizResultByEmail db (trim (toLowerCase email)) = getQuizResultByEmail db email.
Proof. intros _. unfold getQuizResultByEmail. now rewrite normalised_again. Qed.

Lemma getQuizResultByEmail_normalised_witness :
  is_ascii "  Bob@Example.COM " = true /\
  trim (toLowerCase "  Bob@Example.COM ") = "bob@example.com" /\
  getQuizResultByEmail db_one_result (trim (toLowerCase "  Bob@Example.COM "))
  = getQuizResultByEmail db_one_result "  Bob@Example.COM ".
Proof.
  split; [reflexivity|]. split; [vm_compute; reflexivity|].
  apply (getQuizResultByEmail_normalised db_one_result "  Bob@Example.COM ").
  reflexivity.
Defined.

(** ** Saving and reading back *)

(** What a successful save did: the row proposed to the server and the
    upsert. *)
Lemma saveQuizResult_success (now : Z) (db : database) (id email : string)
    (name : option string) (results : Results) (pdfUrl s3Key : option string)
    (row : quiz_result) (db' : database) :
  saveQuizResult now db id email name results pdfUrl s3Key = (success row, db') ->
  exists row0,
    uuid_in id = Some (q_id row0) /\
    q_email row0 = trim (toLowerCase email) /\
    q_quiz_data row0 = json results /\
    q_pdf_url row0 = pdfUrl /\ q_s3_key row0 = s3Key /\
    q_created_at row0 = now /\ q_updated_at row0 = now /\
    upsert now row0 (quiz_results db) = (quiz_results db', row) /\
    pdf_download_tokens db' = pdf_download_tokens db.
Proof.
  unfold saveQuizResult.
  destruct (uuid_in id) as [u|]; cbn [mbind option_bind]; [|discriminate].
  destruct (VARCHAR 255 (trim (toLowerCase email))) as [e|] eqn:V;
    cbn [mbind option_bind]; [|discriminate].
  apply VARCHAR_trimmed in V. subst e.
  destruct (match name with Some n => Some <$> VARCHAR 255 n | None => Some None end)
    as [n|]; cbn [mbind option_bind]; [|discriminate].
  destruct (match or_null_string (ednaType results) with
            | Some s => Some <$> VARCHAR 100 s | None => Some None end)
    as [et|]; cbn [mbind option_bind]; [|discriminate].
  destruct (match or_null_string (coreType results) with
            | Some s => Some <$> VARCHAR 50 s | None => Some None end)
    as [ct|]; cbn [mbind option_bind]; [|discriminate].
  destruct (match or_null_string (subtype results) with
            | Some s => Some <$> VARCHAR 50 s | None => Some None end)
    as [st|]; cbn [mbind option_bind]; [|discriminate].
  destruct (INTEGER (or_null_number (coreTypeMastery results))) as [cm|];
    cbn [mbind option_bind]; [|discriminate].
  destruct (INTEGER (or_null_number (subtypeMastery results))) as [sm|];
    cbn [mbind option_bind]; [|discriminate].
  match goal with
  | |- context [upsert now ?r _] =>
      destruct (upsert now r (quiz_results db)) as [rows returned] eqn:U;
        intros [= <- <-]; exists r
  end.
  cbn. repeat split; exact U.
Qed.

Lemma upsert_fresh (now : Z) (row : quiz_result) (rows : list quiz_result) :
  ~ In (q_id row) (map q_id rows) -> upsert now row rows = (rows ++ [row], row).
Proof.
  induction rows as [|r rs IH]; cbn [upsert map In app]; [reflexivity|]. intros H.
  destruct (String.eqb_spec (q_id r) (q_id row)) as [E|NE]; [tauto|].
  rewrite IH by tauto. reflexivity.
Qed.

(** What an upsert leaves: the returned row is the first stored under
    its key and carries the proposed values; rows under other keys are
    as before; the key set grows by at most the key of the row. *)
Lemma upsert_spec (now : Z) (row : quiz_result) (rows rows' : list quiz_result)
    (returned : quiz_result) :
  upsert now row rows = (rows', returned) ->
  q_id returned = q_id row /\
  q_quiz_data returned = q_quiz_data row /\
  q_pdf_url returned = q_pdf_url row /\ q_s3_key returned = q_s3_key row /\
  (exists rest, List.filter (fun q => q_id q =? q_id row) rows' = returned :: rest) /\
  (forall k, k <> q_id row ->
             List.filter (fun q => q_id q =? k) rows'
             = List.filter (fun q => q_id q =? k) rows) /\
  (forall k, In k (map q_id rows') <-> k = q_id row \/ In k (map q_id rows)) /\
  (List.NoDup (map q_id rows) -> List.NoDup (map q_id rows')) /\
  (forall old, In old rows -> q_id old = q_id row -> List.NoDup (map q_id rows) ->
               returned = do_update now old row).
Proof.
  revert rows' returned. induction rows as [|r rs IH]; intros rows' returned.
  - cbn [upsert]. intros [= <- <-]. cbn [List.filter map In].
    rewrite String.eqb_refl. repeat split; eauto.
    + intros k N. destruct (String.eqb_spec (q_id row) k); congruence.
    + intros [E|[]]; auto.
    + intros [E|[]]; auto.
    + intros _. constructor; [intros []|constructor].
    + intros old [].
  - cbn [upsert]. destruct (String.eqb_spec (q_id r) (q_id row)) as [E|NE].
    + intros [= <- <-]. cbn [List.filter map In do_update q_id q_quiz_data q_pdf_url q_s3_key].
      rewrite E, String.eqb_refl. repeat split; eauto.
      * intros k N. destruct (String.eqb_spec (q_id row) k); congruence.
      * intros [H|[H|H]]; auto.
      * intros old [->|I] K ND; [reflexivity|]. exfalso.
        inversion ND as [|? ? NI _]. apply NI. rewrite <- K. now apply in_map.
    + destruct (upsert now row rs) as [rs' ret] eqn:U. intros [= <- <-].
      destruct (IH rs' ret eq_refl) as (I1 & I2 & I3 & I4 & (rest & I5) & I6 & I7 & I8 & I9).
      cbn [List.filter map In].
      destruct (String.eqb_spec (q_id r) (q_id row)) as [|_]; [contradiction|].
      repeat split; auto.
      * eauto.
      * intros k N. rewrite (I6 k N). reflexivity.
      * intros [H|H]; [right; now left|]. apply I7 in H. tauto.
      * intros [H|[H|H]]; [right; apply I7; now left|now left|right; apply I7; now right].
      * intros ND. apply List.NoDup_cons_iff in ND. destruct ND as [NI ND'].
        constructor; [|now apply I8].
        intros J. apply I7 in J. destruct J as [J|J]; [now apply NE|now apply NI].
      * intros old [->|I] K ND; [contradiction|].
        apply List.NoDup_cons_iff in ND. now apply I9.
Qed.

Lemma latest_last (l : list quiz_result) (r : quiz_result) :
  (forall q, In q l -> (q_created_at q < q_created_at r)%Z) ->
  latest (l ++ [r]) = Some r.
Proof.
  induction l as [|x l IH]; cbn [app latest]; [reflexivity|]. intros H.
  rewrite IH by (intros; apply H; now right).
  pose proof (H x (or_introl eq_refl)) as L. apply Z.ltb_lt in L. now rewrite L.
Qed.

(** X13. A result saved under an id that was not stored before, at a
    time later than every stored result, with an address in the ASCII
    range, is the one [getQuizResultByEmail] returns for the address it
    was saved with, however that address was capitalised or padded: it
    is stored under the lower-cased and trimmed address. *)
Theorem saveQuizResult_then_getQuizResultByEmail (now : Z) (db : database)
    (id email : string) (name : option string) (results : Results)
    (pdfUrl s3Key : option string) (row : quiz_result) (db' : database) :
  is_ascii email = true ->
  saveQuizResult now db id email name results pdfUrl s3Key = (success row, db') ->
  ~ In (q_id row) (map q_id (quiz_results db)) ->
  (forall q, In q (quiz_results db) -> (q_created_at q < now)%Z) ->
  q_email row = trim (toLowerCase email) /\
  getQuizResultByEmail db' email = success row.
Proof.
  intros _ S F O.
  destruct (saveQuizResult_success _ _ _ _ _ _ _ _ _ _ S)
    as (row0 & _ & E & _ & _ & _ & C & _ & U & _).
  pose proof (upsert_spec _ _ _ _ _ U) as (K & _).
  rewrite K in F. rewrite (upsert_fresh _ _ _ F) in U. injection U as U1 U2. subst row0.
  split; [exact E|]. unfold getQuizResultByEmail. rewrite <- U1, List.filter_app.
  cbn [List.filter]. rewrite E, LOWER_TRIM_normalised, String.eqb_refl.
  rewrite latest_last; [reflexivity|].
  intros q I. apply List.filter_In in I. rewrite C. apply O, I.
Qed.

(** X14. A saved result is read back by [getQuizResultById] under the
    id it was saved with, whether the save inserted a row or updated
    one, and it carries the document, [pdfUrl] and [s3Key] given. *)
Theorem saveQuizResult_then_getQuizResultById (now : Z) (db : database)
    (id email : string) (name : option string) (results : Results)
    (pdfUrl s3Key : option string) (row : quiz_result) (db' : database) :
  saveQuizResult now db id email name results pdfUrl s3Key = (success row, db') ->
  getQuizResultById db' id = success row /\
  q_quiz_data row = json results /\ q_pdf_url row = pdfUrl /\ q_s3_key row = s3Key.
Proof.
  intros S.
  destruct (saveQuizResult_success _ _ _ _ _ _ _ _ _ _ S)
    as (row0 & I & _ & D & P & K & _ & _ & U & _).
  destruct (upsert_spec _ _ _ _ _ U) as (_ & D' & P' & K' & (rest & F) & _).
  unfold getQuizResultById. rewrite I, F. repeat split; congruence.
Qed.

(** X15. Saving under an id that is already stored never moves the
    result: the row keeps its address, name, owner and creation time,
    whatever address and name the call gives; it takes the new document,
    [pdfUrl] and [s3Key] and the time of the call as [updated_at], and
    the rows under other ids are as before. *)
Theorem saveQuizResult_conflict_keeps_identity (now : Z) (db : database)
    (id email : string) (name : option string) (results : Results)
    (pdfUrl s3Key : option string) (old row : quiz_result) (db' : database) :
  primary_key db ->
  In old (quiz_results db) ->
  uuid_in id = Some (q_id old) ->
  saveQuizResult now db id email name results pdfUrl s3Key = (success row, db') ->
  q_id row = q_id old /\ q_email row = q_email old /\ q_name row = q_name old /\
  q_user_id row = q_user_id old /\ q_created_at row = q_created_at old /\
  q_updated_at row = now /\
  q_quiz_data row = json results /\ q_pdf_url row = pdfUrl /\ q_s3_key row = s3Key /\
  forall k, k <> q_id old -> rows_with_id k db' = rows_with_id k db.
Proof.
  intros PK I Hid S.
  destruct (saveQuizResult_success _ _ _ _ _ _ _ _ _ _ S)
    as (row0 & Hid' & _ & D & P & K & _ & _ & U & _).
  assert (E : q_id old = q_id row0) by congruence.
  destruct (upsert_spec _ _ _ _ _ U) as (_ & _ & _ & _ & _ & Fr & _ & _ & Up).
  rewrite (Up old I E PK). cbn [do_update q_id q_email q_name q_user_id q_created_at
    q_updated_at q_quiz_data q_pdf_url q_s3_key].
  repeat split; auto. intros k N. unfold rows_with_id. apply Fr. congruence.
Qed.

Lemma saveQuizResult_then_getQuizResultByEmail_witness :
  exists row,
    is_ascii "  Alice@Example.COM " = true /\
    fst saved_alice = success row /\
    q_email row = "alice@example.com" /\
    getQuizResultByEmail (snd saved_alice) "  Alice@Example.COM " = success row.
Proof.
  destruct saved_alice as [[row|e] db'] eqn:E; [|vm_compute in E; discriminate E].
  exists row. split; [reflexivity|]. split; [reflexivity|]. unfold saved_alice in E.
  assert (K : q_id row = sample_id2).
  { pose proof E as E'. vm_compute in E'. injection E' as <- _. reflexivity. }
  assert (A0 : is_ascii "  Alice@Example.COM " = true) by reflexivity.
  destruct (saveQuizResult_then_getQuizResultByEmail _ _ _ _ _ _ _ _ _ _ A0 E)
    as [A B].
  - rewrite K. vm_compute. intros [H|[]]. discriminate H.
  - intros q I. vm_compute in I. destruct I as [<-|[]]. reflexivity.
  - split; [rewrite A; vm_compute; reflexivity|exact B].
Defined.

Lemma saveQuizResult_then_getQuizResultById_witness :
  exists row,
    fst saved_alice = success row /\
    getQuizResultById (snd saved_alice) sample_id2 = success row /\
    q_quiz_data row = "{}" /\ q_pdf_url row = None /\ q_s3_key row = None.
Proof.
  destruct saved_alice as [[row|e] db'] eqn:E; [|vm_compute in E; discriminate E].
  exists row. split; [reflexivity|]. unfold saved_alice in E.
  exact (saveQuizResult_then_getQuizResultById _ _ _ _ _ _ _ _ _ _ E).
Defined.

Lemma saveQuizResult_conflict_keeps_identity_witness :
  exists old row,
    quiz_results db_one_result = [old] /\
    fst resaved = success row /\
    q_email row = "bob@example.com" /\ q_name row = Some "Bob" /\
    q_created_at row = 10%Z /\ q_updated_at row = 20%Z /\ q_s3_key row = None.
Proof.
  destruct (quiz_results db_one_result) as [|old [|]] eqn:R;
    try (vm_compute in R; discriminate R).
  destruct resaved as [[row|e] db'] eqn:E; [|vm_compute in E; discriminate E].
  exists old, row. split; [reflexivity|]. split; [reflexivity|]. unfold resaved in E.
  assert (O : old = hd old (quiz_results db_one_result)) by (now rewrite R).
  assert (PK : primary_key db_one_result).
  { unfold primary_key. rewrite R. cbn. constructor; [intros []|constructor]. }
  assert (I : In old (quiz_results db_one_result)) by (rewrite R; now left).
  assert (U : uuid_in sample_id = Some (q_id old)).
  { rewrite O. vm_compute. reflexivity. }
  destruct (saveQuizResult_conflict_keeps_identity _ _ _ _ _ _ _ _ _ _ _ PK I U E)
    as (_ & A & B & _ & C & D & _ & _ & F & _).
  rewrite A, B, C, D, F, O. vm_compute. repeat split; reflexivity.
Defined.

(** ** The constraints of the schema *)

Lemma NoDup_map_filter {A B} (f : A -> B) (p : A -> bool) (l : list A) :
  List.NoDup (map f l) -> List.NoDup (map f (List.filter p l)).
Proof.
  induction l as [|x l IH]; cbn [map List.filter]; [auto|]. intros ND.
  apply List.NoDup_cons_iff in ND. destruct ND as [NI ND].
  destruct (p x); [|now apply IH]. cbn [map]. constructor; [|now apply IH].
  intros I. apply NI. apply in_map_iff in I. destruct I as (y & E & I).
  apply List.filter_In in I. rewrite <- E. apply in_map. apply I.
Qed.

Lemma NoDup_snoc {A} (l : list A) (x : A) :
  List.NoDup l -> ~ In x l -> List.NoDup (l ++ [x]).
Proof.
  induction l as [|y l IH]; cbn [app]; intros ND NI.
  - constructor; [intros []|constructor].
  - apply List.NoDup_cons_iff in ND. destruct ND as [NY ND].
    constructor; [|apply IH; [exact ND|intros I; apply NI; now right]].
    intros I. apply in_app_or in I. destruct I as [I|[I|[]]]; [now apply NY|].
    apply NI. now left.
Qed.

Lemma saveQuizResult_failure (now : Z) (db : database) (id email : string)
    (name : option string) (results : Results) (pdfUrl s3Key : option string)
    (e : string) (db' : database) :
  saveQuizResult now db id email name results pdfUrl s3Key = (failure e, db') -> db' = db.
Proof.
  unfold saveQuizResult.
  destruct (uuid_in id) as [u|]; cbn [mbind option_bind]; [|congruence].
  destruct (VARCHAR 255 (trim (toLowerCase email))) as [a|];
    cbn [mbind option_bind]; [|congruence].
  destruct (match name with Some n => Some <$> VARCHAR 255 n | None => Some None end)
    as [n|]; cbn [mbind option_bind]; [|congruence].
  destruct (match or_null_string (ednaType results) with
            | Some s => Some <$> VARCHAR 100 s | None => Some None end)
    as [et|]; cbn [mbind option_bind]; [|congruence].
  destruct (match or_null_string (coreType results) with
            | Some s => Some <$> VARCHAR 50 s | None => Some None end)
    as [ct|]; cbn [mbind option_bind]; [|congruence].
  destruct (match or_null_string (subtype results) with
            | Some s => Some <$> VARCHAR 50 s | None => Some None end)
    as [st|]; cbn [mbind option_bind]; [|congruence].
  destruct (INTEGER (or_null_number (coreTypeMastery results))) as [cm|];
    cbn [mbind option_bind]; [|congruence].
  destruct (INTEGER (or_null_number (subtypeMastery results))) as [sm|];
    cbn [mbind option_bind]; [|congruence].
  match goal with
  | |- context [upsert now ?r ?rows] => destruct (upsert now r rows)
  end.
  discriminate.
Qed.

(** What a successful [createDownloadToken] did. *)
Lemma createDownloadToken_success (now : Z) (db : database) (token quizResultId : string)
    (expiresAt : Z) (u : unit) (db' : database) :
  createDownloadToken now db token quizResultId expiresAt = (success u, db') ->
  exists tok rid q rest,
    VARCHAR 255 token = Some tok /\ uuid_in quizResultId = Some rid /\
    (forall t, In t (pdf_download_tokens db) -> t_token t <> tok) /\
    List.filter (fun q => rid =? q_id q) (quiz_results db) = q :: rest /\
    db' = {| quiz_results := quiz_results db;
             pdf_download_tokens :=
               pdf_download_tokens db ++
               [{| t_token := tok; t_quiz_result_id := rid;
                   t_expires_at := expiresAt; t_created_at := now |}] |}.
Proof.
  unfold createDownloadToken.
  destruct (VARCHAR 255 token) as [tok|]; cbn [mbind option_bind]; [|discriminate].
  destruct (uuid_in quizResultId) as [rid|]; cbn [mbind option_bind]; [|discriminate].
  cbn [t_token t_quiz_result_id].
  destruct (existsb (fun t => t_token t =? tok) (pdf_download_tokens db)) eqn:X;
    [discriminate|].
  destruct (existsb (fun q => q_id q =? rid) (quiz_results db)) eqn:Y;
    cbn [negb]; [|discriminate].
  intros [= _ <-].
  destruct (List.filter (fun q => rid =? q_id q) (quiz_results db)) as [|q rest] eqn:F.
  - exfalso. apply existsb_exists in Y. destruct Y as (q & I & E).
    assert (J : In q (List.filter (fun q => rid =? q_id q) (quiz_results db))).
    { apply List.filter_In. split; [exact I|]. now rewrite String.eqb_sym. }
    rewrite F in J. exact J.
  - exists tok, rid, q, rest. repeat split; auto.
    intros t I E. apply not_true_iff_false in X. apply X. apply existsb_exists.
    exists t. split; [exact I|]. now apply String.eqb_eq.
Qed.

Lemma createDownloadToken_failure (now : Z) (db : database) (token quizResultId : string)
    (expiresAt : Z) (e : string) (db' : database) :
  createDownloadToken now db token quizResultId expiresAt = (failure e, db') -> db' = db.
Proof.
  unfold createDownloadToken.
  destruct (VARCHAR 255 token) as [tok|]; cbn [mbind option_bind]; [|congruence].
  destruct (uuid_in quizResultId) as [rid|]; cbn [mbind option_bind]; [|congruence].
  destruct (existsb _ (pdf_download_tokens db)); [congruence|].
  destruct (negb _); [congruence|discriminate].
Qed.

(** X16. The constraints of the schema are kept by every operation of
    the module on the two tables: after [saveQuizResult],
    [createDownloadToken] or the clean-up of expired tokens, whatever
    their arguments and whether they succeed or fail, ids and tokens are
    still unique and every token still refers to a stored result. *)
Theorem store_constraints_preserved (now : Z) (db : database) :
  consistent db ->
  (forall id email name results pdfUrl s3Key,
     consistent (snd (saveQuizResult now db id email name results pdfUrl s3Key))) /\
  (forall token quizResultId expiresAt,
     consistent (snd (createDownloadToken now db token quizResultId expiresAt))) /\
  consistent (cleanup_expired_tokens now db).
Proof.
  intros (PK & TK & FK). split; [|split].
  - intros id email name results pdfUrl s3Key.
    destruct (saveQuizResult now db id email name results pdfUrl s3Key)
      as [[row|e] db'] eqn:S; cbn [snd].
    + destruct (saveQuizResult_success _ _ _ _ _ _ _ _ _ _ S)
        as (row0 & _ & _ & _ & _ & _ & _ & _ & U & T).
      destruct (upsert_spec _ _ _ _ _ U) as (_ & _ & _ & _ & _ & _ & Keys & ND & _).
      unfold consistent. rewrite T. split; [now apply ND|]. split; [exact TK|].
      intros t I. apply Keys. right. now apply FK.
    + apply saveQuizResult_failure in S. subst db'. now split.
  - intros token quizResultId expiresAt.
    destruct (createDownloadToken now db token quizResultId expiresAt)
      as [[u|e] db'] eqn:C; cbn [snd].
    + destruct (createDownloadToken_success _ _ _ _ _ _ _ C)
        as (tok & rid & q & rest & _ & _ & Fresh & F & ->).
      unfold consistent. cbn [quiz_results pdf_download_tokens].
      split; [exact PK|]. split.
      * rewrite map_app. cbn [map t_token]. apply NoDup_snoc; [exact TK|].
        intros I. apply in_map_iff in I. destruct I as (t & E & I).
        exact (Fresh t I E).
      * intros t I. apply in_app_or in I. destruct I as [I|[<-|[]]]; [now apply FK|].
        cbn [t_quiz_result_id].
        assert (J : In q (List.filter (fun q => rid =? q_id q) (quiz_results db)))
          by (rewrite F; now left).
        apply List.filter_In in J. destruct J as [J E]. apply String.eqb_eq in E.
        rewrite E. now apply in_map.
    + apply createDownloadToken_failure in C. subst db'. now split.
  - unfold consistent, cleanup_expired_tokens. cbn [quiz_results pdf_download_tokens].
    split; [exact PK|]. split; [now apply NoDup_map_filter|].
    intros t I. apply List.filter_In in I. now apply FK.
Qed.

Lemma store_constraints_preserved_witness :
  consistent db_one_result /\
  consistent (snd saved_alice) /\
  consistent db_live /\
  consistent (cleanup_expired_tokens 20 db_one_result).
Proof.
  assert (C : consistent db_one_result).
  { unfold consistent. vm_compute. split; [|split].
    - constructor; [intros []|constructor].
    - constructor.
    - intros t []. }
  split; [exact C|].
  destruct (store_constraints_preserved 20 db_one_result C) as (S & _ & G).
  destruct (store_constraints_preserved 50 db_one_result C) as (_ & T & _).
  split; [apply S|]. split; [apply T|exact G].
Defined.

(** ** The life of a download token *)

Lemma bind_none {A B} (f : A -> list B) (l : list A) :
  (forall x, In x l -> f x = []) -> l ≫= f = [].
Proof.
  induction l as [|x l IH]; intros H; [reflexivity|].
  rewrite bind_cons, (H x) by (now left). apply IH. intros y I. apply H. now right.
Qed.

Lemma bind_filter {A B} (f : A -> list B) (p : A -> bool) (l : list A) :
  (forall x, In x l -> p x = false -> f x = []) -> List.filter p l ≫= f = l ≫= f.
Proof.
  induction l as [|x l IH]; intros H; [reflexivity|]. cbn [List.filter].
  assert (H' : forall y, In y l -> p y = false -> f y = [])
    by (intros y I; apply H; now right).
  destruct (p x) eqn:P.
  - now rewrite !bind_cons, IH.
  - now rewrite bind_cons, (H x (or_introl eq_refl) P), IH.
Qed.

Lemma bind_select {A B} (c : A -> bool) (g : A -> B) (l : list A) :
  l ≫= (fun x => if c x then [g x] else []) = map g (List.filter c l).
Proof.
  induction l as [|x l IH]; [reflexivity|]. rewrite bind_cons, IH. cbn [List.filter].
  now destruct (c x).
Qed.

(** The links of a token that was just added to the store. *)
Lemma live_links_new (now : Z) (rows : list quiz_result) (tokens : list download_token)
    (new : download_token) :
  (forall t, In t tokens -> t_token t <> t_token new) ->
  live_links now {| quiz_results := rows; pdf_download_tokens := tokens ++ [new] |}
    (t_token new)
  = if (now <? t_expires_at new)%Z
    then map (pair new) (List.filter (fun q => t_quiz_result_id new =? q_id q) rows)
    else [].
Proof.
  intros Fresh. unfold live_links. cbn [quiz_results pdf_download_tokens].
  rewrite bind_app, bind_singleton.
  rewrite (bind_none _ tokens).
  - cbn [app]. rewrite String.eqb_refl.
    destruct (now <? t_expires_at new)%Z.
    + rewrite <- bind_select. apply list_bind_ext; [|reflexivity].
      intros q. now rewrite andb_true_r, andb_true_r.
    + apply bind_none. intros q _. now rewrite andb_false_r.
  - intros t I. apply bind_none. intros q _.
    destruct (String.eqb_spec (t_token t) (t_token new)) as [E|_];
      [now apply Fresh in E|].
    now rewrite andb_false_r.
Qed.

(** X17. A token that [createDownloadToken] stored is honoured by
    [verifyDownloadToken] at every instant before its expiry, with the
    result it was issued for, and refused from the instant of its expiry
    on; the stored token is the given one when that has at most 255
    characters. *)
Theorem createDownloadToken_then_verifyDownloadToken (now now' : Z) (db : database)
    (token quizResultId : string) (expiresAt : Z) (db' : database) :
  createDownloadToken now db token quizResultId expiresAt = (success (), db') ->
  exists tok t q,
    VARCHAR 255 token = Some tok /\
    (String.length token <= 255 -> tok = token) /\
    t_token t = tok /\ t_expires_at t = expiresAt /\ t_created_at t = now /\
    In q (quiz_results db) /\ uuid_in quizResultId = Some (q_id q) /\
    verifyDownloadToken now' db' tok
    = if (now' <? expiresAt)%Z then success (t, q)
      else failure "Invalid or expired token".
Proof.
  intros C.
  destruct (createDownloadToken_success _ _ _ _ _ _ _ C)
    as (tok & rid & q & rest & V & U & Fresh & F & ->).
  assert (J : In q (List.filter (fun q => rid =? q_id q) (quiz_results db)))
    by (rewrite F; now left).
  apply List.filter_In in J. destruct J as [J E]. apply String.eqb_eq in E.
  exists tok, {| t_token := tok; t_quiz_result_id := rid;
                 t_expires_at := expiresAt; t_created_at := now |}, q.
  split; [exact V|]. split.
  { intros L. apply VARCHAR_fits in L. congruence. }
  repeat (split; [first [reflexivity|assumption|congruence]|]).
  unfold verifyDownloadToken.
  match goal with
  | |- context [live_links now' ?d tok] =>
      pose proof (live_links_new now' (quiz_results db) (pdf_download_tokens db)
                    {| t_token := tok; t_quiz_result_id := rid;
                       t_expires_at := expiresAt; t_created_at := now |} Fresh) as L
  end.
  cbn [t_token t_expires_at t_quiz_result_id] in L. rewrite L.
  destruct (now' <? expiresAt)%Z; [|reflexivity]. now rewrite F.
Qed.

Lemma createDownloadToken_then_verifyDownloadToken_witness :
  createDownloadToken 50 db_one_result "tok" sample_id 100 = (success (), db_live) /\
  (exists t q, verifyDownloadToken 99 db_live "tok" = success (t, q) /\
               q_id q = sample_id /\ t_expires_at t = 100%Z) /\
  verifyDownloadToken 100 db_live "tok" = failure "Invalid or expired token".
Proof.
  assert (C : createDownloadToken 50 db_one_result "tok" sample_id 100
              = (success (), db_live)) by (vm_compute; reflexivity).
  split; [exact C|].
  destruct (createDownloadToken_then_verifyDownloadToken 50 99 _ _ _ _ _ C)
    as (tok & t & q & V & _ & _ & X & _ & _ & U & R).
  destruct (createDownloadToken_then_verifyDownloadToken 50 100 _ _ _ _ _ C)
    as (tok' & t' & q' & V' & _ & _ & _ & _ & _ & _ & R').
  assert (T : tok = "tok") by (vm_compute in V; congruence).
  assert (T' : tok' = "tok") by (vm_compute in V'; congruence).
  subst tok tok'. split; [|exact R'].
  exists t, q. split; [exact R|]. split; [|exact X].
  assert (K : uuid_in sample_id = Some sample_id) by (vm_compute; reflexivity).
  congruence.
Defined.

(** X18. A refusal is final: a token that [verifyDownloadToken] refuses
    is refused at every later instant, as long as the store is the
    same. *)
Theorem verifyDownloadToken_refusal_is_final (now now' : Z) (db : database)
    (token e : string) :
  verifyDownloadToken now db token = failure e ->
  (now <= now')%Z ->
  verifyDownloadToken now' db token = failure e.
Proof.
  unfold verifyDownloadToken.
  destruct (live_links now db token) as [|x l] eqn:L; [|discriminate].
  intros [= <-] Le.
  destruct (live_links now' db token) as [|[t q] l'] eqn:L'; [reflexivity|]. exfalso.
  assert (I : In (t, q) (live_links now' db token)) by (rewrite L'; now left).
  apply live_links_In in I.
  assert (J : In (t, q) (live_links now db token))
    by (apply live_links_In; intuition lia).
  rewrite L in J. exact J.
Qed.

Lemma verifyDownloadToken_refusal_is_final_witness :
  verifyDownloadToken 100 db_live "tok" = failure "Invalid or expired token" /\
  (100 <= 5000)%Z /\
  verifyDownloadToken 5000 db_live "tok" = failure "Invalid or expired token".
Proof.
  assert (R : verifyDownloadToken 100 db_live "tok" = failure "Invalid or expired token")
    by (vm_compute; reflexivity).
  assert (L : (100 <= 5000)%Z) by lia.
  split; [exact R|]. split; [exact L|].
  exact (verifyDownloadToken_refusal_is_final 100 5000 db_live "tok" _ R L).
Defined.

(** X19. The clean-up function of the schema cannot be observed
    through [verifyDownloadToken]: at the time of the clean-up and at any
    later time every token is answered as if no token had been
    deleted. *)
Theorem cleanup_expired_tokens_unobserved (now now' : Z) (db : database) (token : string) :
  (now <= now')%Z ->
  verifyDownloadToken now' (cleanup_expired_tokens now db) token
  = verifyDownloadToken now' db token.
Proof.
  intros Le. unfold verifyDownloadToken.
  replace (live_links now' (cleanup_expired_tokens now db) token)
    with (live_links now' db token); [reflexivity|].
  unfold live_links, cleanup_expired_tokens. cbn [quiz_results pdf_download_tokens].
  symmetry. apply bind_filter. intros t _ P. apply bind_none. intros q _.
  apply negb_false_iff, Z.ltb_lt in P.
  replace (now' <? t_expires_at t)%Z with false by (symmetry; apply Z.ltb_ge; lia).
  now rewrite andb_false_r.
Qed.

Lemma cleanup_expired_tokens_unobserved_witness :
  (60 <= 70)%Z /\
  pdf_download_tokens (cleanup_expired_tokens 60 db_ttl0) = [] /\
  verifyDownloadToken 70 (cleanup_expired_tokens 60 db_live) "tok"
  = verifyDownloadToken 70 db_live "tok" /\
  verifyDownloadToken 70 (cleanup_expired_tokens 60 db_ttl0) "tok"
  = verifyDownloadToken 70 db_ttl0 "tok".
Proof.
  assert (L : (60 <= 70)%Z) by lia.
  split; [exact L|]. split; [vm_compute; reflexivity|].
  split; apply (cleanup_expired_tokens_unobserved 60 70 _ "tok" L).
Defined.

(** ** Quiz progress *)

Lemma upsert_progress_spec (now : Z) (email data : string) (rows : list quiz_progress) :
  getQuizProgress (upsert_progress now email data rows) email = Some (data, now) /\
  (forall other, other <> email ->
     getQuizProgress (upsert_progress now email data rows) other
     = getQuizProgress rows other) /\
  (forall k, In k (map p_email (upsert_progress now email data rows)) <->
             k = email \/ In k (map p_email rows)) /\
  (List.NoDup (map p_email rows) ->
   List.NoDup (map p_email (upsert_progress now email data rows))).
Proof.
  unfold getQuizProgress. induction rows as [|r rs (I1 & I2 & I3 & I4)].
  - cbn [upsert_progress List.filter p_email map In]. rewrite String.eqb_refl.
    split; [reflexivity|]. split; [|split].
    + intros other N. destruct (String.eqb_spec email other); congruence.
    + intros k. split; [intros [E|[]]; auto|intros [E|[]]; auto].
    + intros _. constructor; [intros []|constructor].
  - cbn [upsert_progress]. destruct (String.eqb_spec (p_email r) email) as [E|NE].
    + cbn [List.filter p_email map In p_progress_data p_updated_at].
      rewrite E, String.eqb_refl. split; [reflexivity|]. split; [|split].
      * intros other N. destruct (String.eqb_spec email other); congruence.
      * intros k. split; [intros [H|H]; auto|intros [H|[H|H]]; auto].
      * auto.
    + cbn [List.filter p_email map In].
      destruct (String.eqb_spec (p_email r) email) as [|_]; [contradiction|].
      split; [exact I1|]. split; [|split].
      * intros other N. specialize (I2 other N).
        destruct (p_email r =? other); [|exact I2].
        destruct (List.filter _ rs); reflexivity.
      * intros k. rewrite I3. tauto.
      * intros ND. apply List.NoDup_cons_iff in ND. destruct ND as [NI ND].
        constructor; [|now apply I4]. intros J. apply I3 in J.
        destruct J as [J|J]; [now apply NE|now apply NI].
Qed.

(** X20. Progress saved for an address is what [getQuizProgress]
    returns for it, stamped with the time of the save, whether a row was
    inserted or replaced; the progress of every other address is as
    before, and addresses stay unique.  Addresses are compared as they
    are given: the stored address is the given one when that has at most
    255 characters. *)
Theorem saveQuizProgress_then_getQuizProgress (now : Z) (rows rows' : list quiz_progress)
    (email progressData : string) :
  saveQuizProgress now rows email progressData = (Return true, rows') ->
  exists stored,
    VARCHAR 255 email = Some stored /\
    (String.length email <= 255 -> stored = email) /\
    getQuizProgress rows' stored = Some (progressData, now) /\
    (forall other, other <> stored ->
       getQuizProgress rows' other = getQuizProgress rows other) /\
    (List.NoDup (map p_email rows) -> List.NoDup (map p_email rows')).
Proof.
  unfold saveQuizProgress.
  destruct (VARCHAR 255 email) as [stored|] eqn:V; [|discriminate].
  intros [= <-]. exists stored. split; [reflexivity|]. split.
  { intros L. apply VARCHAR_fits in L. congruence. }
  destruct (upsert_progress_spec now stored progressData rows) as (A & B & _ & D).
  auto.
Qed.

Lemma saveQuizProgress_then_getQuizProgress_witness :
  exists rows',
    saveQuizProgress 7 progress_rows "Bob@example.com" "{'q':3}" = (Return true, rows') /\
    getQuizProgress rows' "Bob@example.com" = Some ("{'q':3}", 7%Z) /\
    getQuizProgress rows' "bob@example.com" = Some ("{}", 2%Z).
Proof.
  destruct (saveQuizProgress 7 progress_rows "Bob@example.com" "{'q':3}")
    as [r rows'] eqn:S.
  assert (R : r = Return true).
  { pose proof S as S'. vm_compute in S'. congruence. }
  subst r. exists rows'. split; [reflexivity|].
  destruct (saveQuizProgress_then_getQuizProgress _ _ _ _ _ S)
    as (stored & V & _ & A & B & _).
  assert (E : stored = "Bob@example.com") by (vm_compute in V; congruence).
  subst stored. split; [exact A|]. rewrite B by discriminate.
  vm_compute. reflexivity.
Defined.

(** X21. [deleteQuizProgress] fails, returning [false] and leaving the
    table as it was, exactly when the address holds a NUL character (the
    server rejects the parameter and the error is caught); otherwise it
    returns [true], no progress is found for the address afterwards, and
    the progress of every other address is as before. *)
Theorem deleteQuizProgress_then_getQuizProgress (rows : list quiz_progress)
    (email : string) :
  if has_nul email then deleteQuizProgress rows email = (false, rows)
  else
    fst (deleteQuizProgress rows email) = true /\
    getQuizProgress (snd (deleteQuizProgress rows email)) email = None /\
    (forall other, other <> email ->
       getQuizProgress (snd (deleteQuizProgress rows email)) other
       = getQuizProgress rows other).
Proof.
  unfold deleteQuizProgress, getQuizProgress.
  destruct (has_nul email); [reflexivity|]. cbn [fst snd].
  split; [reflexivity|]. split.
  - rewrite filter_none; [reflexivity|]. intros r I.
    apply List.filter_In in I. destruct I as [_ N].
    now apply negb_true_iff in N.
  - intros other N.
    replace (List.filter (fun r => p_email r =? other)
               (List.filter (fun r => negb (p_email r =? email)) rows))
      with (List.filter (fun r => p_email r =? other) rows); [reflexivity|].
    induction rows as [|r rs IH]; [reflexivity|]. cbn [List.filter].
    destruct (String.eqb_spec (p_email r) email) as [E|NE]; cbn [negb List.filter].
    + destruct (String.eqb_spec (p_email r) other); [congruence|exact IH].
    + destruct (p_email r =? other); [now rewrite IH|exact IH].
Qed.

(** ** Version-4 identifiers and the [UUID] column *)

Lemma below_all (P : Z -> bool) (n : nat) :
  forallb P (map Z.of_nat (seq 0 n)) = true ->
  forall x, (0 <= x < Z.of_nat n)%Z -> P x = true.
Proof.
  intros H x B. rewrite forallb_forall in H. apply H. apply in_map_iff.
  exists (Z.to_nat x). split; [lia|]. apply in_seq. lia.
Qed.

Lemma plain_hex_byte (b : Z) : (0 <= b < 256)%Z -> plain_hex b = true.
Proof. apply (below_all plain_hex 256). vm_compute. reflexivity. Qed.

Lemma plain_hex_version (b : Z) :
  (0 <= b < 256)%Z -> plain_hex (Z.lor (Z.land b 15) 64) = true.
Proof.
  apply (below_all (fun b => plain_hex (Z.lor (Z.land b 15) 64)) 256).
  vm_compute. reflexivity.
Qed.

Lemma plain_hex_variant (b : Z) :
  (0 <= b < 256)%Z -> plain_hex (Z.lor (Z.land b 63) 128) = true.
Proof.
  apply (below_all (fun b => plain_hex (Z.lor (Z.land b 63) 128)) 256).
  vm_compute. reflexivity.
Qed.

Lemma plain_hex_spec (b : Z) :
  plain_hex b = true ->
  exists a c,
    Uuid.byteToHex b = String a (String c "") /\
    is_xdigit a = true /\ is_xdigit c = true /\
    toLowerCase_char a = a /\ toLowerCase_char c = c /\
    a <> "-"%char /\ a <> "{"%char.
Proof.
  unfold plain_hex, Uuid.byteToHex. intros H.
  repeat (apply andb_true_iff in H; destruct H as [H ?]).
  eexists _, _. split; [reflexivity|].
  repeat match goal with
         | J : Ascii.eqb _ _ = true |- _ => apply Ascii.eqb_eq in J
         | J : negb _ = true |- _ => apply negb_true_iff, Ascii.eqb_neq in J
         end.
  auto 10.
Qed.

Lemma uuid_in_no_brace (a : ascii) (r : string) :
  a <> "{"%char ->
  uuid_in (String a r)
  = '(ds, tail) ← uuid_digits 16 0 (String a r);
    if tail =? "" then
      Some (take 8 ds +:+ "-" +:+ take 4 (drop 8 ds) +:+ "-" +:+ take 4 (drop 12 ds)
            +:+ "-" +:+ take 4 (drop 16 ds) +:+ "-" +:+ drop 20 ds)
    else None.
Proof.
  intros N. destruct a as [[] [] [] [] [] [] [] []]; try reflexivity. congruence.
Qed.

Lemma uuid_digits_plain (count i : nat) (a c a' : ascii) (r : string) :
  is_xdigit a = true -> is_xdigit c = true ->
  toLowerCase_char a = a -> toLowerCase_char c = c ->
  a' <> "-"%char ->
  uuid_digits (S count) i (String a (String c (String a' r)))
  = '(ds, tail) ← uuid_digits count (S i) (String a' r);
    Some (String a (String c ds), tail).
Proof.
  intros Xa Xc La Lc N. cbn [uuid_digits]. rewrite Xa, Xc, La, Lc. cbn [andb].
  destruct a' as [[] [] [] [] [] [] [] []]; try reflexivity. congruence.
Qed.

Lemma uuid_digits_hyphen (count i : nat) (a c : ascii) (r : string) :
  is_xdigit a = true -> is_xdigit c = true ->
  toLowerCase_char a = a -> toLowerCase_char c = c ->
  Nat.odd i && (i <? 15)%nat = true ->
  uuid_digits (S count) i (String a (String c (String "-" r)))
  = '(ds, tail) ← uuid_digits count (S i) r;
    Some (String a (String c ds), tail).
Proof.
  intros Xa Xc La Lc O. cbn [uuid_digits]. rewrite Xa, Xc, La, Lc, O. reflexivity.
Qed.

Lemma uuid_digits_last (i : nat) (a c : ascii) :
  is_xdigit a = true -> is_xdigit c = true ->
  toLowerCase_char a = a -> toLowerCase_char c = c ->
  uuid_digits 1 i (String a (String c "")) = Some (String a (String c ""), "").
Proof.
  intros Xa Xc La Lc. cbn [uuid_digits]. rewrite Xa, Xc, La, Lc. reflexivity.
Qed.

Ltac hex_bytes :=
  repeat match goal with
         | |- context [Uuid.byteToHex ?z] =>
             let P := fresh "P" in
             assert (P : plain_hex z = true)
               by (lazymatch z with
                   | Z.lor (Z.land _ 15) 64 => apply plain_hex_version
                   | Z.lor (Z.land _ 63) 128 => apply plain_hex_variant
                   | _ => apply plain_hex_byte
                   end; assumption);
             destruct (plain_hex_spec z P) as (?a & ?c & -> & ? & ? & ? & ? & ? & ?);
             clear P
         end.

(** X22. An identifier minted by [v4] is text the [UUID] column accepts
    and keeps as it is: its canonical form is the identifier itself, so
    a result is stored, and later found, under exactly the [resultId] the
    application handed out. *)
Theorem uuid_in_v4 (rnds : list Z) :
  Uuid.random_bytes rnds -> uuid_in (Uuid.v4 rnds) = Some (Uuid.v4 rnds).
Proof.
  intros [L B].
  do 16 (destruct rnds as [|? rnds]; [discriminate L|]).
  destruct rnds; [|discriminate L].
  repeat match goal with
         | H : Forall _ (_ :: _) |- _ => apply Forall_cons in H; destruct H as [? H]
         end.
  unfold Uuid.v4, Uuid.byte_at.
  cbn [insert list_insert lookup list_lookup default]. unfold id.
  unfold Uuid.unsafeStringify, Uuid.byte_at.
  cbn [lookup list_lookup default]. unfold id.
  hex_bytes. cbv [String.append].
  rewrite uuid_in_no_brace by assumption.
  repeat first [ rewrite uuid_digits_hyphen by first [assumption|reflexivity]
               | rewrite uuid_digits_plain by assumption
               | rewrite uuid_digits_last by assumption ].
  reflexivity.
Qed.

Lemma uuid_in_v4_witness :
  Uuid.random_bytes draw_c /\
  Uuid.v4 draw_c = "c8112233-4455-4677-8899-aabbccddee01" /\
  uuid_in (Uuid.v4 draw_c) = Some (Uuid.v4 draw_c).
Proof.
  assert (R : Uuid.random_bytes draw_c).
  { split; [reflexivity|]. unfold draw_c. repeat (constructor; [lia|]). constructor. }
  split; [exact R|]. split; [vm_compute; reflexivity|]. exact (uuid_in_v4 draw_c R).
Defined.

(** X23. Whatever the random source returns, the text [v4] yields has
    the shape of a version-4 identifier: 36 characters with hyphens at
    positions 8, 13, 18 and 23, the version digit [4] at position 14
    and one of [8], [9], [a], [b] at position 19. *)
Theorem v4_shape (rnds : list Z) :
  Uuid.random_bytes rnds ->
  String.length (Uuid.v4 rnds) = 36 /\
  String.get 8 (Uuid.v4 rnds) = Some "-"%char /\
  String.get 13 (Uuid.v4 rnds) = Some "-"%char /\
  String.get 18 (Uuid.v4 rnds) = Some "-"%char /\
  String.get 23 (Uuid.v4 rnds) = Some "-"%char /\
  String.get 14 (Uuid.v4 rnds) = Some "4"%char /\
  exists c, String.get 19 (Uuid.v4 rnds) = Some c /\
            (c = "8" \/ c = "9" \/ c = "a" \/ c = "b")%char.
Proof.
  intros [L B].
  do 16 (destruct rnds as [|? rnds]; [discriminate L|]).
  destruct rnds; [|discriminate L].
  repeat match goal with
         | H : Forall _ (_ :: _) |- _ => apply Forall_cons in H; destruct H as [? H]
         end.
  unfold Uuid.v4, Uuid.byte_at.
  cbn [insert list_insert lookup list_lookup default]. unfold id.
  unfold Uuid.unsafeStringify, Uuid.byte_at, Uuid.byteToHex.
  cbn [lookup list_lookup default]. unfold id. cbv [String.append].
  do 5 (split; [reflexivity|]). cbn [String.get]. split.
  - f_equal.
    match goal with
    | |- Uuid.hex_digit (Z.shiftr (Z.lor (Z.land ?b 15) 64) 4) = _ =>
        apply Ascii.eqb_eq;
        apply (below_all
                 (fun b => Ascii.eqb (Uuid.hex_digit (Z.shiftr (Z.lor (Z.land b 15) 64) 4))
                             "4") 256); [vm_compute; reflexivity|assumption]
    end.
  - eexists. split; [reflexivity|].
    match goal with
    | |- Uuid.hex_digit (Z.shiftr (Z.lor (Z.land ?b 63) 128) 4) = _ \/ _ =>
        pose proof (below_all
                      (fun b =>
                         let c := Uuid.hex_digit (Z.shiftr (Z.lor (Z.land b 63) 128) 4) in
                         Ascii.eqb c "8" || Ascii.eqb c "9" || Ascii.eqb c "a"
                         || Ascii.eqb c "b") 256 eq_refl b ltac:(assumption)) as V
    end.
    cbv beta zeta in V.
    repeat (apply orb_true_iff in V; destruct V as [V|V]);
      apply Ascii.eqb_eq in V; auto.
Qed.

Lemma v4_shape_witness :
  Uuid.random_bytes draw_a /\
  String.length (Uuid.v4 draw_a) = 36 /\
  String.get 14 (Uuid.v4 draw_a) = Some "4"%char /\
  String.get 19 (Uuid.v4 draw_a) = Some "8"%char.
Proof.
  assert (R : Uuid.random_bytes draw_a).
  { split; [reflexivity|]. unfold draw_a. repeat (constructor; [lia|]). constructor. }
  destruct (v4_shape draw_a R) as (A & _ & _ & _ & _ & V & c & G & _).
  split; [exact R|]. split; [exact A|]. split; [exact V|]. vm_compute. reflexivity.
Defined.

(** ** Saving results and the link sent to the webhook *)

Lemma v4_length (rnds : list Z) : String.length (Uuid.v4 rnds) = 36.
Proof. reflexivity. Qed.

Lemma v4_not_empty (rnds : list Z) : Uuid.v4 rnds <> "".
Proof. intros E. apply (f_equal String.length) in E. discriminate E. Qed.

Lemma append_not_empty (s t : string) : t <> "" -> (s +:+ t =? "") = false.
Proof.
  intros N. destruct s; [|reflexivity].
  change ("" +:+ t) with t. now apply String.eqb_neq.
Qed.

Lemma filter_eqb_sym (k : string) (rows : list quiz_result) :
  List.filter (fun q => k =? q_id q) rows = List.filter (fun q => q_id q =? k) rows.
Proof. apply List.filter_ext. intros q. apply String.eqb_sym. Qed.

Section PipelineFacts.

Variable generatePDFFromComponent :
  Index.RequestResults -> option string -> string -> outcome unit.
Variable uploadPDFToS3 : string -> string -> outcome (string * string).
Variable post : Index.payload -> outcome unit.
Variables tempDir publicBaseUrl : string.

Local Abbreviation save_results :=
  (Index.save_results generatePDFFromComponent uploadPDFToS3 post tempDir publicBaseUrl).


Variable generatePresignedPdfUrl : option string -> nat -> outcome string.

(** X25. The link [POST /api/quiz/save-results] has sent to the webhook
    once its background task has run: at most one body is posted; it
    carries the address of the request and the link
    [<base>/download?token=<v4>]; the result is stored under the
    [resultId] of the response with neither a PDF URL nor an S3 key (the
    upload's key is never written back); and at every instant before the
    seven days are over the token is honoured with that result, so that
    [GET /download] asks the object store to sign a missing key. *)
Theorem save_results_link (rnds_id rnds_token : list Z) (now later : Z) (db : database)
    (email name : option string) (results : option Index.RequestResults)
    (resultId message : string) (db'' : database) (posted : list Index.payload)
    (p : Index.payload) :
  save_results rnds_id rnds_token now later db email name results
  = (Index.Accepted resultId message, db'', posted) ->
  In p posted ->
  exists row t,
    posted = [p] /\
    Some (Index.w_email p) = email /\
    Index.w_downloadLink p = publicBaseUrl +:+ "/download?token=" +:+ Uuid.v4 rnds_token /\
    resultId = Uuid.v4 rnds_id /\
    getQuizResultById db'' resultId = success row /\
    q_pdf_url row = None /\ q_s3_key row = None /\
    forall at_time, (at_time < later + 7 * 24 * 60 * 60 * 1000)%Z ->
      verifyDownloadToken at_time db'' (Uuid.v4 rnds_token) = success (t, row) /\
      Index.download generatePresignedPdfUrl at_time db''
        (Some (JStr (Uuid.v4 rnds_token)))
      = match generatePresignedPdfUrl None (7 * 60 * 60) with
        | success url => Index.Redirect url
        | failure _ => Index.Json 500 "Could not generate download link"
        end.
Proof.
  unfold Index.save_results.
  destruct email as [email|]; [|discriminate].
  destruct results as [results|]; [|discriminate].
  destruct (email =? "") eqn:Em; [discriminate|].
  destruct (saveQuizResult now db (Uuid.v4 rnds_id) email name (Index.fields results)
              None None) as [[row|e] db1] eqn:S; [|discriminate].
  unfold Index.generatePDFInBackground.
  destruct (generatePDFFromComponent _ _ _); [|intros [= _ _ _ <-] []].
  destruct (uploadPDFToS3 _ _); [|intros [= _ _ _ <-] []].
  unfold Index.issue_download_link.
  destruct (createDownloadToken later db1 (Uuid.v4 rnds_token) (Uuid.v4 rnds_id)
              (later + 7 * 24 * 60 * 60 * 1000)) as [[u|e] db2] eqn:C;
    [|intros [= _ _ _ <-] []].
  unfold Index.notifyGhlWithDownloadLink. rewrite Em.
  rewrite append_not_empty by discriminate. cbn [orb].
  intros [= <- _ <- <-] [<-|[]].
  destruct (saveQuizResult_success _ _ _ _ _ _ _ _ _ _ S)
    as (row0 & I & _ & _ & P & K & _ & _ & U & _).
  destruct (upsert_spec _ _ _ _ _ U) as (Kr & _ & P' & K' & (rest & F) & _).
  destruct u.
  destruct (createDownloadToken_success _ _ _ _ _ _ _ C)
    as (tok & rid & q & rest' & V & I' & Fresh & F' & ->).
  rewrite VARCHAR_fits in V by (rewrite v4_length; lia).
  injection V as <-. assert (rid = q_id row0) by congruence. subst rid.
  rewrite filter_eqb_sym, F in F'. injection F' as <- <-.
  exists row,
    {| t_token := Uuid.v4 rnds_token; t_quiz_result_id := q_id row0;
       t_expires_at := (later + 7 * 24 * 60 * 60 * 1000)%Z; t_created_at := later |}.
  cbn [Index.w_email Index.w_downloadLink].
  split; [reflexivity|]. split; [reflexivity|]. split; [reflexivity|].
  split; [reflexivity|]. split.
  { unfold getQuizResultById. rewrite I. cbn [quiz_results]. now rewrite F. }
  split; [congruence|]. split; [congruence|].
  intros at_time Lt.
  assert (R : verifyDownloadToken at_time
                {| quiz_results := quiz_results db1;
                   pdf_download_tokens :=
                     pdf_download_tokens db1 ++
                     [{| t_token := Uuid.v4 rnds_token; t_quiz_result_id := q_id row0;
                         t_expires_at := (later + 7 * 24 * 60 * 60 * 1000)%Z;
                         t_created_at := later |}] |}
                (Uuid.v4 rnds_token)
              = success ({| t_token := Uuid.v4 rnds_token; t_quiz_result_id := q_id row0;
                            t_expires_at := (later + 7 * 24 * 60 * 60 * 1000)%Z;
                            t_created_at := later |}, row)).
  { unfold verifyDownloadToken.
    pose proof (live_links_new at_time (quiz_results db1) (pdf_download_tokens db1)
                  {| t_token := Uuid.v4 rnds_token; t_quiz_result_id := q_id row0;
                     t_expires_at := (later + 7 * 24 * 60 * 60 * 1000)%Z;
                     t_created_at := later |} Fresh) as L.
    cbn [t_token t_expires_at t_quiz_result_id] in L. rewrite L.
    apply Z.ltb_lt in Lt. rewrite Lt, filter_eqb_sym, F. reflexivity. }
  split; [exact R|].
  rewrite (download_live generatePresignedPdfUrl _ _ _ _ _ (v4_not_empty rnds_token) R).
  replace (q_s3_key row) with (@None string) by congruence. reflexivity.
Qed.

End PipelineFacts.

Lemma save_results_link_witness :
  exists p row t,
    save_results_sample
    = (Index.Accepted (Uuid.v4 draw_a) "Results saved. PDF generation started in background.",
       snd (fst save_results_sample), [p]) /\
    Index.w_email p = "Dana@Example.com" /\
    Index.w_downloadLink p
    = "https://api.example/download?token=c8112233-4455-4677-8899-aabbccddee01" /\
    getQuizResultById (snd (fst save_results_sample)) (Uuid.v4 draw_a) = success row /\
    q_email row = "dana@example.com" /\ q_s3_key row = None /\
    verifyDownloadToken 5000 (snd (fst save_results_sample)) (Uuid.v4 draw_c)
    = success (t, row) /\
    Index.download presign_up 5000 (snd (fst save_results_sample))
      (Some (JStr (Uuid.v4 draw_c)))
    = Index.Redirect "https://bucket.s3.amazonaws.com/pdfs/r.pdf?X-Amz-Signature=0".
Proof.
  destruct (snd save_results_sample) as [|p [|]] eqn:Ps;
    try (vm_compute in Ps; discriminate Ps).
  assert (E : save_results_sample
              = (Index.Accepted (Uuid.v4 draw_a)
                   "Results saved. PDF generation started in background.",
                 snd (fst save_results_sample), [p])).
  { rewrite <- Ps. vm_compute. reflexivity. }
  unfold save_results_sample at 1 in E.
  destruct (save_results_link render_ok upload_ok post_ok "/tmp" "https://api.example"
              presign_up _ _ _ _ _ _ _ _ _ _ _ _ p E (or_introl eq_refl))
    as (row & t & _ & Em & Li & _ & G & _ & K & Live).
  destruct (Live 5000%Z) as [R D]; [lia|].
  exists p, row, t. split; [exact E|]. split; [congruence|].
  split; [rewrite Li; vm_compute; reflexivity|].
  split; [exact G|]. split.
  { pose proof G as G'. vm_compute in G'. injection G' as <-. reflexivity. }
  split; [exact K|]. split; [exact R|exact D].
Defined.


(** ** The download handlers *)

Section Handlers.

Variable generatePresignedPdfUrl : option string -> nat -> outcome string.

(** X26. [GET /download] on the Supabase store answers 410 exactly when
    the token is a non-empty string that matches a single link whose
    expiry lies strictly before the current time; at the instant of its
    expiry a link is still served (the window is closed on the right,
    unlike that of [verifyDownloadToken]). *)
Theorem supabase_download_gone (now : Z) (links : list SupabaseApp.pdf_link)
    (token : option jsval) :
  (SupabaseApp.download generatePresignedPdfUrl now links token
   = Index.Json 410 "Link has expired"
   <-> exists tok record,
         token = Some (JStr tok) /\ tok <> "" /\
         List.filter (fun l => SupabaseApp.l_token l =? tok) links = [record] /\
         (SupabaseApp.l_expires_at record < now)%Z) /\
  (forall tok record,
     token = Some (JStr tok) -> tok <> "" ->
     List.filter (fun l => SupabaseApp.l_token l =? tok) links = [record] ->
     SupabaseApp.l_expires_at record = now ->
     SupabaseApp.download generatePresignedPdfUrl now links token
     = match generatePresignedPdfUrl (SupabaseApp.l_s3_key record) (7 * 60 * 60) with
       | success url => Index.Redirect url
       | failure _ => Index.Json 500 "Could not generate download link"
       end).
Proof.
  unfold SupabaseApp.download, SupabaseApp.getPdfLinkByToken. split; [split|].
  - destruct token as [[tok|b k]|]; cbn [truthy]; [|destruct b; discriminate|discriminate].
    destruct (String.eqb_spec tok "") as [->|N]; cbn [negb]; [discriminate|].
    destruct (List.filter _ links) as [|record [|]] eqn:F; try discriminate.
    destruct (SupabaseApp.l_expires_at record <? now)%Z eqn:X.
    + intros _. exists tok, record. apply Z.ltb_lt in X. auto.
    + destruct (generatePresignedPdfUrl _ _); discriminate.
  - intros (tok & record & -> & N & F & X). cbn [truthy].
    apply String.eqb_neq in N. rewrite N. cbn [negb]. rewrite F.
    apply Z.ltb_lt in X. now rewrite X.
  - intros tok record -> N F X. cbn [truthy].
    apply String.eqb_neq in N. rewrite N. cbn [negb]. rewrite F, X, Z.ltb_irrefl.
    reflexivity.
Qed.

(** X27. [GET /download] on the PostgreSQL store redirects exactly when
    the token is a non-empty string that [verifyDownloadToken] accepts
    and the object store signs the key of the joined result; the target
    is the signed URL. *)
Theorem download_redirects (now : Z) (db : database) (token : option jsval) (url : string) :
  Index.download generatePresignedPdfUrl now db token = Index.Redirect url
  <-> exists tok t q,
        token = Some (JStr tok) /\ tok <> "" /\
        verifyDownloadToken now db tok = success (t, q) /\
        generatePresignedPdfUrl (q_s3_key q) (7 * 60 * 60) = success url.
Proof.
  unfold Index.download. split.
  - destruct token as [[tok|b k]|]; cbn [truthy]; [|destruct b; discriminate|discriminate].
    destruct (String.eqb_spec tok "") as [->|N]; cbn [negb]; [discriminate|].
    destruct (verifyDownloadToken now db tok) as [[t q]|e] eqn:V; [|discriminate].
    destruct (generatePresignedPdfUrl (q_s3_key q) (7 * 60 * 60)) as [u|e] eqn:G;
      [|discriminate].
    intros [= <-]. exists tok, t, q. auto.
  - intros (tok & t & q & -> & N & V & G). cbn [truthy].
    apply String.eqb_neq in N. rewrite N. cbn [negb]. now rewrite V, G.
Qed.

End Handlers.

(** ** Agent access tokens *)

Lemma prefix_drop (p h : string) :
  String.prefix p h = true -> h = p +:+ drop (String.length p) h.
Proof.
  revert h. induction p as [|c p IH]; intros h.
  - destruct h; reflexivity.
  - destruct h as [|d h]; cbn [String.prefix]; [discriminate|].
    destruct (ascii_dec c d) as [<-|]; [|discriminate].
    intros H. cbn [String.length drop]. rewrite append_cons. f_equal. now apply IH.
Qed.

Lemma prefix_append (p t : string) :
  String.prefix p (p +:+ t) = true /\ drop (String.length p) (p +:+ t) = t.
Proof.
  induction p as [|c p [IH1 IH2]].
  - change ("" +:+ t) with t. split; [now destruct t|now destruct t].
  - rewrite append_cons. cbn [String.prefix String.length drop].
    destruct (ascii_dec c c); [now split|contradiction].
Qed.

(** X28. [verifyAgentTokenMiddleware] lets a request pass exactly when
    its authorization header is [Bearer ] followed by a token that
    [jwt.verify] accepts and whose payload has the type
    [agent_access]; the user id it attaches is the one of the payload. *)
Theorem verifyAgentTokenMiddleware_next
    (jwt_verify : string -> option AgentToken.decoded)
    (authHeader : option string) (u : string) :
  AgentToken.verifyAgentTokenMiddleware jwt_verify authHeader = AgentToken.Next u
  <-> exists token d,
        authHeader = Some ("Bearer " +:+ token) /\
        jwt_verify token = Some d /\
        AgentToken.token_type d = "agent_access" /\ AgentToken.userId d = u.
Proof.
  unfold AgentToken.verifyAgentTokenMiddleware, AgentToken.verifyAgentToken. split.
  - destruct authHeader as [h|]; [|discriminate].
    destruct (h =? ""); cbn [orb]; [discriminate|].
    destruct (String.prefix "Bearer " h) eqn:P; cbn [negb]; [|discriminate].
    apply prefix_drop in P. change (String.length "Bearer ") with 7 in P.
    destruct (jwt_verify (drop 7 h)) as [d|] eqn:J; [|discriminate].
    destruct (String.eqb_spec (AgentToken.token_type d) "agent_access") as [T|];
      [|discriminate].
    intros [= <-]. exists (drop 7 h), d. split; [now f_equal|auto].
  - intros (token & d & -> & J & T & <-).
    destruct (prefix_append "Bearer " token) as [P D].
    change (String.length "Bearer ") with 7 in D.
    replace ("Bearer " +:+ token =? "") with false by reflexivity.
    cbn [orb]. rewrite P. cbn [negb]. rewrite D, J, T. reflexivity.
Qed.

(** ** Which result an address finds *)



